(** * CertiChain backend: credential lifecycle, anchoring and verification

    A shallow embedding of the certificate model
    (models/Certificate.model.js), the certificate and verify controllers,
    the blockchain service and the QR service, with the properties of the
    credential lifecycle stated over it. *)

From Stdlib Require Import ZArith QArith Qround Qabs Lia Bool Ascii String List.
From stdpp Require Import base option gmap strings list fin_maps.

Set Warnings "-register-all".

Local Open Scope Z_scope.
Local Open Scope string_scope.

(** ** SHA-256 (FIPS 180-4), the digest behind [crypto.createHash('sha256')].

    Words are 32-bit values kept in [Z] with the wrap-around written out. *)
Module Sha256.

Definition w32 (x : Z) : Z := x mod 2 ^ 32.
Definition add32 (x y : Z) : Z := w32 (x + y).
Definition not32 (x : Z) : Z := Z.lxor x 4294967295.
Definition rotr (n x : Z) : Z :=
  Z.lor (Z.shiftr x n) (w32 (Z.shiftl x (32 - n))).
Definition shr (n x : Z) : Z := Z.shiftr x n.

Definition Ch (x y z : Z) : Z := Z.lxor (Z.land x y) (Z.land (not32 x) z).
Definition Maj (x y z : Z) : Z :=
  Z.lxor (Z.lxor (Z.land x y) (Z.land x z)) (Z.land y z).
Definition bigSigma0 (x : Z) : Z :=
  Z.lxor (Z.lxor (rotr 2 x) (rotr 13 x)) (rotr 22 x).
Definition bigSigma1 (x : Z) : Z :=
  Z.lxor (Z.lxor (rotr 6 x) (rotr 11 x)) (rotr 25 x).
Definition smallSigma0 (x : Z) : Z :=
  Z.lxor (Z.lxor (rotr 7 x) (rotr 18 x)) (shr 3 x).
Definition smallSigma1 (x : Z) : Z :=
  Z.lxor (Z.lxor (rotr 17 x) (rotr 19 x)) (shr 10 x).

(** The round constants are the first 32 bits of the fractional parts of
    the cube roots of the first sixty-four primes, the initial hash value
    those of the square roots of the first eight. *)
Definition primes : list Z :=
  [2; 3; 5; 7; 11; 13; 17; 19; 23; 29; 31; 37; 41; 43; 47; 53; 59; 61; 67; 71; 73; 79; 83;
   89; 97; 101; 103; 107; 109; 113; 127; 131; 137; 139; 149; 151; 157; 163; 167; 173; 179;
   181; 191; 193; 197; 199; 211; 223; 227; 229; 233; 239; 241; 251; 257; 263; 269; 271;
   277; 281; 283; 293; 307; 311].

(** The largest [r + d] with [d < 2 ^ bits] whose cube is at most [x]. *)
Fixpoint cube_root (bits : nat) (x r : Z) : Z :=
  match bits with
  | O => r
  | S b =>
      let r' := r + 2 ^ Z.of_nat b in
      if Z.leb (r' * r' * r') x then cube_root b x r' else cube_root b x r
  end.

Definition K : list Z :=
  Eval vm_compute in map (fun p => w32 (cube_root 40 (p * 2 ^ 96) 0)) primes.

(** Padding: one [0x80] byte, zero bytes up to 56 mod 64, then the bit
    length as a 64-bit big-endian integer. *)
Definition be_bytes (n : nat) (x : Z) : list Z :=
  map (fun i => Z.land (Z.shiftr x (8 * Z.of_nat i)) 255) (rev (seq 0 n)).

Definition pad (msg : list Z) : list Z :=
  let len := Z.of_nat (length msg) in
  let zeros := Z.to_nat ((55 - len) mod 64) in
  msg ++ [128] ++ repeat 0 zeros ++ be_bytes 8 (8 * len).

Fixpoint words (fuel : nat) (bs : list Z) : list Z :=
  match fuel, bs with
  | S f, b0 :: b1 :: b2 :: b3 :: rest =>
      (Z.lor (Z.shiftl b0 24) (Z.lor (Z.shiftl b1 16) (Z.lor (Z.shiftl b2 8) b3)))
        :: words f rest
  | _, _ => []
  end.

(** The message schedule, newest word first: from W[t-1] .. W[t-16] the
    next word is s1(W[t-2]) + W[t-7] + s0(W[t-15]) + W[t-16]. *)
Fixpoint schedule (n : nat) (w : list Z) : list Z :=
  match n with
  | O => w
  | S n' =>
      let x := add32 (add32 (smallSigma1 (nth 1 w 0)) (nth 6 w 0))
                     (add32 (smallSigma0 (nth 14 w 0)) (nth 15 w 0)) in
      schedule n' (x :: w)
  end.

Record regs := Regs { ra : Z; rb : Z; rc : Z; rd : Z; re : Z; rf : Z; rg : Z; rh : Z }.

Definition round (s : regs) (kw : Z * Z) : regs :=
  let '(k, w) := kw in
  let t1 := add32 (add32 (add32 (rh s) (bigSigma1 (re s)))
                         (add32 (Ch (re s) (rf s) (rg s)) k)) w in
  let t2 := add32 (bigSigma0 (ra s)) (Maj (ra s) (rb s) (rc s)) in
  Regs (add32 t1 t2) (ra s) (rb s) (rc s) (add32 (rd s) t1) (re s) (rf s) (rg s).

Definition compress (h : regs) (block : list Z) : regs :=
  let w := rev (schedule 48 (rev block)) in
  let s := fold_left round (combine K w) h in
  Regs (add32 (ra h) (ra s)) (add32 (rb h) (rb s)) (add32 (rc h) (rc s))
       (add32 (rd h) (rd s)) (add32 (re h) (re s)) (add32 (rf h) (rf s))
       (add32 (rg h) (rg s)) (add32 (rh h) (rh s)).

Fixpoint blocks (fuel : nat) (h : regs) (ws : list Z) : regs :=
  match fuel with
  | O => h
  | S f =>
      match ws with
      | [] => h
      | _ => blocks f (compress h (firstn 16 ws)) (skipn 16 ws)
      end
  end.

Definition init : regs :=
  Eval vm_compute in
    match map (fun p => w32 (Z.sqrt (p * 2 ^ 64))) (firstn 8 primes) with
    | [a; b; c; d; e; f; g; h] => Regs a b c d e f g h
    | _ => Regs 0 0 0 0 0 0 0 0
    end.

Definition digest_words (msg : list Z) : list Z :=
  let p := pad msg in
  let ws := words (length p) p in
  let r := blocks (length ws) init ws in
  [ra r; rb r; rc r; rd r; re r; rf r; rg r; rh r].

(** [digest('hex')]: lower-case hexadecimal, eight digits per word. *)
Definition hex_digit (n : Z) : ascii :=
  match n with
  | 0 => "0" | 1 => "1" | 2 => "2" | 3 => "3" | 4 => "4" | 5 => "5"
  | 6 => "6" | 7 => "7" | 8 => "8" | 9 => "9" | 10 => "a" | 11 => "b"
  | 12 => "c" | 13 => "d" | 14 => "e" | _ => "f"
  end%char.

Definition hex8 (w : Z) : list ascii :=
  map (fun i => hex_digit (Z.land (Z.shiftr w (4 * i)) 15)) [7; 6; 5; 4; 3; 2; 1; 0].

Definition bytes_of_string (s : string) : list Z :=
  map (fun c => Z.of_N (N_of_ascii c)) (list_ascii_of_string s).

Definition hexdigest (s : string) : string :=
  string_of_list_ascii (concat (map hex8 (digest_words (bytes_of_string s)))).

End Sha256.


(** ** JavaScript values and runtime services *)

(** A call returns or throws; the thrown value is the error's message. *)
Inductive result (A : Type) : Type :=
| Ok (a : A)
| Throw (message : string).
Arguments Ok {A} a.
Arguments Throw {A} message.

(** What the code takes from the JavaScript runtime and from the [qrcode]
    package: number rendering and the QR image renderer. *)
Class JsRuntime := {
  Number_toString : Q -> Z -> string;     (* Number.prototype.toString(radix) *)
  QRCode_toDataURL : string -> result string
}.

(** [a || b] on a possibly undefined string: the empty string is falsy. *)
Definition or_else (a : option string) (b : string) : string :=
  match a with
  | Some s => if String.eqb s "" then b else s
  | None => b
  end.

(** [a || []] on a possibly undefined array: every array is truthy. *)
Definition or_empty {A} (a : option (list A)) : list A :=
  match a with Some l => l | None => [] end.

(** Truthiness of a possibly undefined Number: [undefined] and [0] are falsy. *)
Definition truthy_number (n : option Z) : bool :=
  match n with Some k => negb (Z.eqb k 0) | None => false end.

(** Template-literal rendering of a possibly undefined string. *)
Definition render (a : option string) : string :=
  match a with Some s => s | None => "undefined" end.

Definition upper_ascii (c : ascii) : ascii :=
  let n := nat_of_ascii c in
  if (Nat.leb 97 n && Nat.leb n 122)%bool then ascii_of_nat (n - 32)%nat else c.

Definition toUpperCase (s : string) : string :=
  string_of_list_ascii (map upper_ascii (list_ascii_of_string s)).

Definition lower_ascii (c : ascii) : ascii :=
  let n := nat_of_ascii c in
  if (Nat.leb 65 n && Nat.leb n 90)%bool then ascii_of_nat (n + 32)%nat else c.

Definition toLowerCase (s : string) : string :=
  string_of_list_ascii (map lower_ascii (list_ascii_of_string s)).

(** [s.substring(a, b)] for [0 <= a <= b]. *)
Definition substring (a b : nat) (s : string) : string :=
  String.substring a (b - a)%nat s.

Definition is_hex (c : ascii) : bool :=
  let n := nat_of_ascii c in
  ((Nat.leb 48 n && Nat.leb n 57) || (Nat.leb 65 n && Nat.leb n 70)
   || (Nat.leb 97 n && Nat.leb n 102))%bool.

(** [/^[0-9a-fA-F]{n}$/] *)
Definition hex_of_length (n : nat) (s : string) : bool :=
  (Nat.eqb (String.length s) n && forallb is_hex (list_ascii_of_string s))%bool.

(** ** Dates (ECMA-262, Date objects)

    A Date is its time value, the milliseconds since the epoch. What
    [Date.prototype.toString] and [getFullYear] give is read in the local
    time zone of the host, which is a setting of the process and can change
    while it runs. *)
Record TimeZone := mkTimeZone {
  LocalTZA : Z -> Z;     (* the offset of local time from UTC at a time value, in ms *)
  tzName : Z -> string   (* the implementation-defined name, given with its " (...)" *)
}.

Definition msPerDay : Z := 86400000.

Definition LocalTime (tz : TimeZone) (t : Z) : Z := t + LocalTZA tz t.

Definition Day (t : Z) : Z := t / msPerDay.

(** 0 is Sunday; day 0 was a Thursday. *)
Definition WeekDay (t : Z) : Z := (Day t + 4) mod 7.

Definition HourFromTime (t : Z) : Z := (t / 3600000) mod 24.
Definition MinFromTime (t : Z) : Z := (t / 60000) mod 60.
Definition SecFromTime (t : Z) : Z := (t / 1000) mod 60.

(** Year, month (0 is January) and day of the month of a day number, in
    the proleptic Gregorian calendar: the years are counted from a first of
    March, in eras of 400 years. *)
Definition civil (day : Z) : Z * Z * Z :=
  let z := day + 719468 in
  let era := z / 146097 in
  let doe := z - era * 146097 in
  let yoe := (doe - doe / 1460 + doe / 36524 - doe / 146096) / 365 in
  let doy := doe - (365 * yoe + yoe / 4 - yoe / 100) in
  let mp := (5 * doy + 2) / 153 in
  let d := doy - (153 * mp + 2) / 5 + 1 in
  let m := if Z.ltb mp 10 then mp + 2 else mp - 10 in
  let y := yoe + era * 400 + (if Z.leb m 1 then 1 else 0) in
  (y, m, d).

Definition YearFromTime (t : Z) : Z := (civil (Day t)).1.1.
Definition MonthFromTime (t : Z) : Z := (civil (Day t)).1.2.
Definition DateFromTime (t : Z) : Z := (civil (Day t)).2.

Fixpoint decimal_digits (fuel : nat) (n : Z) (acc : string) : string :=
  match fuel with
  | O => acc
  | S f =>
      let acc' := String (ascii_of_nat (48 + Z.to_nat (n mod 10))) acc in
      if Z.eqb (n / 10) 0 then acc' else decimal_digits f (n / 10) acc'
  end.

Fixpoint zeros (k : nat) : string :=
  match k with
  | O => ""
  | S k' => String "0" (zeros k')
  end.

(** The decimal digits of [n >= 0], with zeros in front up to [minLength]. *)
Definition ToZeroPaddedDecimalString (n : Z) (minLength : nat) : string :=
  let digits := decimal_digits 64 n "" in
  zeros (minLength - String.length digits) ++ digits.

Definition weekday_name (d : Z) : string :=
  nth (Z.to_nat d) ["Sun"; "Mon"; "Tue"; "Wed"; "Thu"; "Fri"; "Sat"] "".

Definition month_name (m : Z) : string :=
  nth (Z.to_nat m)
    ["Jan"; "Feb"; "Mar"; "Apr"; "May"; "Jun"; "Jul"; "Aug"; "Sep"; "Oct"; "Nov"; "Dec"] "".

Definition DateString (t : Z) : string :=
  let yv := YearFromTime t in
  weekday_name (WeekDay t) ++ " " ++ month_name (MonthFromTime t) ++ " "
  ++ ToZeroPaddedDecimalString (DateFromTime t) 2 ++ " "
  ++ (if Z.leb 0 yv then "" else "-") ++ ToZeroPaddedDecimalString (Z.abs yv) 4.

Definition TimeString (t : Z) : string :=
  ToZeroPaddedDecimalString (HourFromTime t) 2 ++ ":"
  ++ ToZeroPaddedDecimalString (MinFromTime t) 2 ++ ":"
  ++ ToZeroPaddedDecimalString (SecFromTime t) 2 ++ " GMT".

Definition TimeZoneString (tz : TimeZone) (tv : Z) : string :=
  let offset := LocalTZA tz tv in
  (if Z.leb 0 offset then "+" else "-")
  ++ ToZeroPaddedDecimalString (HourFromTime (Z.abs offset)) 2
  ++ ToZeroPaddedDecimalString (MinFromTime (Z.abs offset)) 2
  ++ tzName tz tv.

(** [Date.prototype.toString()], which is also what a template literal
    makes of a Date; a time value out of range is an invalid Date. *)
Definition Date_toString (tz : TimeZone) (tv : Z) : string :=
  if Z.ltb 8640000000000000 (Z.abs tv) then "Invalid Date"
  else
    let t := LocalTime tz tv in
    DateString t ++ " " ++ TimeString t ++ TimeZoneString tz tv.

(** [Date.prototype.getFullYear()], of a valid Date. *)
Definition Date_getFullYear (tz : TimeZone) (tv : Z) : Z := YearFromTime (LocalTime tz tv).

(** ** Data model (models/Certificate.model.js, College.model.js, User.model.js) *)

Inductive Status := PENDING | MINTED | VERIFIED | REVOKED.

#[global] Instance Status_eq_dec : EqDecision Status.
Proof. solve_decision. Defined.

(** The payload is taken as typed by the schema: a string where the schema
    has String, a number where it has Number, a date (epoch ms) where it
    has Date, a field that may be absent as an option. The route validators
    type the scalar fields of a request before a controller runs; an empty
    string passes them, and the sub-documents are not looked into. *)
Module Address.
Record t := mk {
  street : option string;
  city : option string;
  state : option string;
  country : option string;
  zipCode : option string
}.
End Address.

Module StudentData.
Record t := mk {
  name : string;
  email : string;
  phone : option string;
  studentId : string;
  dateOfBirth : option Z;
  address : option Address.t
}.
End StudentData.

Module Subject.
Record t := mk {
  subjectCode : option string;
  subjectName : option string;
  credits : option Q;
  grade : option string;
  marks_obtained : option Q;
  marks_total : option Q
}.
End Subject.

Module Semester.
Record t := mk {
  semesterNumber : option Q;
  year : option Q;
  subjects : list Subject.t;
  semesterCGPA : option Q;
  semesterPercentage : option Q;
  result : option string
}.
End Semester.

Module Certification.
Record t := mk {
  name : option string;
  issuedBy : option string;
  dateIssued : option Z;
  validUntil : option Z
}.
End Certification.

Module Project.
Record t := mk {
  title : option string;
  description : option string;
  technologies : list string;
  duration : option string;
  role : option string
}.
End Project.

Module Internship.
Record t := mk {
  company : option string;
  position : option string;
  duration : option string;
  description : option string
}.
End Internship.

Module Achievement.
Record t := mk {
  title : option string;
  description : option string;
  date : option Z;
  category : option string
}.
End Achievement.

Module Thesis.
Record t := mk {
  title : option string;
  guide : option string;
  abstract_text : option string;          (* abstract *)
  grade : option string
}.
End Thesis.

Module Attendance.
Record t := mk {
  overall : option Q;
  remarks : option string
}.
End Attendance.

Module DisciplinaryRecord.
Record t := mk {
  clean : option bool;
  remarks : option string
}.
End DisciplinaryRecord.

Module AcademicData.
Record t := mk {
  degree : string;
  specialization : option string;
  duration : string;
  admissionYear : Z;
  graduationYear : Z;
  overallCGPA : Q;
  overallPercentage : Q;
  classification : string;
  semesters : list Semester.t;
  technicalSkills : list string;
  softSkills : list string;
  certifications : list Certification.t;
  projects : list Project.t;
  internships : list Internship.t;
  achievements : list Achievement.t;
  thesis : option Thesis.t;
  attendance : option Attendance.t;
  disciplinaryRecord : DisciplinaryRecord.t
}.
End AcademicData.

(** [req.body.academicData]: the collections may be absent. *)
Module AcademicInput.
Record t := mk {
  degree : string;
  specialization : option string;
  duration : string;
  admissionYear : Z;
  graduationYear : Z;
  overallCGPA : Q;
  overallPercentage : Q;
  classification : string;
  semesters : option (list Semester.t);
  technicalSkills : option (list string);
  softSkills : option (list string);
  certifications : option (list Certification.t);
  projects : option (list Project.t);
  internships : option (list Internship.t);
  achievements : option (list Achievement.t);
  thesis : option Thesis.t;
  attendance : option Attendance.t;
  disciplinaryRecord : option DisciplinaryRecord.t
}.
End AcademicInput.

Module Blockchain.
Record t := mk {
  certificateHash : option string;
  transactionHash : option string;
  blockNumber : option Z;
  walletAddress : option string;
  contractAddress : option string
}.
Definition empty : t := mk None None None None None.
End Blockchain.

Module Metadata.
Record t := mk {
  ipfsHash : option string;
  qrCode : option string;
  verificationLink : option string;
  templateUsed : option string;
  revocationReason : option string
}.
Definition empty : t := mk None None None None None.
End Metadata.

Record Certificate := mkCertificate {
  _id : string;
  tokenId : option Z;
  studentData : StudentData.t;
  college : string;
  academicData : AcademicData.t;
  apiCode : option string;
  blockchain : Blockchain.t;
  metadata : Metadata.t;
  status : Status;
  issuedBy : string;
  issuedAt : Z;
  verificationCount : Z;
  lastVerified : option Z
}.

Module College.
Record t := mk {
  _id : string;
  code : string;
  walletAddress : option string        (* blockchain.walletAddress *)
}.
End College.

Module User.
Record t := mk {
  _id : string;
  college : option string              (* reference to a College *)
}.
End User.

(** Assignments to the fields of a loaded document. *)
Definition set_tokenId (v : option Z) (c : Certificate) : Certificate :=
  mkCertificate (_id c) v (studentData c) (college c) (academicData c) (apiCode c)
    (blockchain c) (metadata c) (status c) (issuedBy c) (issuedAt c)
    (verificationCount c) (lastVerified c).

Definition set_apiCode (v : string) (c : Certificate) : Certificate :=
  mkCertificate (_id c) (tokenId c) (studentData c) (college c) (academicData c) (Some v)
    (blockchain c) (metadata c) (status c) (issuedBy c) (issuedAt c)
    (verificationCount c) (lastVerified c).

Definition set_blockchain (b : Blockchain.t) (c : Certificate) : Certificate :=
  mkCertificate (_id c) (tokenId c) (studentData c) (college c) (academicData c) (apiCode c)
    b (metadata c) (status c) (issuedBy c) (issuedAt c)
    (verificationCount c) (lastVerified c).

Definition set_metadata (m : Metadata.t) (c : Certificate) : Certificate :=
  mkCertificate (_id c) (tokenId c) (studentData c) (college c) (academicData c) (apiCode c)
    (blockchain c) m (status c) (issuedBy c) (issuedAt c)
    (verificationCount c) (lastVerified c).

Definition set_status (s : Status) (c : Certificate) : Certificate :=
  mkCertificate (_id c) (tokenId c) (studentData c) (college c) (academicData c) (apiCode c)
    (blockchain c) (metadata c) s (issuedBy c) (issuedAt c)
    (verificationCount c) (lastVerified c).

Definition set_verificationCount (n : Z) (c : Certificate) : Certificate :=
  mkCertificate (_id c) (tokenId c) (studentData c) (college c) (academicData c) (apiCode c)
    (blockchain c) (metadata c) (status c) (issuedBy c) (issuedAt c)
    n (lastVerified c).

Definition set_lastVerified (d : Z) (c : Certificate) : Certificate :=
  mkCertificate (_id c) (tokenId c) (studentData c) (college c) (academicData c) (apiCode c)
    (blockchain c) (metadata c) (status c) (issuedBy c) (issuedAt c)
    (verificationCount c) (Some d).

Definition set_certificateHash (h : string) (c : Certificate) : Certificate :=
  let b := blockchain c in
  set_blockchain
    (Blockchain.mk (Some h) (Blockchain.transactionHash b) (Blockchain.blockNumber b)
       (Blockchain.walletAddress b) (Blockchain.contractAddress b)) c.

Definition set_transactionHash (h : option string) (c : Certificate) : Certificate :=
  let b := blockchain c in
  set_blockchain
    (Blockchain.mk (Blockchain.certificateHash b) h (Blockchain.blockNumber b)
       (Blockchain.walletAddress b) (Blockchain.contractAddress b)) c.

Definition set_blockNumber (n : option Z) (c : Certificate) : Certificate :=
  let b := blockchain c in
  set_blockchain
    (Blockchain.mk (Blockchain.certificateHash b) (Blockchain.transactionHash b) n
       (Blockchain.walletAddress b) (Blockchain.contractAddress b)) c.

Definition set_qrCode (q : string) (c : Certificate) : Certificate :=
  let m := metadata c in
  set_metadata
    (Metadata.mk (Metadata.ipfsHash m) (Some q) (Metadata.verificationLink m)
       (Metadata.templateUsed m) (Metadata.revocationReason m)) c.

Definition set_verificationLink (l : string) (c : Certificate) : Certificate :=
  let m := metadata c in
  set_metadata
    (Metadata.mk (Metadata.ipfsHash m) (Metadata.qrCode m) (Some l)
       (Metadata.templateUsed m) (Metadata.revocationReason m)) c.

Definition set_revocationReason (r : option string) (c : Certificate) : Certificate :=
  let m := metadata c in
  set_metadata
    (Metadata.mk (Metadata.ipfsHash m) (Metadata.qrCode m) (Metadata.verificationLink m)
       (Metadata.templateUsed m) r) c.

(** ** The world a request handler runs in *)

(** [process.env] *)
Record ProcessEnv := mkProcessEnv {
  CLIENT_URL : option string;
  BLOCKCHAIN_PRIVATE_KEY : option string;
  CONTRACT_ADDRESS : option string
}.

(** An invocation of the blockchain service, as the world remembers it. *)
Inductive LedgerCall :=
| MintCall (walletAddress : option string) (certificateHash : string)
| VerifyCall (tokenId : Z)
| VerifyByHashCall (certificateHash : string)
| RevokeCall (tokenId : Z).

(** The collections of the store, the clock and the local time zone of the
    host, the upcoming results of [Math.random()] and of the ObjectId
    generator, and the invocations of the blockchain service so far (latest
    first). *)
Record World := mkWorld {
  certificates : gmap string Certificate;
  users : gmap string User.t;
  colleges : gmap string College.t;
  now : Z;
  timeZone : TimeZone;
  randoms : nat -> Q;
  random_next : nat;
  objectIds : nat -> string;
  objectId_next : nat;
  ledger_calls : list LedgerCall
}.

Definition with_certificates (m : gmap string Certificate) (w : World) : World :=
  mkWorld m (users w) (colleges w) (now w) (timeZone w) (randoms w) (random_next w)
    (objectIds w) (objectId_next w) (ledger_calls w).

Definition with_ledger_calls (l : list LedgerCall) (w : World) : World :=
  mkWorld (certificates w) (users w) (colleges w) (now w) (timeZone w) (randoms w) (random_next w)
    (objectIds w) (objectId_next w) l.

(** A computation reads and writes the world and returns or throws. *)
Definition M (A : Type) : Type := World -> result A * World.

#[global] Instance M_ret : MRet M := fun A a w => (Ok a, w).

#[global] Instance M_bind : MBind M := fun A B f m w =>
  match m w with
  | (Ok a, w') => f a w'
  | (Throw e, w') => (Throw e, w')
  end.

Definition throw {A} (e : string) : M A := fun w => (Throw e, w).

Definition lift {A} (r : result A) : M A := fun w => (r, w).

Definition try_catch {A} (body : M A) (handler : string -> M A) : M A := fun w =>
  match body w with
  | (Ok a, w') => (Ok a, w')
  | (Throw e, w') => handler e w'
  end.

Definition gets {A} (f : World -> A) : M A := fun w => (Ok (f w), w).

Definition Date_now : M Z := gets now.

Definition Math_random : M Q := fun w =>
  (Ok (randoms w (random_next w)),
   mkWorld (certificates w) (users w) (colleges w) (now w) (timeZone w) (randoms w)
     (S (random_next w)) (objectIds w) (objectId_next w) (ledger_calls w)).

Definition new_ObjectId : M string := fun w =>
  (Ok (objectIds w (objectId_next w)),
   mkWorld (certificates w) (users w) (colleges w) (now w) (timeZone w) (randoms w)
     (random_next w) (objectIds w) (S (objectId_next w)) (ledger_calls w)).

Definition invoked (c : LedgerCall) : M unit := fun w =>
  (Ok tt, with_ledger_calls (c :: ledger_calls w) w).

(** [await m] inside [try { ... } catch]: the outcome as a value. *)
Definition attempt {A} (m : M A) : M (result A) := fun w =>
  match m w with
  | (r, w') => (Ok r, w')
  end.

(** ** The certificate collection (Mongoose model statics and [save]) *)

(** [Certificate.findById(id)]: the id is cast to an ObjectId (24 hex
    digits, compared by value) and a string that is not one is a CastError. *)
Definition findById (id : string) : M (option Certificate) :=
  if hex_of_length 24 id
  then gets (fun w => certificates w !! toLowerCase id)
  else throw "Cast to ObjectId failed".

(** [Certificate.findOne(filter)] *)
Definition findOne (filter : Certificate -> bool) : M (option Certificate) :=
  gets (fun w =>
    snd <$> List.find (fun kv => filter (snd kv)) (map_to_list (certificates w))).

Definition by_certificateHash (hash : string) (c : Certificate) : bool :=
  match Blockchain.certificateHash (blockchain c) with
  | Some h => String.eqb h hash
  | None => false
  end.

Definition by_apiCode (code : string) (c : Certificate) : bool :=
  match apiCode c with
  | Some a => String.eqb a code
  | None => false
  end.

Definition same_opt_string (a b : option string) : bool :=
  match a, b with
  | Some x, Some y => String.eqb x y
  | None, None => true
  | _, _ => false
  end.

(** The unique indices of the schema: [apiCode], [blockchain.certificateHash]
    and, sparse, [tokenId]. *)
Definition unique_clash (d e : Certificate) : bool :=
  (same_opt_string (apiCode d) (apiCode e)
   || same_opt_string (Blockchain.certificateHash (blockchain d))
                      (Blockchain.certificateHash (blockchain e))
   || match tokenId d, tokenId e with
      | Some a, Some b => Z.eqb a b
      | _, _ => false
      end)%bool.

Definition duplicate_key (d : Certificate) (m : gmap string Certificate) : bool :=
  existsb (fun kv => unique_clash d (snd kv)) (map_to_list (delete (_id d) m)).

(** [required: true] on [apiCode] and [blockchain.certificateHash]. *)
Definition required_present (d : Certificate) : bool :=
  match apiCode d, Blockchain.certificateHash (blockchain d) with
  | Some _, Some _ => true
  | _, _ => false
  end.

(** The validators of the schema, as they run on a document made with
    [new]: a required String is there and not empty, a required Number is
    there, [overallCGPA] is within 0..10 and [overallPercentage] within
    0..100, and so for every semester and every subject of the arrays.
    ([college] and [issuedBy] are the ids of a stored college and user.)
    No String path of this schema has [trim], so text of blanks passes
    [required]; the empty text does not. *)
Definition nonempty (s : string) : bool := negb (String.eqb s "").

Definition required_String (s : option string) : bool :=
  match s with Some x => nonempty x | None => false end.

Definition required_Number (n : option Q) : bool :=
  match n with Some _ => true | None => false end.

Definition subject_valid (s : Subject.t) : bool :=
  (required_String (Subject.subjectName s) && required_Number (Subject.credits s)
   && required_String (Subject.grade s)
   && required_Number (Subject.marks_obtained s) && required_Number (Subject.marks_total s))%bool.

Definition semester_valid (s : Semester.t) : bool :=
  (required_Number (Semester.semesterNumber s) && required_Number (Semester.year s)
   && forallb subject_valid (Semester.subjects s)
   && required_Number (Semester.semesterCGPA s)
   && required_Number (Semester.semesterPercentage s)
   && required_String (Semester.result s))%bool.

Definition schema_valid (d : Certificate) : bool :=
  let sd := studentData d in
  let ad := academicData d in
  (nonempty (StudentData.name sd) && nonempty (StudentData.email sd)
   && nonempty (StudentData.studentId sd)
   && nonempty (AcademicData.degree ad) && nonempty (AcademicData.duration ad)
   && Qle_bool 0 (AcademicData.overallCGPA ad)
   && Qle_bool (AcademicData.overallCGPA ad) 10
   && Qle_bool 0 (AcademicData.overallPercentage ad)
   && Qle_bool (AcademicData.overallPercentage ad) 100
   && nonempty (AcademicData.classification ad)
   && forallb semester_valid (AcademicData.semesters ad)
   && required_String (apiCode d)
   && required_String (Blockchain.certificateHash (blockchain d)))%bool.

(** [doc.save()]: an insert for a document made with [new] ([isNew]), an
    update of the stored document otherwise; it throws on a validation
    error and on a unique-index violation. An insert validates every path
    of the document ([schema_valid]). An update validates the required
    paths that are missing and the paths the handler assigned: the
    handlers assign [metadata.qrCode], [metadata.verificationLink],
    [tokenId], [blockchain.transactionHash], [blockchain.blockNumber],
    [status], [metadata.revocationReason], [verificationCount] and
    [lastVerified], none of which has a validator that can fail. The store
    is taken to be reachable, and a handler's saves to write the whole
    document: between its load and its save nothing else runs, except in
    [Interleaving] below. *)
Definition save (isNew : bool) (d : Certificate) : M unit := fun w =>
  let m := certificates w in
  if negb (required_present d && (negb isNew || schema_valid d))
  then (Throw "Certificate validation failed", w)
  else
    match m !! _id d, isNew with
    | Some _, true => (Throw "E11000 duplicate key error", w)
    | None, false => (Throw "No document found for query", w)
    | _, _ =>
        if duplicate_key d m then (Throw "E11000 duplicate key error", w)
        else (Ok tt, with_certificates (<[_id d := d]> m) w)
    end.

(** [User.findById(id).populate('college')] *)
Definition User_findById_populate (id : string)
  : M (option (User.t * option College.t)) :=
  gets (fun w =>
    match users w !! id with
    | Some u => Some (u, User.college u ≫= fun cid => colleges w !! cid)
    | None => None
    end).

(** ** services/blockchain.service.js *)
Module BlockchainService.

Record Event := mkEvent { event : string; args_tokenId : option Z }.

Record Receipt := mkReceipt {
  events : option (list Event);
  r_transactionHash : string;
  r_blockNumber : Z;
  r_gasUsed : option string              (* a BigNumber, in decimal *)
}.

Record ChainCertificate := mkChainCertificate {
  c_studentName : string;
  c_degree : string;
  c_institution : string;
  c_year : Z;
  c_certificateHash : string;
  c_timestamp : Z;                       (* seconds *)
  c_isValid : bool;
  c_owner : string
}.

Record ChainCertificateByHash := mkChainCertificateByHash {
  h_tokenId : Z;
  h_studentName : string;
  h_degree : string;
  h_institution : string;
  h_year : Z;
  h_isValid : bool
}.

(** The deployed contract behind [this.contract]; each call (with the wait
    for its receipt) returns or throws. *)
Record Contract := mkContract {
  contract_mintCertificate :
    option string -> option string -> option string -> option string -> option Z -> string
    -> result Receipt;
  contract_verifyCertificate : Z -> result ChainCertificate;
  contract_verifyCertificateByHash : string -> result ChainCertificateByHash;
  contract_revokeCertificate : Z -> result Receipt
}.

Record t := mk { contract : option Contract }.

(** [initialize()]: without a private key (or with the placeholder of the
    sample configuration) nothing is connected; otherwise a contract is
    attached when an address is configured and the ethers constructors do
    not throw. *)
Definition initialize (env : ProcessEnv) (connect : string -> string -> result Contract) : t :=
  match BLOCKCHAIN_PRIVATE_KEY env with
  | None => mk None
  | Some key =>
      if (String.eqb key "" || String.eqb key "your_private_key_without_0x_prefix")%bool
      then mk None
      else
        match CONTRACT_ADDRESS env with
        | None => mk None
        | Some addr =>
            if String.eqb addr "" then mk None
            else match connect key addr with
                 | Ok c => mk (Some c)
                 | Throw _ => mk None
                 end
        end
  end.

Record MintResult := mkMintResult {
  tokenId : option Z;
  transactionHash : string;
  blockNumber : Z;
  gasUsed : string
}.

Record Verification := mkVerification {
  studentName : string;
  degree : string;
  institution : string;
  year : Z;
  certificateHash : string;
  timestamp : Z;                         (* a Date, epoch ms *)
  isValid : bool;
  owner : string
}.

Record HashVerification := mkHashVerification {
  hv_tokenId : Z;
  hv_studentName : string;
  hv_degree : string;
  hv_institution : string;
  hv_year : Z;
  hv_isValid : bool
}.

Record RevokeResult := mkRevokeResult {
  rv_transactionHash : string;
  rv_blockNumber : Z
}.

(** [catch (error) { throw new Error(`<prefix>: ${error.message}`) }] *)
Definition rethrow {A} (prefix : string) (m : M A) : M A :=
  try_catch m (fun e => throw (prefix ++ ": " ++ e)).

(** [Math.floor(Math.random() * k)], with the product taken exactly; the
    runtime rounds the product to a double before it takes the floor. *)
Definition floor_scaled (r : Q) (k : Z) : Z := Qfloor (r * inject_Z k)%Q.

Definition mintCertificate `{JsRuntime} (svc : t) (walletAddress : option string)
    (certificateData : AcademicData.t) (certificateHash : string) : M MintResult :=
  invoked (MintCall walletAddress certificateHash);;
  rethrow "Minting failed"
    (match contract svc with
     | None =>
         r1 ← Math_random;
         r2 ← Math_random;
         r3 ← Math_random;
         mret (mkMintResult
                 (Some (floor_scaled r1 10000))
                 ("0x" ++ substring 2 66 (Number_toString r2 16))
                 (floor_scaled r3 1000000)
                 "21000")
     | Some c =>
         (* academicData has a degree but no studentName, institution or year *)
         receipt ← lift (contract_mintCertificate c walletAddress None
                           (Some (AcademicData.degree certificateData)) None None
                           certificateHash);
         let mintEvent :=
           events receipt ≫= List.find (fun e => String.eqb (event e) "CertificateIssued") in
         (* [tokenId?.toNumber()]: a BigNumber beyond the safe integers
            does not convert *)
         tokenId ← match mintEvent ≫= args_tokenId with
                   | Some n =>
                       if Z.ltb 9007199254740991 (Z.abs n) then throw "overflow"
                       else mret (Some n)
                   | None => mret None
                   end;
         gasUsed ← match r_gasUsed receipt with
                   | Some g => mret g
                   | None => throw "Cannot read properties of undefined (reading 'toString')"
                   end;
         mret (mkMintResult tokenId (r_transactionHash receipt) (r_blockNumber receipt)
                 gasUsed)
     end).

Definition verifyCertificate (svc : t) (tokenId : Z) : M Verification :=
  invoked (VerifyCall tokenId);;
  rethrow "Verification failed"
    (match contract svc with
     | None =>
         t ← Date_now;
         mret (mkVerification "Mock Student" "Mock Degree" "Mock Institution" 2024
                 "mock_hash" t true "0x0000000000000000000000000000000000000000")
     | Some c =>
         r ← lift (contract_verifyCertificate c tokenId);
         mret (mkVerification (c_studentName r) (c_degree r) (c_institution r) (c_year r)
                 (c_certificateHash r) (c_timestamp r * 1000) (c_isValid r) (c_owner r))
     end).

Definition verifyCertificateByHash (svc : t) (certificateHash : string) : M HashVerification :=
  invoked (VerifyByHashCall certificateHash);;
  rethrow "Hash verification failed"
    (match contract svc with
     | None => throw "Contract not initialized"
     | Some c =>
         r ← lift (contract_verifyCertificateByHash c certificateHash);
         mret (mkHashVerification (h_tokenId r) (h_studentName r) (h_degree r)
                 (h_institution r) (h_year r) (h_isValid r))
     end).

Definition revokeCertificate (svc : t) (tokenId : Z) : M RevokeResult :=
  invoked (RevokeCall tokenId);;
  rethrow "Revocation failed"
    (match contract svc with
     | None => throw "Contract not initialized"
     | Some c =>
         receipt ← lift (contract_revokeCertificate c tokenId);
         mret (mkRevokeResult (r_transactionHash receipt) (r_blockNumber receipt))
     end).

End BlockchainService.

(** ** services/qr.service.js *)
Module QRService.

Definition generateQRCode `{JsRuntime} (env : ProcessEnv) (certificateId : string) : M string :=
  let baseUrl := or_else (CLIENT_URL env) "http://localhost:3000" in
  let verificationUrl := baseUrl ++ "/verify/" ++ certificateId in
  try_catch (lift (QRCode_toDataURL verificationUrl))
    (fun e => throw ("QR generation failed: " ++ e)).

Inductive QRType := certificateId | certificateHash | unknown | invalid.

Record QRData := mkQRData { type : QRType; value : string; isValid : bool }.

(** [s] with the prefix [p] removed, when [s] starts with [p]. *)
Definition strip_prefix (p s : string) : option string :=
  if String.prefix p s
  then Some (String.substring (String.length p) (String.length s - String.length p) s)
  else None.

(** [/\/verify\/([a-fA-F0-9]{24}|hash\/[a-fA-F0-9]{64})$/] tried at the
    start of [s]; the result is capture group 1. *)
Definition urlPattern_here (s : string) : option string :=
  match strip_prefix "/verify/" s with
  | Some rest =>
      if hex_of_length 24 rest then Some rest
      else
        match strip_prefix "hash/" rest with
        | Some h => if hex_of_length 64 h then Some rest else None
        | None => None
        end
  | None => None
  end.

(** [qrData.match(urlPattern)]: the leftmost position where it matches. *)
Fixpoint urlPattern_match (s : string) : option string :=
  match urlPattern_here s with
  | Some g => Some g
  | None =>
      match s with
      | EmptyString => None
      | String _ s' => urlPattern_match s'
      end
  end.

Definition validateQRData (qrData : string) : QRData :=
  if hex_of_length 24 qrData then mkQRData certificateId qrData true
  else if hex_of_length 64 qrData then mkQRData certificateHash qrData true
  else
    match urlPattern_match qrData with
    | Some path =>
        if String.prefix "hash/" path
        then mkQRData certificateHash
               (String.substring 5 (String.length path - 5) path) true
        else mkQRData certificateId path true
    | None => mkQRData unknown qrData false
    end.

End QRService.

(** ** Certificate model methods *)

(** [generateHash]: SHA-256, in hexadecimal, of
    [`${name}-${degree}-${overallCGPA}-${graduationYear}-${issuedAt}`];
    [issuedAt] is a Date, which the template literal renders in the time
    zone [tz] the host has when the method runs. *)
Definition generateHash_data `{JsRuntime} (tz : TimeZone) (c : Certificate) : string :=
  StudentData.name (studentData c) ++ "-"
  ++ AcademicData.degree (academicData c) ++ "-"
  ++ Number_toString (AcademicData.overallCGPA (academicData c)) 10 ++ "-"
  ++ Number_toString (inject_Z (AcademicData.graduationYear (academicData c))) 10 ++ "-"
  ++ Date_toString tz (issuedAt c).

Definition generateHash `{JsRuntime} (tz : TimeZone) (c : Certificate) : string :=
  Sha256.hexdigest (generateHash_data tz c).

(** [generateApiCode]: [this.college] holds the college's id, which has no
    [code], so the prefix is the fallback. *)
Definition generateApiCode `{JsRuntime} (c : Certificate) : M string :=
  t ← Date_now;
  let timestamp := toUpperCase (Number_toString (inject_Z t) 36) in
  r ← Math_random;
  let random := toUpperCase (substring 2 8 (Number_toString r 36)) in
  let collegeCode := or_else None "CERT" in
  d ← Date_now;
  tz ← gets timeZone;
  let year := Date_getFullYear tz d in
  mret (collegeCode ++ "-" ++ Number_toString (inject_Z year) 10 ++ "-"
        ++ timestamp ++ "-" ++ random).

(** [recordVerification]: the document in memory is incremented and saved;
    the document as changed is returned with it. *)
Definition recordVerification (c : Certificate) : M Certificate :=
  let c := set_verificationCount (verificationCount c + 1) c in
  t ← Date_now;
  let c := set_lastVerified t c in
  save false c;;
  mret c.

(** The virtual [isValid]. *)
Definition isValid (c : Certificate) : bool :=
  (bool_decide (status c = MINTED) || bool_decide (status c = VERIFIED))%bool.

(** ** Responses *)

Record StudentAccess := mkStudentAccess {
  sa_apiCode : option string;
  sa_verificationLink : string;
  sa_qrCode : string
}.

Inductive LedgerSignal :=
| TokenSignal (v : BlockchainService.Verification)
| HashSignal (v : BlockchainService.HashVerification).

Definition signal_isValid (s : LedgerSignal) : bool :=
  match s with
  | TokenSignal v => BlockchainService.isValid v
  | HashSignal v => BlockchainService.hv_isValid v
  end.

(** The [data] of a response; the public view of a certificate is read off
    the document it carries. *)
Inductive Data :=
| IssuedData (certificate : Certificate) (studentAccess : StudentAccess)
| CertificateData (certificate : Certificate)
| VerificationData (certificate : Certificate)
    (blockchainVerification : option LedgerSignal) (verificationCount : Z).

Module Response.
Record t := mk {
  statusCode : Z;
  success : bool;
  message : option string;
  isValid : option bool;
  data : option Data;
  warning : option string;
  error : option string
}.
End Response.

(** [async (req, res) => { try { ... } catch (error) { res.status(..) } }] *)
Definition handler (body : M Response.t) (on_error : string -> Response.t)
  : World -> Response.t * World := fun w =>
  match body w with
  | (Ok r, w') => (r, w')
  | (Throw e, w') => (on_error e, w')
  end.

(** ** controllers/certificate.controller.js *)
Module CertificateController.

Section Handlers.
Context `{JsRuntime} (env : ProcessEnv) (blockchainService : BlockchainService.t).

Definition build_academicData (a : AcademicInput.t) : AcademicData.t :=
  AcademicData.mk
    (AcademicInput.degree a) (AcademicInput.specialization a) (AcademicInput.duration a)
    (AcademicInput.admissionYear a) (AcademicInput.graduationYear a)
    (AcademicInput.overallCGPA a) (AcademicInput.overallPercentage a)
    (AcademicInput.classification a)
    (or_empty (AcademicInput.semesters a))
    (or_empty (AcademicInput.technicalSkills a))
    (or_empty (AcademicInput.softSkills a))
    (or_empty (AcademicInput.certifications a))
    (or_empty (AcademicInput.projects a))
    (or_empty (AcademicInput.internships a))
    (or_empty (AcademicInput.achievements a))
    (AcademicInput.thesis a) (AcademicInput.attendance a)
    (* [disciplinaryRecord || { clean: true }], and the schema's default
       for [clean] *)
    (match AcademicInput.disciplinaryRecord a with
     | Some d =>
         DisciplinaryRecord.mk (Some (default true (DisciplinaryRecord.clean d)))
           (DisciplinaryRecord.remarks d)
     | None => DisciplinaryRecord.mk (Some true) None
     end).

Definition studentAccess_of (certificate : Certificate) (verificationLink qrCode : string)
  : StudentAccess :=
  mkStudentAccess (apiCode certificate) verificationLink qrCode.

(** The [catch (blockchainError)] block of [issueCertificate], run on the
    document as the [try] block left it. *)
Definition minting_pending (certificate : Certificate) (verificationLink qrCode : string)
  : M Response.t :=
  let certificate := set_status PENDING certificate in
  save false certificate;;
  mret (Response.mk 201 true
          (Some "Certificate created with complete academic record, blockchain minting pending")
          None
          (Some (IssuedData certificate (studentAccess_of certificate verificationLink qrCode)))
          (Some "Blockchain minting failed, will retry automatically")
          None).

(** [new Certificate({...})], then the hash and the API code: the document
    as it stands before it is first saved. *)
Definition new_Certificate (studentData : StudentData.t) (academicInput : AcademicInput.t)
    (issuerId : string) (issuer_college : College.t) : M Certificate :=
  id ← new_ObjectId;
  created ← Date_now;
  let certificate :=
    mkCertificate id None studentData (College._id issuer_college)
      (build_academicData academicInput) None Blockchain.empty Metadata.empty
      PENDING issuerId created 0 None in
  tz ← gets timeZone;
  let certificate := set_certificateHash (generateHash tz certificate) certificate in
  code ← generateApiCode certificate;
  mret (set_apiCode code certificate).

Definition issueCertificate (studentData : StudentData.t) (academicInput : AcademicInput.t)
    (issuerId : string) : World -> Response.t * World :=
  handler
    (issuer ← User_findById_populate issuerId;
     match issuer with
     | None => throw "Cannot read properties of null (reading 'college')"
     | Some (_, None) =>
         mret (Response.mk 400 false (Some "Issuer must be associated with a college")
                 None None None None)
     | Some (_, Some issuer_college) =>
         certificate ← new_Certificate studentData academicInput issuerId issuer_college;
         save true certificate;;
         let verificationLink :=
           or_else (CLIENT_URL env) "http://localhost:3000" ++ "/verify/" ++ _id certificate in
         qrCode ← QRService.generateQRCode env verificationLink;
         let certificate := set_verificationLink verificationLink (set_qrCode qrCode certificate) in
         save false certificate;;
         minted ← attempt
           (BlockchainService.mintCertificate blockchainService
              (College.walletAddress issuer_college) (academicData certificate)
              (render (Blockchain.certificateHash (blockchain certificate))));
         match minted with
         | Throw _ => minting_pending certificate verificationLink qrCode
         | Ok mintResult =>
             let certificate :=
               set_status MINTED
                 (set_blockNumber (Some (BlockchainService.blockNumber mintResult))
                    (set_transactionHash (Some (BlockchainService.transactionHash mintResult))
                       (set_tokenId (BlockchainService.tokenId mintResult) certificate))) in
             saved ← attempt (save false certificate);
             match saved with
             | Throw _ => minting_pending certificate verificationLink qrCode
             | Ok _ =>
                 mret (Response.mk 201 true
                         (Some "Certificate issued successfully with complete academic record")
                         None
                         (Some (IssuedData certificate
                                  (studentAccess_of certificate verificationLink qrCode)))
                         None None)
             end
         end
     end)
    (fun e => Response.mk 500 false (Some "Certificate issuance failed") None None None (Some e)).

Definition getCertificateByApiCode (code : string) : World -> Response.t * World :=
  handler
    (found ← findOne (by_apiCode code);
     match found with
     | None =>
         mret (Response.mk 404 false (Some "Certificate not found with this API code")
                 None None None None)
     | Some certificate =>
         certificate ← recordVerification certificate;
         mret (Response.mk 200 true None None (Some (CertificateData certificate)) None None)
     end)
    (fun e => Response.mk 500 false (Some "Failed to fetch certificate") None None None (Some e)).

Definition revokeCertificate (id : string) (reason : string) : World -> Response.t * World :=
  handler
    (found ← findById id;
     match found with
     | None =>
         mret (Response.mk 404 false (Some "Certificate not found") None None None None)
     | Some certificate =>
         (if truthy_number (tokenId certificate)
          then BlockchainService.revokeCertificate blockchainService
                 (default 0 (tokenId certificate));; mret tt
          else mret tt);;
         let certificate := set_status REVOKED certificate in
         let certificate := set_revocationReason (Some reason) certificate in
         save false certificate;;
         mret (Response.mk 200 true (Some "Certificate revoked successfully") None
                 (Some (CertificateData certificate)) None None)
     end)
    (fun e => Response.mk 500 false (Some "Certificate revocation failed") None None None (Some e)).

End Handlers.
End CertificateController.

(** ** controllers/verify.controller.js *)
Module VerifyController.

Section Handlers.
Context (blockchainService : BlockchainService.t).

Definition not_found (message : string) : Response.t :=
  Response.mk 404 false (Some message) (Some false) None None None.

Definition failed (message e : string) : Response.t :=
  Response.mk 500 false (Some message) (Some false) None None (Some e).

(** [if (certificate.tokenId) { try { ... verifyCertificate(tokenId) } catch {} }] *)
Definition ledger_check (certificate : Certificate) : M (option LedgerSignal) :=
  if truthy_number (tokenId certificate)
  then
    r ← attempt (BlockchainService.verifyCertificate blockchainService
                   (default 0 (tokenId certificate)));
    match r with
    | Ok v => mret (Some (TokenSignal v))
    | Throw _ => mret None
    end
  else mret None.

(** [status === 'MINTED' && (!blockchainVerification || blockchainVerification.isValid)] *)
Definition overall_validity (certificate : Certificate)
    (blockchainVerification : option LedgerSignal) : bool :=
  (bool_decide (status certificate = MINTED)
   && match blockchainVerification with
      | None => true
      | Some v => signal_isValid v
      end)%bool.

(** The object of the three [res.json] calls, by the keys all three carry:
    [success], [isValid] and, under [data], [certificate], [college],
    [blockchainVerification] and [verificationCount], all read off the
    document filed. [verifyCertificateById] adds one more key,
    [data.lastVerified], the [lastVerified] of that document; the other two
    handlers do not send it. *)
Definition verified (certificate : Certificate)
    (blockchainVerification : option LedgerSignal) : Response.t :=
  Response.mk 200 true None
    (Some (overall_validity certificate blockchainVerification))
    (Some (VerificationData certificate blockchainVerification
             (verificationCount certificate)))
    None None.

Definition verifyCertificateById (id : string) : World -> Response.t * World :=
  handler
    (found ← findById id;
     match found with
     | None => mret (not_found "Certificate not found")
     | Some certificate =>
         blockchainVerification ← ledger_check certificate;
         certificate ← recordVerification certificate;
         mret (verified certificate blockchainVerification)
     end)
    (failed "Verification failed").

Definition verifyCertificateByHash (hash : string) : World -> Response.t * World :=
  handler
    (found ← findOne (by_certificateHash hash);
     match found with
     | None => mret (not_found "Certificate not found")
     | Some certificate =>
         r ← attempt (BlockchainService.verifyCertificateByHash blockchainService hash);
         let blockchainVerification :=
           match r with
           | Ok v => Some (HashSignal v)
           | Throw _ => None
           end in
         certificate ← recordVerification certificate;
         mret (verified certificate blockchainVerification)
     end)
    (failed "Verification failed").

Definition verifyByQRCode (qrData : string) : World -> Response.t * World :=
  handler
    (byId ← (if hex_of_length 24 qrData then findById qrData else mret None);
     found ← match byId with
             | Some certificate => mret (Some certificate)
             | None => findOne (by_certificateHash qrData)
             end;
     match found with
     | None => mret (not_found "Invalid QR code or certificate not found")
     | Some certificate =>
         blockchainVerification ← ledger_check certificate;
         certificate ← recordVerification certificate;
         mret (verified certificate blockchainVerification)
     end)
    (failed "QR verification failed").

End Handlers.
End VerifyController.

(** ** Routes: the requests of the credential core and their dispatch
    (routes/certificate.routes.js, routes/verify.routes.js) *)
Inductive Request :=
| IssueCertificate (studentData : StudentData.t) (academicInput : AcademicInput.t)
    (issuerId : string)
| GetCertificateByApiCode (code : string)
| RevokeCertificate (id reason : string)
| VerifyCertificateById (id : string)
| VerifyCertificateByHash (hash : string)
| VerifyByQRCode (qrData : string).

Definition serve `{JsRuntime} (env : ProcessEnv) (svc : BlockchainService.t) (req : Request)
  : World -> Response.t * World :=
  match req with
  | IssueCertificate sd ad issuer => CertificateController.issueCertificate env svc sd ad issuer
  | GetCertificateByApiCode code => CertificateController.getCertificateByApiCode code
  | RevokeCertificate id reason => CertificateController.revokeCertificate svc id reason
  | VerifyCertificateById id => VerifyController.verifyCertificateById svc id
  | VerifyCertificateByHash hash => VerifyController.verifyCertificateByHash svc hash
  | VerifyByQRCode qrData => VerifyController.verifyByQRCode svc qrData
  end.

(** Requests served one after the other. *)
Fixpoint serve_all `{JsRuntime} (env : ProcessEnv) (svc : BlockchainService.t)
    (reqs : list Request) (w : World) : list Response.t * World :=
  match reqs with
  | [] => ([], w)
  | req :: rest =>
      let '(r, w1) := serve env svc req w in
      let '(rs, w2) := serve_all env svc rest w1 in
      (r :: rs, w2)
  end.

(** ** Verifications in flight at the same time

    A handler runs until its next [await]; between the [findById] of a
    verification and the [save] of its [recordVerification] the handlers of
    other requests may run. A task is a verification by identifier at one of
    its two store accesses (the ledger call between them does not touch the
    store and is taken with the second). *)
Module Interleaving.

Inductive Task :=
| Fetch (id : string)
| Loaded (certificate : Certificate)
| Finished (response : Response.t).

Definition step (svc : BlockchainService.t) (t : Task) (w : World) : Task * World :=
  match t with
  | Fetch id =>
      match findById id w with
      | (Ok (Some certificate), w') => (Loaded certificate, w')
      | (Ok None, w') => (Finished (VerifyController.not_found "Certificate not found"), w')
      | (Throw e, w') => (Finished (VerifyController.failed "Verification failed" e), w')
      end
  | Loaded certificate =>
      let '(r, w') :=
        handler
          (blockchainVerification ← VerifyController.ledger_check svc certificate;
           certificate ← recordVerification certificate;
           mret (VerifyController.verified certificate blockchainVerification))
          (VerifyController.failed "Verification failed") w in
      (Finished r, w')
  | Finished r => (Finished r, w)
  end.

(** The schedule names, step by step, the task that runs next. *)
Fixpoint run (svc : BlockchainService.t) (schedule : list nat) (tasks : list Task) (w : World)
  : list Task * World :=
  match schedule with
  | [] => (tasks, w)
  | i :: rest =>
      match tasks !! i with
      | Some t =>
          let '(t', w') := step svc t w in
          run svc rest (<[i := t']> tasks) w'
      | None => run svc rest tasks w
      end
  end.

Definition is_finished (t : Task) : bool :=
  match t with Finished _ => true | _ => false end.

End Interleaving.

(** ** A store that satisfies its indices

    Every document is filed under its own id, has its required fields, and
    no two documents clash on a unique index. *)
Definition store_ok (m : gmap string Certificate) : Prop :=
  (forall k c, m !! k = Some c -> _id c = k /\ required_present c = true)
  /\ (forall i j c d, m !! i = Some c -> m !! j = Some d -> i <> j -> unique_clash c d = false).

Definition count_of (w : World) (id : string) : option Z :=
  verificationCount <$> certificates w !! id.

Definition status_of (w : World) (id : string) : option Status :=
  status <$> certificates w !! id.

Definition reason_of (w : World) (id : string) : option (option string) :=
  (fun c => Metadata.revocationReason (metadata c)) <$> certificates w !! id.

(** ** Vocabulary of the properties *)

(** The fields the unique indices are built on. *)
Definition index_keys (c : Certificate) : option string * option string * option Z :=
  (apiCode c, Blockchain.certificateHash (blockchain c), tokenId c).

(** The document after [recordVerification] at time [t]. *)
Definition verified_once (t : Z) (c : Certificate) : Certificate :=
  set_lastVerified t (set_verificationCount (verificationCount c + 1) c).

(** The document after a revocation with the given reason. *)
Definition revoked_with (reason : string) (c : Certificate) : Certificate :=
  set_revocationReason (Some reason) (set_status REVOKED c).

(** Whether the ledger revoke of the service returns for this token. *)
Definition ledger_revoke_succeeds (svc : BlockchainService.t) (token : Z) : bool :=
  match BlockchainService.contract svc with
  | Some k =>
      match BlockchainService.contract_revokeCertificate k token with
      | Ok _ => true
      | Throw _ => false
      end
  | None => false
  end.

(** The verification link of a certificate and the URL its QR code encodes
    ([generateQRCode] wraps the link it is given once more). *)
Definition verification_link (env : ProcessEnv) (c : Certificate) : string :=
  or_else (CLIENT_URL env) "http://localhost:3000" ++ "/verify/" ++ _id c.

Definition qr_target (env : ProcessEnv) (c : Certificate) : string :=
  or_else (CLIENT_URL env) "http://localhost:3000" ++ "/verify/" ++ verification_link env c.

(** How the store may change under a request: a document that is there
    stays there, with its status or with REVOKED. *)
Definition evolves (m m' : gmap string Certificate) : Prop :=
  forall id c, m !! id = Some c ->
    exists c', m' !! id = Some c' /\ (status c' = status c \/ status c' = REVOKED).

(** [m'] is [m] with one document added under the fresh id [k], the unique
    indices respected. *)
Definition added_as (k : string) (m m' : gmap string Certificate) : Prop :=
  exists d, _id d = k /\ m !! k = None /\ required_present d = true
            /\ duplicate_key d m = false /\ m' = <[k := d]> m.

(** A verification either misses (the store is as it was) or finds a stored
    document, answers with the verdict computed on it and files it with its
    counter incremented. *)
Definition verification_outcome (w : World) (out : Response.t * World) : Prop :=
  (Response.success out.1 = false /\ certificates out.2 = certificates w)
  \/ (exists k c sig,
        certificates w !! k = Some c
        /\ out.1 = VerifyController.verified (verified_once (now w) c) sig
        /\ certificates out.2 = <[k := verified_once (now w) c]> (certificates w)).

(** The number of tasks that have answered. *)
Fixpoint finished (tasks : list Interleaving.Task) : nat :=
  match tasks with
  | [] => 0
  | t :: ts => (if Interleaving.is_finished t then 1 else 0) + finished ts
  end.

(** What holds of every verification of [id] in flight, and of the stored
    document, whatever the schedule did so far; [c0] is the document the
    verifications started from. *)
Definition task_ok (id : string) (c0 : Certificate) (f : nat) (t : Interleaving.Task) : Prop :=
  match t with
  | Interleaving.Fetch i => i = id
  | Interleaving.Loaded d =>
      _id d = toLowerCase id /\ index_keys d = index_keys c0
      /\ verificationCount c0 <= verificationCount d <= verificationCount c0 + Z.of_nat f
  | Interleaving.Finished _ => True
  end.

Definition in_flight (id : string) (c0 : Certificate)
    (tasks : list Interleaving.Task) (w : World) : Prop :=
  store_ok (certificates w)
  /\ Forall (task_ok id c0 (finished tasks)) tasks
  /\ exists c, certificates w !! toLowerCase id = Some c
               /\ index_keys c = index_keys c0
               /\ verificationCount c0 + (if finished tasks is O then 0 else 1)
                  <= verificationCount c
                  <= verificationCount c0 + Z.of_nat (finished tasks).

(** ** A runtime and a world for the worked examples

    Numbers are rendered exactly in the radix asked for, with at most twelve
    fractional digits; the QR renderer returns a data URL that spells out
    its input. *)
Module Sample.

Definition digit_char (d : Z) : ascii :=
  if Z.ltb d 10 then ascii_of_nat (48 + Z.to_nat d) else ascii_of_nat (87 + Z.to_nat d).

Fixpoint int_digits (fuel : nat) (radix n : Z) (acc : string) : string :=
  match fuel with
  | O => acc
  | S f =>
      let acc' := String (digit_char (n mod radix)) acc in
      if Z.eqb (n / radix) 0 then acc' else int_digits f radix (n / radix) acc'
  end.

Fixpoint frac_digits (k : nat) (radix num den : Z) : string :=
  match k with
  | O => ""
  | S k' =>
      if Z.eqb num 0 then ""
      else String (digit_char (num * radix / den))
             (frac_digits k' radix ((num * radix) mod den) den)
  end.

Definition number_toString (q : Q) (radix : Z) : string :=
  let n := Qfloor (Qabs q) in
  let num := Z.abs (Qnum q) - n * Zpos (Qden q) in
  let whole := int_digits 64 radix n "" in
  let frac := frac_digits 12 radix num (Zpos (Qden q)) in
  (if Z.ltb (Qnum q) 0 then "-" else "")
  ++ whole ++ (if String.eqb frac "" then "" else "." ++ frac).

#[export] Instance runtime : JsRuntime := {
  Number_toString := number_toString;
  QRCode_toDataURL s := Ok ("data:image/png;base64," ++ s)
}.

(** Two hosts: one on UTC, one on Indian time. *)
Definition utc : TimeZone :=
  mkTimeZone (fun _ => 0) (fun _ => " (Coordinated Universal Time)").

Definition ist : TimeZone :=
  mkTimeZone (fun _ => 19800000) (fun _ => " (India Standard Time)").

Definition env : ProcessEnv := mkProcessEnv None None None.

(** No private key is configured: the service runs without a contract. *)
Definition mock : BlockchainService.t :=
  BlockchainService.initialize env (fun _ _ => Throw "unreachable").

(** A contract whose ledger is unreachable, and one that answers. *)
Definition ledger_down : BlockchainService.Contract :=
  BlockchainService.mkContract
    (fun _ _ _ _ _ _ => Throw "network error") (fun _ => Throw "network error")
    (fun _ => Throw "network error") (fun _ => Throw "network error").

Definition ledger_up : BlockchainService.Contract :=
  BlockchainService.mkContract
    (fun _ _ _ _ _ _ =>
       Ok (BlockchainService.mkReceipt
             (Some [BlockchainService.mkEvent "CertificateIssued" (Some 7)])
             "0xabc" 100 (Some "21000")))
    (fun _ => Ok (BlockchainService.mkChainCertificate "A" "B" "C" 2024 "h" 1 true "0x0"))
    (fun _ => Ok (BlockchainService.mkChainCertificateByHash 7 "A" "B" "C" 2024 true))
    (fun _ => Ok (BlockchainService.mkReceipt None "0xdef" 101 (Some "21000"))).

Definition live (c : BlockchainService.Contract) : BlockchainService.t :=
  BlockchainService.mk (Some c).

Definition student : StudentData.t :=
  StudentData.mk "Asha Rao" "asha@example.edu" None "S-1001" None None.

Definition academics : AcademicInput.t :=
  AcademicInput.mk "B.Tech" None "4 years" 2020 2024 (17 # 2) (85 # 1) "First Class"
    None None None None None None None None None None.

Definition college_id : string := "64b7f0c2a1d3e4f5a6b7c8d9".
Definition admin_id : string := "64b7f0c2a1d3e4f5a6b7c8e0".
Definition cert_id : string := "507f1f77bcf86cd799439011".
Definition other_id : string := "507f1f77bcf86cd799439012".

Definition the_college : College.t := College.mk college_id "MIT" (Some "0xWallet").

Definition world (certs : gmap string Certificate) : World :=
  mkWorld certs
    {[ admin_id := User.mk admin_id (Some college_id) ]}
    {[ college_id := the_college ]}
    1700000000000
    utc
    (fun _ => 1 # 2)
    0%nat
    (fun _ => cert_id)
    0%nat
    [].

(** A stored certificate with the given token, status, count and reason. *)
Definition certificate (id code hash : string) (token : option Z) (s : Status)
    (count : Z) (reason : option string) : Certificate :=
  mkCertificate id token student college_id
    (CertificateController.build_academicData academics) (Some code)
    (Blockchain.mk (Some hash) None None None None)
    (Metadata.mk None None None None reason)
    s admin_id 1700000000000 count None.

Definition hash_a : string :=
  "ba7816bf8f01cfea414140de5dae2223b00361a396177a9cb410ff61f20015ad".

Definition one (c : Certificate) : gmap string Certificate := {[ _id c := c ]}.

(** The same credential in the states the examples need. *)
Definition unanchored : Certificate := certificate cert_id "CERT-1" hash_a None MINTED 0 None.
Definition anchored : Certificate := certificate cert_id "CERT-1" hash_a (Some 7) MINTED 0 None.
Definition observed : Certificate := certificate cert_id "CERT-1" hash_a None VERIFIED 0 None.
Definition withdrawn : Certificate :=
  certificate cert_id "CERT-1" hash_a None REVOKED 3 (Some "plagiarism").

End Sample.

(** * The rest of the credential core

    The other operations of the services, controllers, routes and models
    above, and the vocabulary of their properties. *)

(** ** services/qr.service.js: the QR code of a certificate hash *)
Module HashQRCode.
Record t := mk {
  dataURL : string;
  verificationUrl : string;
  hash : string;
  format : string
}.
End HashQRCode.

Definition generateHashQRCode `{JsRuntime} (env : ProcessEnv) (certificateHash : string)
  : M HashQRCode.t :=
  let baseUrl := or_else (CLIENT_URL env) "http://localhost:3000" in
  let verificationUrl := baseUrl ++ "/verify/hash/" ++ certificateHash in
  try_catch
    (qrCodeDataURL ← lift (QRCode_toDataURL verificationUrl);
     mret (HashQRCode.mk qrCodeDataURL verificationUrl certificateHash "png"))
    (fun e => throw ("Hash QR generation failed: " ++ e)).

(** ** controllers/verify.controller.js: the statistics *)
Module Stats.
Record t := mk {
  totalCertificates : Z;
  totalVerifications : Z;
  validCertificates : Z;
  revokedCertificates : Z
}.
Definition zero : t := mk 0 0 0 0.
End Stats.

(** One document taken into the accumulators of the [$group] stage. *)
Definition group_stats (c : Certificate) (acc : Stats.t) : Stats.t :=
  Stats.mk
    (Stats.totalCertificates acc + 1)
    (Stats.totalVerifications acc + verificationCount c)
    (Stats.validCertificates acc + (if bool_decide (status c = MINTED) then 1 else 0))
    (Stats.revokedCertificates acc + (if bool_decide (status c = REVOKED) then 1 else 0)).

Definition stats_of (m : gmap string Certificate) : Stats.t :=
  map_fold (fun _ c acc => group_stats c acc) Stats.zero m.

(** [Certificate.aggregate([{ $group: { _id: null, ... } }])]: one group
    for a collection with documents, none for an empty one. *)
Definition aggregate_stats (m : gmap string Certificate) : list Stats.t :=
  if decide (m = ∅) then [] else [stats_of m].

Module StatsResponse.
Record t := mk { success : bool; stats : Stats.t }.
End StatsResponse.

(** [const result = stats[0] || { ...zeros }] *)
Definition getVerificationStats : World -> StatsResponse.t * World := fun w =>
  let stats := aggregate_stats (certificates w) in
  let result := match stats with s :: _ => s | [] => Stats.zero end in
  (StatsResponse.mk true result, w).

(** ** routes/verify.routes.js: batch verification *)
Module BatchItem.
Record t := mk {
  identifier : string;
  success : bool;
  isValid : option bool;
  data : option Data;
  error : option string
}.
End BatchItem.

(** One identifier of the batch. The handler is given a response object
    whose [json] resolves and whose [status(...).json] rejects: a handler
    that answers without setting a status (200 here) resolves, every
    other answer rejects with the payload, whose [message] becomes the
    item's [error]. *)
Definition verifyBatchItem (svc : BlockchainService.t) (certId : string)
  : World -> BatchItem.t * World := fun w =>
  let '(r, w') :=
    if hex_of_length 64 certId
    then VerifyController.verifyCertificateByHash svc certId w
    else VerifyController.verifyCertificateById svc certId w in
  if Z.eqb (Response.statusCode r) 200
  then (BatchItem.mk certId (Response.success r) (Response.isValid r) (Response.data r) None,
        w')
  else (BatchItem.mk certId false (Some false) None
          (Some (or_else (Response.message r) "Verification failed")), w').

Fixpoint verifyBatch (svc : BlockchainService.t) (certificates : list string) (w : World)
  : list BatchItem.t * World :=
  match certificates with
  | [] => ([], w)
  | certId :: rest =>
      let '(item, w1) := verifyBatchItem svc certId w in
      let '(items, w2) := verifyBatch svc rest w1 in
      (item :: items, w2)
  end.

(** The certificate a batch item reports. *)
Definition item_certificate (item : BatchItem.t) : option string :=
  match BatchItem.data item with
  | Some (VerificationData c _ _) => Some (_id c)
  | _ => None
  end.

Definition indicator (b : bool) : Z := if b then 1 else 0.

(** Whether an item is a success that reports certificate [k], and the
    number of such items in a batch. *)
Definition reports (k : string) (item : BatchItem.t) : bool :=
  (BatchItem.success item && bool_decide (item_certificate item = Some k))%bool.

Fixpoint hits (k : string) (items : list BatchItem.t) : Z :=
  match items with
  | [] => 0
  | item :: rest => indicator (reports k item) + hits k rest
  end.

(** ** controllers/certificate.controller.js: getCertificateById *)
(** [req.user.id] as a JavaScript value: the authentication middleware
    stores the [_id] of the user document, an ObjectId, not its text. *)
Inductive UserId := ObjectId (hex : string) | IdString (s : string).

(** [x === s] and [x !== s] against a string [s]: an object is never
    strictly equal to a string. *)
Definition strict_equal_string (x : UserId) (s : string) : bool :=
  match x with
  | IdString t => String.eqb t s
  | ObjectId _ => false
  end.

(** [college] is the reference of the user document (an ObjectId, by its
    text), or unset. *)
Module ReqUser.
Record t := mk { id : UserId; role : string; college : option string }.
End ReqUser.

(** [req.user] is what the authentication middleware left, if it ran. *)
Definition getCertificateById (user : option ReqUser.t) (id : string)
  : World -> Response.t * World :=
  handler
    (found ← findById id;
     match found with
     | None =>
         mret (Response.mk 404 false (Some "Certificate not found") None None None None)
     | Some certificate =>
         (* populate('issuedBy'): null when the issuer is gone *)
         issuer ← gets (fun w => users w !! issuedBy certificate);
         hasAccess ←
           match user with
           | None => mret true
           | Some u =>
               match issuer with
               | None => throw "Cannot read properties of null (reading '_id')"
               | Some i =>
                   mret (strict_equal_string (ReqUser.id u) (User._id i)
                         || String.eqb (ReqUser.role u) "VERIFIER"
                         || String.eqb (ReqUser.role u) "ADMIN")%bool
               end
           end;
         if negb hasAccess
         then mret (Response.mk 403 false (Some "Access denied") None None None None)
         else mret (Response.mk 200 true None None (Some (CertificateData certificate))
                      None None)
     end)
    (fun e => Response.mk 500 false (Some "Failed to fetch certificate") None None None (Some e)).

(** [GET /:id] runs no authentication middleware: [req.user] is not set. *)
Definition route_getCertificateById (id : string) : World -> Response.t * World :=
  getCertificateById None id.

(** ** middleware/role.middleware.js *)
Module RoleMiddleware.

(** A middleware calls [next()] or answers. *)
Inductive Outcome := Next | Answer (r : Response.t).

Definition denied (code : Z) (message : string) : Outcome :=
  Answer (Response.mk code false (Some message) None None None None).

Definition requireRole (allowedRoles : list string) (user : option ReqUser.t) : Outcome :=
  match user with
  | None => denied 401 "Authentication required"
  | Some u =>
      if existsb (String.eqb (ReqUser.role u)) allowedRoles then Next
      else denied 403 ("Access denied. Required role: " ++ String.concat " or " allowedRoles)
  end.

Definition requireAdmin := requireRole ["ADMIN"].
Definition requireStudent := requireRole ["STUDENT"].
Definition requireVerifier := requireRole ["VERIFIER"].
Definition requireAdminOrStudent := requireRole ["ADMIN"; "STUDENT"].
Definition requireAnyRole := requireRole ["ADMIN"; "STUDENT"; "VERIFIER"].

(** [resourceOwnerId] is what [getResourceOwnerId] gives for the request:
    it throws, or gives an id or nothing. *)
Definition requireOwnershipOrAdmin (resourceOwnerId : result (option string))
    (user : option ReqUser.t) : Outcome :=
  match user with
  | None => denied 401 "Authentication required"
  | Some u =>
      if String.eqb (ReqUser.role u) "ADMIN" then Next
      else
        match resourceOwnerId with
        | Throw e =>
            Answer (Response.mk 500 false (Some "Ownership verification failed")
                      None None None (Some e))
        | Ok owner =>
            match owner with
            | Some o =>
                if strict_equal_string (ReqUser.id u) o then Next
                else denied 403 "Access denied. You can only access your own resources."
            | None => denied 403 "Access denied. You can only access your own resources."
            end
        end
  end.

(** [!req.user.college] is read on the reference as the authentication
    middleware copied it from the user document: unset, or an ObjectId. *)
Definition requireCollegeAssociation (user : option ReqUser.t) : Outcome :=
  match user with
  | None => denied 401 "Authentication required"
  | Some u =>
      if negb (String.eqb (ReqUser.role u) "ADMIN") then denied 403 "Admin role required"
      else
        match ReqUser.college u with
        | None => denied 403 "College association required for this operation"
        | Some _ => Next
        end
  end.

(** The middlewares of a route, in order: the first answer ends the chain. *)
Fixpoint chain (guards : list (option ReqUser.t -> Outcome)) (user : option ReqUser.t)
  : Outcome :=
  match guards with
  | [] => Next
  | g :: rest =>
      match g user with
      | Next => chain rest user
      | Answer r => Answer r
      end
  end.

End RoleMiddleware.

(** ** models/User.model.js: account locking *)
Module Account.

(** [loginAttempts] (default 0, so an unset one is read as 0 and incremented
    to 1) and [lockUntil], a date in epoch ms. *)
Record t := mk { loginAttempts : Z; lockUntil : option Z }.

(** [!!(this.lockUntil && this.lockUntil > Date.now())] *)
Definition isLocked (now : Z) (this : t) : bool :=
  match lockUntil this with
  | Some l => Z.ltb now l
  | None => false
  end.

(** [incLoginAttempts]: the update is chosen on the loaded document
    [this] and applied by [updateOne] to the stored one; the result is the
    stored document afterwards. *)
Definition incLoginAttempts (now : Z) (this stored : t) : t :=
  if match lockUntil this with Some l => Z.ltb l now | None => false end
  then mk 1 None
  else
    mk (loginAttempts stored + 1)
       (if (Z.leb 5 (loginAttempts this + 1) && negb (isLocked now this))%bool
        then Some (now + 2 * 60 * 60 * 1000)
        else lockUntil stored).

Definition resetLoginAttempts (stored : t) : t := mk 0 None.

(** [incLoginAttempts] called at each of [times] in turn, every call on
    the document as the call before left it in the store (loaded and
    stored document the same). *)
Definition incLoginAttempts_at (times : list Z) (u : t) : t :=
  fold_left (fun u now => incLoginAttempts now u u) times u.

End Account.

(** ** Vocabulary of the further properties *)

(** The figures [GET /statistics] answers with. *)
Definition statistics (w : World) : Stats.t :=
  StatsResponse.stats (getVerificationStats w).1.

(** The answers of the two handlers the batch route calls: a miss or a
    failure with the store as it was, or the verdict on a stored document,
    filed with its counter incremented. *)
Definition verification_answer (w : World) (out : Response.t * World) : Prop :=
  ((out.1 = VerifyController.not_found "Certificate not found"
    \/ exists e, out.1 = VerifyController.failed "Verification failed" e)
   /\ certificates out.2 = certificates w)
  \/ (exists k c sig,
        certificates w !! k = Some c
        /\ out.1 = VerifyController.verified (verified_once (now w) c) sig
        /\ certificates out.2 = <[k := verified_once (now w) c]> (certificates w)).

(** [m'] is [m] with the document [d] added under its own, fresh id, the
    required fields present and the unique indices respected. *)
Definition issued_as (d : Certificate) (m m' : gmap string Certificate) : Prop :=
  m !! _id d = None /\ required_present d = true
  /\ duplicate_key d m = false /\ m' = <[_id d := d]> m.

(** The key under which an identifier of a batch resolves in the store
    [m]: one of 64 hexadecimal digits is looked up as a hash, any other as
    an id. *)
Definition resolves (m : gmap string Certificate) (certId k : string) : Prop :=
  if hex_of_length 64 certId
  then exists c, m !! k = Some c /\ by_certificateHash certId c = true
  else hex_of_length 24 certId = true /\ k = toLowerCase certId /\ is_Some (m !! k).

(** What the batch answers for one identifier, given the store [m] the
    batch started on. *)
Definition batch_answer (m : gmap string Certificate) (certId : string) (item : BatchItem.t)
  : Prop :=
  BatchItem.identifier item = certId
  /\ ((exists k, resolves m certId k
                 /\ BatchItem.success item = true
                 /\ is_Some (BatchItem.isValid item)
                 /\ BatchItem.error item = None
                 /\ item_certificate item = Some k)
      \/ ((forall k, ~ resolves m certId k)
          /\ BatchItem.success item = false
          /\ BatchItem.isValid item = Some false
          /\ BatchItem.data item = None
          /\ BatchItem.error item
             = Some (if (hex_of_length 64 certId || hex_of_length 24 certId)%bool
                     then "Certificate not found" else "Verification failed"))).

(** The token a receipt reports: the [tokenId] argument of its
    CertificateIssued event, if it has both. *)
Definition receipt_token (receipt : BlockchainService.Receipt) : option Z :=
  (BlockchainService.events receipt
   ≫= List.find (fun e => String.eqb (BlockchainService.event e) "CertificateIssued"))
  ≫= BlockchainService.args_tokenId.

(** A token, when there is one, is within the safe integers. *)
Definition safe_token (token : option Z) : bool :=
  match token with
  | Some n => Z.leb (Z.abs n) 9007199254740991
  | None => true
  end.

(** What [mintCertificate] makes of a receipt whose gas reads [gas]. *)
Definition receipt_result (receipt : BlockchainService.Receipt) (gas : string)
  : BlockchainService.MintResult :=
  BlockchainService.mkMintResult (receipt_token receipt)
    (BlockchainService.r_transactionHash receipt)
    (BlockchainService.r_blockNumber receipt) gas.

(** The document as the [try] block of [issueCertificate] leaves it when
    the mint call returned. *)
Definition minted_with (mr : BlockchainService.MintResult) (c : Certificate) : Certificate :=
  set_status MINTED
    (set_blockNumber (Some (BlockchainService.blockNumber mr))
       (set_transactionHash (Some (BlockchainService.transactionHash mr))
          (set_tokenId (BlockchainService.tokenId mr) c))).

(** A ledger signal that does not speak against the certificate. *)
Definition signal_agrees (sig : option LedgerSignal) : bool :=
  match sig with
  | None => true
  | Some v => signal_isValid v
  end.

(** [verification_outcome], with the ledger signal of a hit agreeing. *)
Definition agreed_outcome (w : World) (out : Response.t * World) : Prop :=
  (Response.success out.1 = false /\ certificates out.2 = certificates w)
  \/ (exists k c sig,
        certificates w !! k = Some c /\ signal_agrees sig = true
        /\ out.1 = VerifyController.verified (verified_once (now w) c) sig
        /\ certificates out.2 = <[k := verified_once (now w) c]> (certificates w)).


(** The requests whose handlers call [recordVerification]. *)
Definition records_verification (req : Request) : bool :=
  match req with
  | GetCertificateByApiCode _ | VerifyCertificateById _
  | VerifyCertificateByHash _ | VerifyByQRCode _ => true
  | IssueCertificate _ _ _ | RevokeCertificate _ _ => false
  end.

(** * Properties *)

(** ** The monad *)

Lemma bind_ok {A B} (m : M A) (f : A -> M B) (w : World) (a : A) (w' : World) :
  m w = (Ok a, w') -> (mbind (M:=M) f m) w = f a w'.
Proof. unfold mbind, M_bind. by intros ->. Qed.

Lemma bind_throw {A B} (m : M A) (f : A -> M B) (w : World) (e : string) (w' : World) :
  m w = (Throw e, w') -> (mbind (M:=M) f m) w = (Throw e, w').
Proof. unfold mbind, M_bind. by intros ->. Qed.

Lemma bind_ret {A B} (a : A) (f : A -> M B) (w : World) :
  (mbind (M:=M) f (mret a)) w = f a w.
Proof. reflexivity. Qed.

(** Running a sequence of awaited calls whose outcomes are known. *)
Ltac run_ok H := rewrite (bind_ok _ _ _ _ _ H); cbv beta zeta.
Ltac run_throw H := rewrite (bind_throw _ _ _ _ _ H); cbv beta zeta.

Lemma with_ledger_calls_id w : with_ledger_calls (ledger_calls w) w = w.
Proof. by destruct w. Qed.

(** ** The unique indices and [save] *)

Lemma same_opt_string_sym a b : same_opt_string a b = same_opt_string b a.
Proof. destruct a, b; simpl; auto using String.eqb_sym. Qed.

Lemma unique_clash_sym d e : unique_clash d e = unique_clash e d.
Proof.
  unfold unique_clash.
  rewrite (same_opt_string_sym (apiCode d)).
  rewrite (same_opt_string_sym (Blockchain.certificateHash (blockchain d))).
  destruct (tokenId d), (tokenId e); simpl; try reflexivity.
  by rewrite Z.eqb_sym.
Qed.

Lemma unique_clash_keys d d' e :
  index_keys d = index_keys d' -> unique_clash d e = unique_clash d' e.
Proof. unfold index_keys, unique_clash. intros [= -> -> ->]. reflexivity. Qed.

Lemma duplicate_key_false d (m : gmap string Certificate) :
  duplicate_key d m = false <->
  (forall k e, k <> _id d -> m !! k = Some e -> unique_clash d e = false).
Proof.
  unfold duplicate_key. split.
  - intros Hex k e Hk He.
    destruct (unique_clash d e) eqn:Hc; [|reflexivity].
    assert (existsb (fun kv => unique_clash d kv.2) (map_to_list (delete (_id d) m)) = true)
      as Ht.
    { apply existsb_exists. exists (k, e). split; [|exact Hc].
      apply list_elem_of_In, elem_of_map_to_list. rewrite lookup_delete_ne; auto. }
    congruence.
  - intros Hall.
    destruct (existsb _ _) eqn:Hex; [|reflexivity].
    apply existsb_exists in Hex as [[k e] [Hin Hc]].
    apply list_elem_of_In, elem_of_map_to_list in Hin.
    destruct (decide (k = _id d)) as [->|Hne].
    + rewrite lookup_delete_eq in Hin. discriminate.
    + rewrite lookup_delete_ne in Hin by auto. simpl in Hc.
      rewrite (Hall k e) in Hc; auto.
Qed.

Lemma duplicate_key_keys d d' (m : gmap string Certificate) :
  _id d = _id d' -> index_keys d = index_keys d' -> duplicate_key d m = duplicate_key d' m.
Proof.
  intros Hid Hk. unfold duplicate_key. rewrite Hid.
  induction (map_to_list _) as [|kv l IH]; simpl; [reflexivity|].
  rewrite IH. f_equal. by apply unique_clash_keys.
Qed.

Lemma duplicate_key_insert d x k (m : gmap string Certificate) :
  k = _id d -> duplicate_key d (<[k := x]> m) = duplicate_key d m.
Proof. intros ->. unfold duplicate_key. by rewrite delete_insert_eq. Qed.

(** What [save] does: it throws and leaves the store as it was, or files
    the document under its id. *)
Lemma save_cases isNew d w :
  (exists e, save isNew d w = (Throw e, w))
  \/ (save isNew d w = (Ok tt, with_certificates (<[_id d := d]> (certificates w)) w)
      /\ required_present d = true
      /\ duplicate_key d (certificates w) = false
      /\ (if isNew then certificates w !! _id d = None /\ schema_valid d = true
          else is_Some (certificates w !! _id d))).
Proof.
  unfold save.
  destruct (required_present d); simpl; [|eauto].
  destruct isNew; simpl.
  - destruct (schema_valid d); simpl; [|eauto].
    destruct (certificates w !! _id d) eqn:Hl; eauto;
      destruct (duplicate_key d (certificates w)); eauto 10.
  - destruct (certificates w !! _id d) eqn:Hl; eauto;
      destruct (duplicate_key d (certificates w)); eauto 10.
Qed.

Lemma save_ok (isNew : bool) d w :
  required_present d = true ->
  (if isNew then certificates w !! _id d = None /\ schema_valid d = true
   else is_Some (certificates w !! _id d)) ->
  duplicate_key d (certificates w) = false ->
  save isNew d w = (Ok tt, with_certificates (<[_id d := d]> (certificates w)) w).
Proof.
  intros Hreq Hl Hdup. unfold save. rewrite Hreq, Hdup. simpl.
  destruct isNew; simpl.
  - destruct Hl as [-> ->]. reflexivity.
  - by destruct Hl as [x ->].
Qed.

(** An insert of a document that does not pass the validators throws, and
    the store is as it was. *)
Lemma save_invalid d w :
  schema_valid d = false ->
  save true d w = (Throw "Certificate validation failed", w).
Proof. intros Hv. unfold save. rewrite Hv. simpl. by rewrite andb_false_r. Qed.

(** Saving a loaded document whose indexed fields were not touched. *)
Lemma save_update d c w :
  store_ok (certificates w) ->
  certificates w !! _id d = Some c ->
  index_keys d = index_keys c ->
  save false d w = (Ok tt, with_certificates (<[_id d := d]> (certificates w)) w).
Proof.
  intros [Hkey Huniq] Hc Hk. unfold save.
  destruct (Hkey _ _ Hc) as [Hid Hreq].
  assert (required_present d = true) as ->.
  { unfold required_present, index_keys in *. injection Hk as -> -> _. exact Hreq. }
  simpl. rewrite Hc.
  assert (duplicate_key d (certificates w) = false) as ->; [|reflexivity].
  apply duplicate_key_false. intros k e Hne He.
  rewrite (unique_clash_keys d c e Hk). eapply Huniq; eauto.
Qed.

Lemma store_ok_empty : store_ok ∅.
Proof. split; intros *; rewrite lookup_empty; discriminate. Qed.

Lemma store_ok_singleton c : required_present c = true -> store_ok {[ _id c := c ]}.
Proof.
  intros Hreq. split.
  - intros k d [<- <-]%lookup_singleton_Some. auto.
  - intros i j d e [<- <-]%lookup_singleton_Some [<- <-]%lookup_singleton_Some. congruence.
Qed.

Lemma store_ok_insert d (m : gmap string Certificate) :
  store_ok m -> required_present d = true -> duplicate_key d m = false ->
  store_ok (<[_id d := d]> m).
Proof.
  intros [Hkey Huniq] Hreq Hdup. split.
  - intros k c. rewrite lookup_insert. case_decide as Hk.
    + intros [= <-]. auto.
    + apply Hkey.
  - rewrite duplicate_key_false in Hdup.
    intros i j c e. rewrite !lookup_insert.
    case_decide as Hi; case_decide as Hj; intros Hc He Hne.
    + congruence.
    + injection Hc as <-. eapply Hdup; eauto.
    + injection He as <-. rewrite unique_clash_sym. eapply Hdup; eauto.
    + eapply Huniq; eauto.
Qed.

Lemma store_ok_update k c d (m : gmap string Certificate) :
  store_ok m -> m !! k = Some c -> _id d = _id c -> index_keys d = index_keys c ->
  store_ok (<[k := d]> m).
Proof.
  intros Hok Hc Hid Hkeys. destruct (proj1 Hok _ _ Hc) as [Hk Hreq].
  replace k with (_id d) by congruence.
  apply store_ok_insert; auto.
  - unfold required_present, index_keys in *. injection Hkeys as -> -> _. exact Hreq.
  - rewrite (duplicate_key_keys d c) by auto.
    apply duplicate_key_false. intros k' e Hne He. eapply (proj2 Hok); eauto. congruence.
Qed.

(** ** Lookups *)

Lemma findById_cases id w :
  (exists e, findById id w = (Throw e, w))
  \/ findById id w = (Ok (certificates w !! toLowerCase id), w).
Proof. unfold findById. destruct (hex_of_length 24 id); eauto. Qed.

Lemma findOne_cases filter w :
  (findOne filter w = (Ok None, w)
   /\ forall k c, certificates w !! k = Some c -> filter c = false)
  \/ (exists k c, findOne filter w = (Ok (Some c), w)
      /\ certificates w !! k = Some c /\ filter c = true).
Proof.
  unfold findOne, gets.
  destruct (List.find _ _) as [[k c]|] eqn:Hf.
  - right. exists k, c. apply find_some in Hf as [Hin Hp].
    apply list_elem_of_In, elem_of_map_to_list in Hin. auto.
  - left. split; [reflexivity|]. intros k c Hc.
    apply (find_none _ _ Hf (k, c)).
    by apply list_elem_of_In, elem_of_map_to_list.
Qed.

Lemma by_apiCode_true code c : by_apiCode code c = true <-> apiCode c = Some code.
Proof.
  unfold by_apiCode. destruct (apiCode c) as [a|]; [|split; discriminate].
  rewrite String.eqb_eq. split; congruence.
Qed.

(** In a store that satisfies its indices the API code names one document. *)
Lemma findOne_by_apiCode code k c w :
  store_ok (certificates w) ->
  certificates w !! k = Some c -> apiCode c = Some code ->
  findOne (by_apiCode code) w = (Ok (Some c), w).
Proof.
  intros Hok Hc Hcode.
  destruct (findOne_cases (by_apiCode code) w) as [[_ Hnone]|(k' & c' & -> & Hc' & Hp)].
  - apply Hnone in Hc. apply by_apiCode_true in Hcode. congruence.
  - apply by_apiCode_true in Hp.
    destruct (decide (k = k')) as [<-|Hne]; [congruence|].
    destruct Hok as [_ Huniq]. specialize (Huniq _ _ _ _ Hc Hc' Hne).
    unfold unique_clash in Huniq. rewrite Hcode, Hp in Huniq. simpl in Huniq.
    rewrite String.eqb_refl in Huniq. discriminate.
Qed.

(** ** Recording a verification *)

(** [recordVerification] on a document in memory whose stored version may
    have moved on: the save files the document in memory. *)
Lemma recordVerification_loaded c c0 w :
  store_ok (certificates w) ->
  certificates w !! _id c = Some c0 ->
  index_keys c = index_keys c0 ->
  recordVerification c w
  = (Ok (verified_once (now w) c),
     with_certificates (<[_id c := verified_once (now w) c]> (certificates w)) w).
Proof.
  intros Hok Hc Hk. unfold recordVerification.
  unfold mbind, M_bind, Date_now, gets. simpl.
  fold (verified_once (now w) c).
  rewrite (save_update (verified_once (now w) c) c0 w Hok); auto.
Qed.

Lemma recordVerification_stored k c w :
  store_ok (certificates w) ->
  certificates w !! k = Some c ->
  recordVerification c w
  = (Ok (verified_once (now w) c),
     with_certificates (<[k := verified_once (now w) c]> (certificates w)) w).
Proof.
  intros Hok Hc. destruct (proj1 Hok _ _ Hc) as [Hid _]. subst k.
  by apply recordVerification_loaded with c.
Qed.

(** The ledger cross-check never throws and leaves the store alone. *)
Lemma ledger_check_total svc c w :
  exists sig l, VerifyController.ledger_check svc c w = (Ok sig, with_ledger_calls l w).
Proof.
  unfold VerifyController.ledger_check.
  destruct (truthy_number (tokenId c)).
  - unfold mbind, M_bind, attempt, BlockchainService.verifyCertificate,
      BlockchainService.rethrow, try_catch, invoked, lift, Date_now, gets, throw.
    simpl.
    destruct (BlockchainService.contract svc) as [k|]; simpl.
    + destruct (BlockchainService.contract_verifyCertificate k _); simpl; eauto.
    + eauto.
  - exists None, (ledger_calls w). by rewrite with_ledger_calls_id.
Qed.

Lemma attempt_verifyCertificateByHash svc h w :
  exists r, attempt (BlockchainService.verifyCertificateByHash svc h) w
            = (Ok r, with_ledger_calls (VerifyByHashCall h :: ledger_calls w) w).
Proof.
  unfold attempt, BlockchainService.verifyCertificateByHash, BlockchainService.rethrow,
    try_catch, invoked, lift, throw, mbind, M_bind, mret, M_ret. simpl.
  destruct (BlockchainService.contract svc) as [k|]; simpl; [|eauto].
  destruct (BlockchainService.contract_verifyCertificateByHash k h); simpl; eauto.
Qed.

(** The tail the three verification handlers share: cross-check, record,
    respond. *)
Lemma verify_tail svc k c w :
  store_ok (certificates w) ->
  certificates w !! k = Some c ->
  exists sig l,
    (VerifyController.ledger_check svc c ≫= fun blockchainVerification =>
     recordVerification c ≫= fun certificate =>
     mret (VerifyController.verified certificate blockchainVerification)) w
    = (Ok (VerifyController.verified (verified_once (now w) c) sig),
       with_certificates (<[k := verified_once (now w) c]> (certificates w))
         (with_ledger_calls l w)).
Proof.
  intros Hok Hc.
  destruct (ledger_check_total svc c w) as (sig & l & Hl).
  exists sig, l. run_ok Hl.
  rewrite (bind_ok _ _ _ _ _ (recordVerification_stored k c (with_ledger_calls l w) Hok Hc)).
  reflexivity.
Qed.

Lemma verifyCertificateById_stored svc id c w :
  store_ok (certificates w) ->
  hex_of_length 24 id = true ->
  certificates w !! toLowerCase id = Some c ->
  exists sig l,
    VerifyController.verifyCertificateById svc id w
    = (VerifyController.verified (verified_once (now w) c) sig,
       with_certificates (<[toLowerCase id := verified_once (now w) c]> (certificates w))
         (with_ledger_calls l w)).
Proof.
  intros Hok Hhex Hc.
  destruct (verify_tail svc _ c w Hok Hc) as (sig & l & Ht).
  exists sig, l.
  unfold VerifyController.verifyCertificateById, handler, findById.
  rewrite Hhex. rewrite (bind_ok _ _ w (Some c) w) by (unfold gets; by rewrite Hc).
  by rewrite Ht.
Qed.

(** ** The verdict *)

Lemma overall_validity_true c sig :
  VerifyController.overall_validity c sig = true
  <-> status c = MINTED
      /\ (sig = None \/ exists v, sig = Some v /\ signal_isValid v = true).
Proof.
  unfold VerifyController.overall_validity.
  rewrite andb_true_iff, bool_decide_eq_true.
  destruct sig as [v|]; split; intros [Hs Hv]; split; auto.
  - right. eauto.
  - destruct Hv as [|(v' & [= <-] & Hv)]; [discriminate|exact Hv].
Qed.

Lemma overall_validity_not_minted c sig :
  status c <> MINTED -> VerifyController.overall_validity c sig = false.
Proof.
  intros Hs. unfold VerifyController.overall_validity.
  rewrite bool_decide_eq_false_2; auto.
Qed.

(** ** What each verification does to the store *)

Lemma verifyCertificateById_outcome svc id w :
  store_ok (certificates w) ->
  verification_outcome w (VerifyController.verifyCertificateById svc id w).
Proof.
  intros Hok. unfold VerifyController.verifyCertificateById, handler.
  destruct (findById_cases id w) as [[e He]|Hf].
  - run_throw He. left. auto.
  - run_ok Hf. destruct (certificates w !! toLowerCase id) as [c|] eqn:Hc.
    + destruct (verify_tail svc _ c w Hok Hc) as (sig & l & ->).
      right. exists (toLowerCase id), c, sig. auto.
    + left. auto.
Qed.

Lemma verifyCertificateByHash_outcome svc h w :
  store_ok (certificates w) ->
  verification_outcome w (VerifyController.verifyCertificateByHash svc h w).
Proof.
  intros Hok. unfold VerifyController.verifyCertificateByHash, handler.
  destruct (findOne_cases (by_certificateHash h) w) as [[Hf _]|(k & c & Hf & Hc & _)];
    run_ok Hf.
  - left. auto.
  - destruct (attempt_verifyCertificateByHash svc h w) as [r Hr]. run_ok Hr.
    rewrite (bind_ok _ _ _ _ _ (recordVerification_stored k c (with_ledger_calls _ w) Hok Hc)).
    right. exists k, c. eexists. eauto.
Qed.

Lemma verifyByQRCode_outcome svc qrData w :
  store_ok (certificates w) ->
  verification_outcome w (VerifyController.verifyByQRCode svc qrData w).
Proof.
  intros Hok. unfold VerifyController.verifyByQRCode, handler.
  assert (forall k c,
    certificates w !! k = Some c ->
    verification_outcome w
      (let (r0, w') :=
         (VerifyController.ledger_check svc c ≫= fun blockchainVerification =>
          recordVerification c ≫= fun certificate =>
          mret (VerifyController.verified certificate blockchainVerification)) w in
       match r0 with
       | Ok r => (r, w')
       | Throw e => (VerifyController.failed "QR verification failed" e, w')
       end)) as Htail.
  { intros k c Hc. destruct (verify_tail svc k c w Hok Hc) as (sig & l & ->).
    right. exists k, c, sig. auto. }
  assert (forall byId : option Certificate,
    (forall c, byId = Some c -> exists k, certificates w !! k = Some c) ->
    verification_outcome w
      (let (r0, w') :=
         (match byId with
          | Some certificate => mret (Some certificate)
          | None => findOne (by_certificateHash qrData)
          end ≫= fun found =>
          match found with
          | Some certificate =>
              VerifyController.ledger_check svc certificate ≫= fun blockchainVerification =>
              recordVerification certificate ≫= fun certificate0 =>
              mret (VerifyController.verified certificate0 blockchainVerification)
          | None => mret (VerifyController.not_found "Invalid QR code or certificate not found")
          end) w in
       match r0 with
       | Ok r => (r, w')
       | Throw e => (VerifyController.failed "QR verification failed" e, w')
       end)) as Hfound.
  { intros [c|] HbyId.
    - destruct (HbyId c eq_refl) as [k Hk]. rewrite bind_ret. eauto.
    - destruct (findOne_cases (by_certificateHash qrData) w)
        as [[Hf _]|(k & c & Hf & Hc & _)]; run_ok Hf; [left; auto|eauto]. }
  destruct (hex_of_length 24 qrData).
  - destruct (findById_cases qrData w) as [[e He]|Hf].
    + run_throw He. left. auto.
    + run_ok Hf. apply (Hfound (certificates w !! toLowerCase qrData)). intros c Hc. eauto.
  - rewrite bind_ret. apply (Hfound None). discriminate.
Qed.

(** A payload that is neither a 24-digit identifier nor the hash of a
    stored certificate is answered 404. *)
Lemma verifyByQRCode_unrecognised svc qrData w :
  hex_of_length 24 qrData = false ->
  (forall k c, certificates w !! k = Some c -> by_certificateHash qrData c = false) ->
  VerifyController.verifyByQRCode svc qrData w
  = (VerifyController.not_found "Invalid QR code or certificate not found", w).
Proof.
  intros Hhex Hnone. unfold VerifyController.verifyByQRCode, handler. rewrite Hhex.
  rewrite bind_ret.
  destruct (findOne_cases (by_certificateHash qrData) w) as [[Hf _]|(k & c & _ & Hc & Hp)].
  - run_ok Hf. reflexivity.
  - rewrite (Hnone k c Hc) in Hp. discriminate.
Qed.

Lemma getCertificateByApiCode_outcome code w :
  store_ok (certificates w) ->
  let out := CertificateController.getCertificateByApiCode code w in
  (Response.success out.1 = false /\ certificates out.2 = certificates w)
  \/ (exists k c,
        certificates w !! k = Some c /\ apiCode c = Some code
        /\ out = (Response.mk 200 true None None
                    (Some (CertificateData (verified_once (now w) c))) None None,
                  with_certificates (<[k := verified_once (now w) c]> (certificates w)) w)).
Proof.
  intros Hok. simpl. unfold CertificateController.getCertificateByApiCode, handler.
  destruct (findOne_cases (by_apiCode code) w) as [[Hf _]|(k & c & Hf & Hc & Hp)]; run_ok Hf.
  - left. auto.
  - rewrite (bind_ok _ _ _ _ _ (recordVerification_stored k c w Hok Hc)).
    right. exists k, c. apply by_apiCode_true in Hp. auto.
Qed.

Lemma getCertificateByApiCode_stored code k c w :
  store_ok (certificates w) ->
  certificates w !! k = Some c ->
  apiCode c = Some code ->
  CertificateController.getCertificateByApiCode code w
  = (Response.mk 200 true None None
       (Some (CertificateData (verified_once (now w) c))) None None,
     with_certificates (<[k := verified_once (now w) c]> (certificates w)) w).
Proof.
  intros Hok Hc Hcode.
  unfold CertificateController.getCertificateByApiCode, handler.
  rewrite (bind_ok _ _ _ _ _ (findOne_by_apiCode code k c w Hok Hc Hcode)).
  rewrite (bind_ok _ _ _ _ _ (recordVerification_stored k c w Hok Hc)). reflexivity.
Qed.

(** ** Revocation *)

Lemma ledger_revoke_cases svc token w :
  let w1 := with_ledger_calls (RevokeCall token :: ledger_calls w) w in
  (ledger_revoke_succeeds svc token = true
   /\ exists r, BlockchainService.revokeCertificate svc token w = (Ok r, w1))
  \/ (ledger_revoke_succeeds svc token = false
      /\ exists e, BlockchainService.revokeCertificate svc token w = (Throw e, w1)).
Proof.
  unfold ledger_revoke_succeeds, BlockchainService.revokeCertificate,
    BlockchainService.rethrow, try_catch, invoked, lift, throw, mbind, M_bind, mret, M_ret.
  simpl.
  destruct (BlockchainService.contract svc) as [k|]; simpl; [|eauto].
  destruct (BlockchainService.contract_revokeCertificate k token); simpl; eauto.
Qed.

(** Revoking a stored certificate: the ledger is asked when the token is
    truthy, and its answer decides between the two outcomes. *)
Lemma revokeCertificate_stored svc id reason c w :
  store_ok (certificates w) ->
  hex_of_length 24 id = true ->
  certificates w !! toLowerCase id = Some c ->
  let token := default 0 (tokenId c) in
  let out := CertificateController.revokeCertificate svc id reason w in
  (ledger_calls out.2
   = if truthy_number (tokenId c) then RevokeCall token :: ledger_calls w else ledger_calls w)
  /\ (if (negb (truthy_number (tokenId c)) || ledger_revoke_succeeds svc token)%bool
      then out.1 = Response.mk 200 true (Some "Certificate revoked successfully") None
                     (Some (CertificateData (revoked_with reason c))) None None
           /\ certificates out.2 = <[toLowerCase id := revoked_with reason c]> (certificates w)
      else Response.statusCode out.1 = 500
           /\ Response.success out.1 = false
           /\ Response.message out.1 = Some "Certificate revocation failed"
           /\ certificates out.2 = certificates w).
Proof.
  intros Hok Hhex Hc token out. subst out.
  destruct (proj1 Hok _ _ Hc) as [Hid _].
  assert (findById id w = (Ok (Some c), w)) as Hf.
  { unfold findById. rewrite Hhex. unfold gets. by rewrite Hc. }
  unfold CertificateController.revokeCertificate, handler.
  run_ok Hf.
  fold (revoked_with reason c). fold token.
  assert (forall w1, certificates w1 = certificates w ->
            save false (revoked_with reason c) w1
            = (Ok tt, with_certificates
                        (<[toLowerCase id := revoked_with reason c]> (certificates w)) w1))
    as Hsave.
  { intros w1 Hw1. rewrite (save_update (revoked_with reason c) c w1); simpl;
      rewrite ?Hw1, ?Hid; auto. }
  destruct (truthy_number (tokenId c)); simpl.
  - destruct (ledger_revoke_cases svc token w) as [[-> [r Hr]]|[-> [e He]]].
    + rewrite (bind_ok _ _ _ _ _ (bind_ok _ (fun _ => mret ()) _ _ _ Hr)).
      rewrite (bind_ok _ _ _ _ _ (Hsave (with_ledger_calls _ w) eq_refl)).
      simpl. auto.
    + rewrite (bind_throw _ _ _ _ _ (bind_throw _ (fun _ => mret ()) _ _ _ He)).
      simpl. auto.
  - rewrite bind_ret.
    rewrite (bind_ok _ _ _ _ _ (Hsave w eq_refl)).
    simpl. auto.
Qed.

(** A revocation that does not reach a stored certificate changes nothing. *)
Lemma revokeCertificate_store svc id reason w :
  store_ok (certificates w) ->
  let out := CertificateController.revokeCertificate svc id reason w in
  (Response.success out.1 = false /\ certificates out.2 = certificates w)
  \/ (exists c, certificates w !! toLowerCase id = Some c
                /\ Response.success out.1 = true
                /\ certificates out.2
                   = <[toLowerCase id := revoked_with reason c]> (certificates w)).
Proof.
  intros Hok out. subst out. destruct (hex_of_length 24 id) eqn:Hhex.
  - destruct (certificates w !! toLowerCase id) as [c|] eqn:Hc.
    + destruct (revokeCertificate_stored svc id reason c w Hok Hhex Hc) as [_ Hout].
      destruct (_ || _)%bool.
      * right. exists c. destruct Hout as [-> ->]. auto.
      * left. tauto.
    + left. unfold CertificateController.revokeCertificate, handler, findById.
      rewrite Hhex. rewrite (bind_ok _ _ w None w) by (unfold gets; by rewrite Hc).
      auto.
  - left. unfold CertificateController.revokeCertificate, handler, findById.
    rewrite Hhex. auto.
Qed.

(** ** Issuance *)

Lemma added_resave k m d w r w' :
  save false d w = (r, w') ->
  added_as k m (certificates w) -> _id d = k ->
  added_as k m (certificates w').
Proof.
  intros Hs (d0 & Hid0 & Hfresh & Hreq0 & Hdup0 & Hm) Hid.
  destruct (save_cases false d w) as [[e He]|(He & Hreq & Hdup & _)];
    rewrite He in Hs; injection Hs as <- <-.
  - exists d0. auto.
  - exists d. simpl. rewrite Hm, Hid in *. rewrite insert_insert_eq.
    rewrite duplicate_key_insert in Hdup by auto. auto.
Qed.

Lemma added_first k m d w r w' :
  save true d w = (r, w') -> certificates w = m -> _id d = k ->
  match r with
  | Ok _ => added_as k m (certificates w')
  | Throw _ => certificates w' = m
  end.
Proof.
  intros Hs Hm Hid.
  destruct (save_cases true d w) as [[e He]|(He & Hreq & Hdup & Hfresh & _)];
    rewrite He in Hs; injection Hs as <- <-; [exact Hm|].
  exists d. simpl. rewrite Hm, Hid in *. auto.
Qed.

Section Issuance.
Context `{JsRuntime} (env : ProcessEnv) (svc : BlockchainService.t).

(** The document [new_Certificate] builds: a fresh id, no anchoring fields,
    status PENDING, a hash and an API code, after one draw of
    [Math.random()]; the store is not touched. *)
Lemma new_Certificate_spec sd ai issuerId coll w c1 w1 :
  CertificateController.new_Certificate sd ai issuerId coll w = (Ok c1, w1) ->
  certificates w1 = certificates w
  /\ _id c1 = objectIds w (objectId_next w)
  /\ tokenId c1 = None
  /\ Blockchain.transactionHash (blockchain c1) = None
  /\ Blockchain.blockNumber (blockchain c1) = None
  /\ status c1 = PENDING
  /\ required_present c1 = true
  /\ random_next w1 = S (random_next w).
Proof.
  unfold CertificateController.new_Certificate, generateApiCode.
  unfold mbind, M_bind, mret, M_ret, new_ObjectId, Date_now, Math_random, gets. simpl.
  intros [= <- <-]. simpl. auto 10.
Qed.

Lemma new_Certificate_total sd ai issuerId coll w :
  exists c1 w1, CertificateController.new_Certificate sd ai issuerId coll w = (Ok c1, w1).
Proof.
  unfold CertificateController.new_Certificate, generateApiCode.
  unfold mbind, M_bind, mret, M_ret, new_ObjectId, Date_now, Math_random, gets. simpl.
  eauto.
Qed.

Lemma attempt_mintCertificate wallet data hash w :
  exists r w', attempt (BlockchainService.mintCertificate svc wallet data hash) w = (Ok r, w')
               /\ certificates w' = certificates w.
Proof.
  unfold attempt, BlockchainService.mintCertificate, BlockchainService.rethrow,
    try_catch, invoked, lift, throw, Math_random, mbind, M_bind, mret, M_ret. simpl.
  destruct (BlockchainService.contract svc) as [k|]; simpl; [|eauto].
  destruct (BlockchainService.contract_mintCertificate k _ _ _ _ _ _) as [receipt|];
    simpl; [|eauto].
  destruct (option_bind _ _ BlockchainService.args_tokenId _) as [n|]; simpl.
  - destruct (Z.ltb _ _); simpl; [eauto|].
    destruct (BlockchainService.r_gasUsed receipt); simpl; eauto.
  - destruct (BlockchainService.r_gasUsed receipt); simpl; eauto.
Qed.

Lemma generateQRCode_cases link w :
  (exists e, QRService.generateQRCode env link w = (Throw e, w))
  \/ (exists qr, QRService.generateQRCode env link w = (Ok qr, w)).
Proof.
  unfold QRService.generateQRCode, try_catch, lift, throw.
  destruct (QRCode_toDataURL _); eauto.
Qed.

Lemma minting_pending_added k m c link qr w :
  added_as k m (certificates w) -> _id c = k ->
  added_as k m (certificates (handler (CertificateController.minting_pending c link qr)
     (fun e => Response.mk 500 false (Some "Certificate issuance failed") None None None (Some e))
     w).2).
Proof.
  intros Hadd Hid. unfold handler, CertificateController.minting_pending.
  destruct (save false (set_status PENDING c) w) as [[[]|e] w'] eqn:Hs;
    [run_ok Hs|run_throw Hs]; simpl; eapply added_resave; eauto.
Qed.

(** Issuance leaves the store as it was or adds one document under a fresh
    id. *)
Lemma issueCertificate_store sd ai issuerId w :
  let out := CertificateController.issueCertificate env svc sd ai issuerId w in
  certificates out.2 = certificates w
  \/ exists k, added_as k (certificates w) (certificates out.2).
Proof.
  simpl. unfold CertificateController.issueCertificate.
  unfold handler.
  rewrite (bind_ok (User_findById_populate issuerId) _ w _ w eq_refl).
  destruct (users w !! issuerId) as [u|]; [|left; reflexivity].
  destruct (User.college u ≫= _) as [coll|]; [|left; reflexivity].
  destruct (new_Certificate_total sd ai issuerId coll w) as (c1 & w1 & Hnew).
  run_ok Hnew.
  destruct (new_Certificate_spec _ _ _ _ _ _ _ Hnew) as (Hcerts & _).
  destruct (save true c1 w1) as [[[]|e] w2] eqn:Hs1;
    pose proof (added_first _ _ _ _ _ _ Hs1 Hcerts eq_refl) as Hadd;
    [run_ok Hs1|run_throw Hs1; left; exact Hadd].
  right. exists (_id c1).
  destruct (generateQRCode_cases (or_else (CLIENT_URL env) "http://localhost:3000"
                                   ++ "/verify/" ++ _id c1) w2) as [[e He]|[qr Hq]];
    [run_throw He; exact Hadd|run_ok Hq].
  set (c2 := set_verificationLink _ (set_qrCode qr c1)).
  destruct (save false c2 w2) as [[[]|e] w3] eqn:Hs2;
    pose proof (added_resave _ _ _ _ _ _ Hs2 Hadd eq_refl) as Hadd3;
    [run_ok Hs2|run_throw Hs2; exact Hadd3].
  destruct (attempt_mintCertificate (College.walletAddress coll) (academicData c2)
              (render (Blockchain.certificateHash (blockchain c2))) w3)
    as (r & w4 & Hm & Hc4).
  run_ok Hm. rewrite <- Hc4 in Hadd3.
  destruct r as [mintResult|e].
  - set (c3 := set_status MINTED _).
    destruct (save false c3 w4) as [r5 w5] eqn:Hs3.
    pose proof (added_resave _ _ _ _ _ _ Hs3 Hadd3 eq_refl) as Hadd5.
    rewrite (bind_ok (attempt (save false c3)) _ w4 r5 w5) by (unfold attempt; by rewrite Hs3).
    destruct r5 as [[]|e].
    + exact Hadd5.
    + by apply (minting_pending_added (_id c1)).
  - by apply (minting_pending_added (_id c1)).
Qed.

(** Issuance when the ledger's mint call throws. *)
Lemma issueCertificate_anchor_failure sd ai issuerId w u cid coll c1 w1 qr k e :
  users w !! issuerId = Some u ->
  User.college u = Some cid ->
  colleges w !! cid = Some coll ->
  CertificateController.new_Certificate sd ai issuerId coll w = (Ok c1, w1) ->
  schema_valid c1 = true ->
  certificates w !! _id c1 = None ->
  duplicate_key c1 (certificates w) = false ->
  QRCode_toDataURL (qr_target env c1) = Ok qr ->
  BlockchainService.contract svc = Some k ->
  BlockchainService.contract_mintCertificate k (College.walletAddress coll) None
    (Some (AcademicData.degree (academicData c1))) None None
    (render (Blockchain.certificateHash (blockchain c1))) = Throw e ->
  let link := verification_link env c1 in
  let stored := set_status PENDING (set_verificationLink link (set_qrCode qr c1)) in
  exists w',
    CertificateController.issueCertificate env svc sd ai issuerId w
    = (Response.mk 201 true
         (Some "Certificate created with complete academic record, blockchain minting pending")
         None
         (Some (IssuedData stored (mkStudentAccess (apiCode c1) link qr)))
         (Some "Blockchain minting failed, will retry automatically")
         None, w')
    /\ certificates w' = <[_id c1 := stored]> (certificates w).
Proof.
  intros Hu Hcid Hcoll Hnew Hvalid Hfresh Hdup Hqr Hk Hmint link stored.
  destruct (new_Certificate_spec _ _ _ _ _ _ _ Hnew)
    as (Hcerts & Hid & Htok & Htx & Hblk & Hst & Hreq & _).
  set (m := certificates w) in *.
  set (c2 := set_verificationLink link (set_qrCode qr c1)).
  set (w2 := with_certificates (<[_id c1 := c1]> m) w1).
  set (w3 := with_certificates (<[_id c1 := c2]> m) w1).
  set (call := MintCall (College.walletAddress coll)
                 (render (Blockchain.certificateHash (blockchain c1)))).
  set (w4 := with_ledger_calls (call :: ledger_calls w1) w3).
  assert (save true c1 w1 = (Ok tt, w2)) as Hs1.
  { rewrite save_ok; rewrite ?Hcerts; auto. }
  assert (QRService.generateQRCode env link w2 = (Ok qr, w2)) as Hq.
  { unfold QRService.generateQRCode, try_catch, lift.
    change (or_else (CLIENT_URL env) "http://localhost:3000" ++ "/verify/" ++ link)
      with (qr_target env c1).
    by rewrite Hqr. }
  assert (save false c2 w2 = (Ok tt, w3)) as Hs2.
  { rewrite save_ok; subst w2 w3; simpl.
    - by rewrite insert_insert_eq.
    - exact Hreq.
    - rewrite lookup_insert_eq. eauto.
    - rewrite (duplicate_key_insert c2 c1 _ m) by reflexivity.
      rewrite (duplicate_key_keys c2 c1) by reflexivity. exact Hdup. }
  assert (exists msg,
    attempt (BlockchainService.mintCertificate svc (College.walletAddress coll)
               (academicData c2) (render (Blockchain.certificateHash (blockchain c2)))) w3
    = (Ok (Throw msg), w4)) as [msg Hm].
  { unfold attempt, BlockchainService.mintCertificate, BlockchainService.rethrow, try_catch.
    unfold mbind, M_bind, invoked, lift, throw. rewrite Hk. simpl. rewrite Hmint.
    eexists. reflexivity. }
  assert (save false stored w4
          = (Ok tt, with_certificates (<[_id c1 := stored]> m) w4)) as Hs3.
  { rewrite save_ok; subst w4 w3; simpl.
    - by rewrite insert_insert_eq.
    - exact Hreq.
    - rewrite lookup_insert_eq. eauto.
    - rewrite (duplicate_key_insert stored c2 _ m) by reflexivity.
      rewrite (duplicate_key_keys stored c1) by reflexivity. exact Hdup. }
  exists (with_certificates (<[_id c1 := stored]> m) w4).
  split; [|reflexivity].
  unfold CertificateController.issueCertificate, handler.
  rewrite (bind_ok (User_findById_populate issuerId) _ w (Some (u, Some coll)) w); cycle 1.
  { unfold User_findById_populate, gets. rewrite Hu, Hcid. simpl. by rewrite Hcoll. }
  run_ok Hnew. run_ok Hs1. fold link. run_ok Hq. fold c2. run_ok Hs2. run_ok Hm.
  unfold CertificateController.minting_pending. fold stored.
  run_ok Hs3. reflexivity.
Qed.

(** Issuance when the first save meets a unique-index violation. *)
Lemma issueCertificate_duplicate sd ai issuerId w u cid coll c1 w1 :
  users w !! issuerId = Some u ->
  User.college u = Some cid ->
  colleges w !! cid = Some coll ->
  CertificateController.new_Certificate sd ai issuerId coll w = (Ok c1, w1) ->
  duplicate_key c1 (certificates w) = true ->
  CertificateController.issueCertificate env svc sd ai issuerId w
  = (Response.mk 500 false (Some "Certificate issuance failed") None None None
       (Some (if schema_valid c1 then "E11000 duplicate key error"
              else "Certificate validation failed")), w1)
  /\ certificates w1 = certificates w
  /\ random_next w1 = S (random_next w).
Proof.
  intros Hu Hcid Hcoll Hnew Hdup.
  destruct (new_Certificate_spec _ _ _ _ _ _ _ Hnew)
    as (Hcerts & Hid & Htok & Htx & Hblk & Hst & Hreq & Hrand).
  split; [|auto].
  assert (save true c1 w1
          = (Throw (if schema_valid c1 then "E11000 duplicate key error"
                    else "Certificate validation failed"), w1)) as Hs.
  { unfold save. rewrite Hreq, Hcerts, Hdup. simpl.
    destruct (schema_valid c1); simpl; [|reflexivity].
    by destruct (certificates w !! _id c1). }
  unfold CertificateController.issueCertificate, handler.
  rewrite (bind_ok (User_findById_populate issuerId) _ w (Some (u, Some coll)) w); cycle 1.
  { unfold User_findById_populate, gets. rewrite Hu, Hcid. simpl. by rewrite Hcoll. }
  run_ok Hnew. run_throw Hs. reflexivity.
Qed.

(** Issuance of a document the validators of the schema refuse: the
    first save throws, nothing is stored and the ledger is not called. *)
Lemma issueCertificate_invalid sd ai issuerId w u cid coll c1 w1 :
  users w !! issuerId = Some u ->
  User.college u = Some cid ->
  colleges w !! cid = Some coll ->
  CertificateController.new_Certificate sd ai issuerId coll w = (Ok c1, w1) ->
  schema_valid c1 = false ->
  CertificateController.issueCertificate env svc sd ai issuerId w
  = (Response.mk 500 false (Some "Certificate issuance failed") None None None
       (Some "Certificate validation failed"), w1)
  /\ certificates w1 = certificates w
  /\ ledger_calls w1 = ledger_calls w.
Proof.
  intros Hu Hcid Hcoll Hnew Hv.
  destruct (new_Certificate_spec _ _ _ _ _ _ _ Hnew)
    as (Hcerts & Hid & Htok & Htx & Hblk & Hst & Hreq & Hrand).
  split; [|split; [exact Hcerts|]].
  - unfold CertificateController.issueCertificate, handler.
    rewrite (bind_ok (User_findById_populate issuerId) _ w (Some (u, Some coll)) w); cycle 1.
    { unfold User_findById_populate, gets. rewrite Hu, Hcid. simpl. by rewrite Hcoll. }
    run_ok Hnew. pose proof (save_invalid c1 w1 Hv) as Hs. run_throw Hs. reflexivity.
  - revert Hnew. unfold CertificateController.new_Certificate, generateApiCode, gets,
      mbind, M_bind, mret, M_ret. simpl.
    repeat case_match; intros; simplify_eq; reflexivity.
Qed.

End Issuance.

(** A request whose [semesters] is [[{}]], and one whose student name is
    empty: both are answered 500 and nothing is stored. *)
Example issueCertificate_empty_semester_refused :
  let academics :=
    AcademicInput.mk "B.Tech" None "4 years" 2020 2024 (17 # 2) (85 # 1) "First Class"
      (Some [Semester.mk None None [] None None None])
      None None None None None None None None None in
  let out := CertificateController.issueCertificate (H:=Sample.runtime) Sample.env
               Sample.mock Sample.student academics Sample.admin_id (Sample.world ∅) in
  Response.statusCode out.1 = 500
  /\ Response.error out.1 = Some "Certificate validation failed"
  /\ certificates out.2 = ∅.
Proof. vm_compute. auto. Qed.

Example issueCertificate_empty_name_refused :
  let student := StudentData.mk "" "asha@example.edu" None "S-1001" None None in
  let out := CertificateController.issueCertificate (H:=Sample.runtime) Sample.env
               Sample.mock student Sample.academics Sample.admin_id (Sample.world ∅) in
  Response.statusCode out.1 = 500
  /\ Response.error out.1 = Some "Certificate validation failed"
  /\ certificates out.2 = ∅.
Proof. vm_compute. auto. Qed.

(** ** The state machine of the stored credentials *)

Lemma evolves_refl m : evolves m m.
Proof. intros id c Hc. eauto. Qed.

Lemma evolves_insert_fresh k d (m : gmap string Certificate) :
  m !! k = None -> evolves m (<[k := d]> m).
Proof.
  intros Hk id c Hc. exists c. rewrite lookup_insert_ne by congruence. auto.
Qed.

Lemma evolves_insert_same k c d (m : gmap string Certificate) :
  m !! k = Some c -> status d = status c \/ status d = REVOKED ->
  evolves m (<[k := d]> m).
Proof.
  intros Hk Hs id c' Hc'. rewrite lookup_insert. case_decide as Hid.
  - subst id. exists d. split; [reflexivity|]. congruence.
  - eauto.
Qed.

Lemma added_as_store_ok k m m' :
  store_ok m -> added_as k m m' -> store_ok m' /\ evolves m m'.
Proof.
  intros Hok (d & Hid & Hfresh & Hreq & Hdup & ->). split.
  - rewrite <- Hid. by apply store_ok_insert.
  - by apply evolves_insert_fresh.
Qed.

Lemma verified_store_ok k c t m m' :
  store_ok m -> m !! k = Some c -> m' = <[k := verified_once t c]> m ->
  store_ok m' /\ evolves m m'.
Proof.
  intros Hok Hc ->. split.
  - by apply store_ok_update with c.
  - apply evolves_insert_same with c; auto.
Qed.

Lemma verification_outcome_step w out :
  store_ok (certificates w) -> verification_outcome w out ->
  store_ok (certificates out.2) /\ evolves (certificates w) (certificates out.2).
Proof.
  intros Hok [[_ ->]|(k & c & sig & Hc & _ & Hm)].
  - split; [exact Hok|apply evolves_refl].
  - by apply verified_store_ok with k c (now w).
Qed.

Lemma revokeCertificate_step svc id reason w :
  store_ok (certificates w) ->
  let out := CertificateController.revokeCertificate svc id reason w in
  store_ok (certificates out.2) /\ evolves (certificates w) (certificates out.2).
Proof.
  intros Hok out.
  destruct (revokeCertificate_store svc id reason w Hok) as [[_ Heq]|(c & Hc & _ & Heq)];
    fold out in Heq; rewrite Heq.
  - split; [exact Hok|apply evolves_refl].
  - split.
    + by apply store_ok_update with c.
    + apply evolves_insert_same with c; auto.
Qed.

Section Machine.
Context `{JsRuntime} (env : ProcessEnv) (svc : BlockchainService.t).

(** Every request keeps the store within its indices and moves no stored
    credential to a status other than its own or REVOKED. *)
Lemma serve_step req w :
  store_ok (certificates w) ->
  store_ok (certificates (serve env svc req w).2)
  /\ evolves (certificates w) (certificates (serve env svc req w).2).
Proof.
  intros Hok. destruct req as [sd ai issuer|code|id reason|id|hash|qrData]; simpl.
  - destruct (issueCertificate_store env svc sd ai issuer w) as [->|[k Hadd]].
    + split; [exact Hok|apply evolves_refl].
    + by apply added_as_store_ok with k.
  - destruct (getCertificateByApiCode_outcome code w Hok) as [[_ ->]|(k & c & Hc & _ & ->)].
    + split; [exact Hok|apply evolves_refl].
    + by apply verified_store_ok with k c (now w).
  - by apply revokeCertificate_step.
  - by apply verification_outcome_step, verifyCertificateById_outcome.
  - by apply verification_outcome_step, verifyCertificateByHash_outcome.
  - by apply verification_outcome_step, verifyByQRCode_outcome.
Qed.

Lemma serve_all_revoked id reqs : forall w,
  store_ok (certificates w) ->
  status_of w id = Some REVOKED ->
  store_ok (certificates (serve_all env svc reqs w).2)
  /\ status_of (serve_all env svc reqs w).2 id = Some REVOKED.
Proof.
  induction reqs as [|req reqs IH]; intros w Hok Hst; simpl; [auto|].
  destruct (serve_step req w Hok) as [Hok1 Hev].
  destruct (serve env svc req w) as [r w1]. simpl in *.
  assert (status_of w1 id = Some REVOKED) as Hst1.
  { unfold status_of in *. destruct (certificates w !! id) as [c|] eqn:Hc; [|discriminate].
    injection Hst as Hst. destruct (Hev id c Hc) as (c' & -> & Hs). simpl.
    f_equal. destruct Hs; congruence. }
  specialize (IH w1 Hok1 Hst1).
  destruct (serve_all env svc reqs w1) as [rs w2]. exact IH.
Qed.

(** Verifications served one after the other each add one. *)
Lemma verify_n_times id n : forall c w,
  store_ok (certificates w) ->
  hex_of_length 24 id = true ->
  certificates w !! toLowerCase id = Some c ->
  let out := serve_all env svc (repeat (VerifyCertificateById id) n) w in
  count_of out.2 (toLowerCase id) = Some (verificationCount c + Z.of_nat n)
  /\ Forall (fun r => Response.success r = true) out.1
  /\ length out.1 = n.
Proof.
  induction n as [|n IH]; intros c w Hok Hhex Hc; simpl.
  - unfold count_of. rewrite Hc. simpl. split; [f_equal; lia|auto].
  - destruct (verifyCertificateById_stored svc id c w Hok Hhex Hc) as (sig & l & Hv).
    rewrite Hv.
    set (w1 := with_certificates _ _).
    specialize (IH (verified_once (now w) c) w1).
    destruct (serve_all env svc (repeat (VerifyCertificateById id) n) w1) as [rs w2] eqn:Hrun.
    simpl in *.
    destruct IH as (Hcount & Hall & Hlen).
    + subst w1. simpl. by apply store_ok_update with c.
    + exact Hhex.
    + subst w1. simpl. apply lookup_insert_eq.
    + split; [|split].
      * rewrite Hcount. f_equal. lia.
      * constructor; auto.
      * by rewrite Hlen.
Qed.

End Machine.

(** ** The digest is 64 hexadecimal digits *)

Lemma is_hex_hex_digit n : is_hex (Sha256.hex_digit n) = true.
Proof.
  unfold Sha256.hex_digit.
  repeat match goal with
         | |- context [match ?x with _ => _ end] => destruct x
         end; reflexivity.
Qed.

Lemma hexdigest_shape s : hex_of_length 64 (Sha256.hexdigest s) = true.
Proof.
  unfold hex_of_length, Sha256.hexdigest, Sha256.digest_words.
  set (r := Sha256.blocks _ _ _).
  apply andb_true_intro. split.
  - reflexivity.
  - rewrite list_ascii_of_string_of_list_ascii.
    cbv [List.map concat Sha256.hex8 List.app forallb].
    rewrite !is_hex_hex_digit. reflexivity.
Qed.

(** The test vectors of FIPS 180-4 (one block and two blocks) and the
    digest of the empty message. *)
Example sha256_abc :
  Sha256.hexdigest "abc"
  = "ba7816bf8f01cfea414140de5dae2223b00361a396177a9cb410ff61f20015ad".
Proof. vm_compute. reflexivity. Qed.

Example sha256_two_blocks :
  Sha256.hexdigest "abcdbcdecdefdefgefghfghighijhijkijkljklmklmnlmnomnopnopq"
  = "248d6a61d20638b8e5c026930c3e6039a33ce45964ff2167f6ecedd419db06c1".
Proof. vm_compute. reflexivity. Qed.

Example sha256_empty :
  Sha256.hexdigest ""
  = "e3b0c44298fc1c149afbf4c8996fb92427ae41e4649b934ca495991b7852b855".
Proof. vm_compute. reflexivity. Qed.

Section Fingerprint.
Context `{JsRuntime}.

(** Removing a common beginning. *)
Lemma append_cancel (p a b : string) : p ++ a = p ++ b -> a = b.
Proof.
  induction p as [|c p IH]; intros Heq; [exact Heq|].
  apply IH. by injection Heq.
Qed.

(** The hash reads five fields of the document, the time zone and nothing
    else. *)
Lemma generateHash_fields tz c1 c2 :
  StudentData.name (studentData c1) = StudentData.name (studentData c2) ->
  AcademicData.degree (academicData c1) = AcademicData.degree (academicData c2) ->
  AcademicData.overallCGPA (academicData c1) = AcademicData.overallCGPA (academicData c2) ->
  AcademicData.graduationYear (academicData c1)
  = AcademicData.graduationYear (academicData c2) ->
  issuedAt c1 = issuedAt c2 ->
  generateHash tz c1 = generateHash tz c2.
Proof. unfold generateHash, generateHash_data. by intros -> -> -> -> ->. Qed.

End Fingerprint.

(** ** The service without a contract *)

Lemma floor_scaled_bounds r k :
  (0 <= r)%Q -> (r < 1)%Q -> 0 < k ->
  0 <= BlockchainService.floor_scaled r k < k.
Proof.
  intros H0 H1 Hk. unfold BlockchainService.floor_scaled.
  assert (0 <= r * inject_Z k)%Q as Hlo.
  { apply Qmult_le_0_compat; [exact H0|]. change 0%Q with (inject_Z 0).
    rewrite <- Zle_Qle. lia. }
  assert (r * inject_Z k < inject_Z k)%Q as Hhi.
  { rewrite <- (Qmult_1_l (inject_Z k)) at 2.
    apply Qmult_lt_compat_r; [|exact H1]. change 0%Q with (inject_Z 0).
    rewrite <- Zlt_Qlt. lia. }
  split.
  - change 0 with (Qfloor 0). by apply Qfloor_resp_le.
  - rewrite Zlt_Qlt. eapply Qle_lt_trans; [apply Qfloor_le|exact Hhi].
Qed.

Lemma initialize_without_credentials env connect :
  BLOCKCHAIN_PRIVATE_KEY env = None \/ CONTRACT_ADDRESS env = None ->
  BlockchainService.contract (BlockchainService.initialize env connect) = None.
Proof.
  unfold BlockchainService.initialize. intros [-> | ->]; [reflexivity|].
  destruct (BLOCKCHAIN_PRIVATE_KEY env) as [key|]; [|reflexivity].
  destruct (_ || _)%bool; reflexivity.
Qed.

Lemma mock_mintCertificate `{JsRuntime} svc wallet data hash w :
  BlockchainService.contract svc = None ->
  BlockchainService.mintCertificate svc wallet data hash w
  = (Ok (BlockchainService.mkMintResult
           (Some (BlockchainService.floor_scaled (randoms w (random_next w)) 10000))
           ("0x" ++ substring 2 66 (Number_toString (randoms w (S (random_next w))) 16))
           (BlockchainService.floor_scaled (randoms w (S (S (random_next w)))) 1000000)
           "21000"),
     mkWorld (certificates w) (users w) (colleges w) (now w) (timeZone w) (randoms w)
       (S (S (S (random_next w)))) (objectIds w) (objectId_next w)
       (MintCall wallet hash :: ledger_calls w)).
Proof.
  intros Hk. unfold BlockchainService.mintCertificate. rewrite Hk. reflexivity.
Qed.

Lemma mock_verifyCertificate svc token w :
  BlockchainService.contract svc = None ->
  BlockchainService.verifyCertificate svc token w
  = (Ok (BlockchainService.mkVerification "Mock Student" "Mock Degree" "Mock Institution"
           2024 "mock_hash" (now w) true "0x0000000000000000000000000000000000000000"),
     with_ledger_calls (VerifyCall token :: ledger_calls w) w).
Proof.
  intros Hk. unfold BlockchainService.verifyCertificate. rewrite Hk. reflexivity.
Qed.

Lemma mock_verifyCertificateByHash svc hash w :
  BlockchainService.contract svc = None ->
  BlockchainService.verifyCertificateByHash svc hash w
  = (Throw "Hash verification failed: Contract not initialized",
     with_ledger_calls (VerifyByHashCall hash :: ledger_calls w) w).
Proof.
  intros Hk. unfold BlockchainService.verifyCertificateByHash. rewrite Hk. reflexivity.
Qed.

Lemma mock_revokeCertificate svc token w :
  BlockchainService.contract svc = None ->
  BlockchainService.revokeCertificate svc token w
  = (Throw "Revocation failed: Contract not initialized",
     with_ledger_calls (RevokeCall token :: ledger_calls w) w).
Proof.
  intros Hk. unfold BlockchainService.revokeCertificate. rewrite Hk. reflexivity.
Qed.

(** ** Verifications in flight *)

Lemma finished_insert (tasks : list Interleaving.Task) : forall i t t',
  tasks !! i = Some t ->
  (finished (<[i := t']> tasks) + (if Interleaving.is_finished t then 1 else 0)
   = finished tasks + (if Interleaving.is_finished t' then 1 else 0))%nat.
Proof.
  induction tasks as [|a tasks IH]; intros [|i] t t' Hi; simpl in *; try discriminate.
  - injection Hi as ->. lia.
  - specialize (IH i t t' Hi). lia.
Qed.

Lemma finished_all (tasks : list Interleaving.Task) :
  forallb Interleaving.is_finished tasks = true -> finished tasks = length tasks.
Proof.
  induction tasks as [|a tasks IH]; simpl; [reflexivity|].
  intros [Ha Hr]%andb_prop. rewrite Ha, IH; auto.
Qed.

Lemma finished_fetching id n : finished (repeat (Interleaving.Fetch id) n) = 0%nat.
Proof. induction n; simpl; auto. Qed.

Lemma task_ok_mono id c0 f f' t : (f <= f')%nat -> task_ok id c0 f t -> task_ok id c0 f' t.
Proof. destruct t; simpl; auto. intros Hf (? & ? & ?). repeat split; auto; lia. Qed.

Section Bounds.
Context (svc : BlockchainService.t) (id : string) (c0 : Certificate).
Hypothesis Hhex : hex_of_length 24 id = true.

Lemma step_in_flight tasks w i t :
  in_flight id c0 tasks w -> tasks !! i = Some t ->
  in_flight id c0 (<[i := (Interleaving.step svc t w).1]> tasks) (Interleaving.step svc t w).2.
Proof.
  intros (Hok & Hall & c & Hc & Hkeys & Hcount) Hi.
  pose proof (Forall_lookup_1 _ _ _ _ Hall Hi) as Ht.
  destruct t as [i'|d|r]; simpl in Ht.
  - (* the first store access: the document is loaded as it stands *)
    subst i'. simpl. unfold findById. rewrite Hhex. unfold gets. rewrite Hc. simpl.
    pose proof (finished_insert tasks i (Interleaving.Fetch id) (Interleaving.Loaded c) Hi)
      as Hf.
    simpl in Hf. unfold in_flight.
    replace (finished (<[i:=Interleaving.Loaded c]> tasks)) with (finished tasks) by lia.
    split; [exact Hok|]. split; [|eauto].
    apply Forall_insert; [exact Hall|]. simpl.
    destruct (proj1 Hok _ _ Hc) as [Hid _].
    repeat split; auto; destruct (finished tasks); lia.
  - (* the second: the loaded document, incremented, replaces the stored one *)
    destruct Ht as (Hid & Hdk & Hdc).
    destruct (ledger_check_total svc d w) as (sig & l & Hl).
    assert (Interleaving.step svc (Interleaving.Loaded d) w
            = (Interleaving.Finished
                 (VerifyController.verified (verified_once (now w) d) sig),
               with_certificates (<[toLowerCase id := verified_once (now w) d]> (certificates w))
                 (with_ledger_calls l w))) as ->.
    { simpl. unfold handler. run_ok Hl.
      rewrite (bind_ok _ _ _ _ _
                 (recordVerification_loaded d c (with_ledger_calls l w) Hok
                    ltac:(simpl; by rewrite Hid) ltac:(congruence))).
      simpl. by rewrite Hid. }
    simpl.
    pose proof (finished_insert tasks i (Interleaving.Loaded d)
                  (Interleaving.Finished
                     (VerifyController.verified (verified_once (now w) d) sig)) Hi) as Hf.
    simpl in Hf. unfold in_flight. simpl.
    replace (finished (<[i:=Interleaving.Finished _]> tasks)) with (S (finished tasks)) by lia.
    split; [|split].
    + destruct (proj1 Hok _ _ Hc) as [Hidc _].
      apply store_ok_update with c; auto.
      * simpl. congruence.
      * change (index_keys (verified_once (now w) d)) with (index_keys d). congruence.
    + apply Forall_insert; [|exact I].
      eapply Forall_impl; [exact Hall|]. intros t. apply task_ok_mono. lia.
    + exists (verified_once (now w) d). rewrite lookup_insert_eq.
      repeat split; auto; simpl; lia.
  - simpl. rewrite list_insert_id by exact Hi. split; [exact Hok|]. split; eauto.
Qed.

Lemma run_in_flight schedule : forall tasks w,
  in_flight id c0 tasks w ->
  in_flight id c0 (Interleaving.run svc schedule tasks w).1
    (Interleaving.run svc schedule tasks w).2
  /\ length (Interleaving.run svc schedule tasks w).1 = length tasks.
Proof.
  induction schedule as [|i rest IH]; intros tasks w Hinv; simpl; [auto|].
  destruct (tasks !! i) as [t|] eqn:Hi; [|auto].
  pose proof (step_in_flight tasks w i t Hinv Hi) as Hinv'.
  destruct (Interleaving.step svc t w) as [t' w']. simpl in Hinv'.
  destruct (IH _ _ Hinv') as [H1 H2]. split; [exact H1|].
  by rewrite H2, length_insert.
Qed.

(** However [n] verifications of one credential interleave, once all have
    answered the counter has risen by at least 1 and at most [n]. *)
Lemma interleaved_bounds w n schedule :
  store_ok (certificates w) ->
  certificates w !! toLowerCase id = Some c0 ->
  let out := Interleaving.run svc schedule (repeat (Interleaving.Fetch id) n) w in
  (0 < n)%nat ->
  forallb Interleaving.is_finished out.1 = true ->
  exists v, count_of out.2 (toLowerCase id) = Some v
            /\ verificationCount c0 + 1 <= v <= verificationCount c0 + Z.of_nat n.
Proof.
  intros Hok Hc out Hn Hdone.
  assert (in_flight id c0 (repeat (Interleaving.Fetch id) n) w) as Hinv.
  { split; [exact Hok|]. rewrite finished_fetching. split.
    - apply Forall_forall. intros t Ht. apply list_elem_of_In, repeat_spec in Ht. by subst t.
    - exists c0. simpl. repeat split; auto; lia. }
  destruct (run_in_flight schedule _ _ Hinv) as [(_ & _ & c & Hl & _ & Hb) Hlen].
  fold out in Hl, Hb, Hlen.
  rewrite (finished_all _ Hdone), Hlen, repeat_length in Hb.
  exists (verificationCount c). unfold count_of. rewrite Hl. simpl.
  split; [reflexivity|]. destruct n; [lia|]. lia.
Qed.

End Bounds.

(** * The claims *)

(** ** C1: the validity verdict *)

(** C1, as the code has it: the verdict of every successful verification is
    [status = MINTED] and (no ledger signal or the signal is valid), computed
    on the stored document; the status VERIFIED, which the model's virtual
    [isValid] counts as valid, is answered [isValid = false] by the three
    verification handlers. *)
Theorem C1_verified_credential_reported_invalid :
  let w := Sample.world (Sample.one Sample.observed) in
  status Sample.observed = VERIFIED
  /\ isValid Sample.observed = true
  /\ Response.isValid (VerifyController.verifyCertificateById Sample.mock Sample.cert_id w).1
     = Some false
  /\ Response.isValid (VerifyController.verifyCertificateByHash Sample.mock Sample.hash_a w).1
     = Some false
  /\ Response.isValid (VerifyController.verifyByQRCode Sample.mock Sample.cert_id w).1
     = Some false.
Proof. vm_compute. auto. Qed.

(** The verdict of a verification that finds its certificate, for every
    store and every ledger: valid exactly when the status is MINTED and the
    ledger, if it answered, says valid; in particular never for REVOKED. *)
Lemma verdict_of_verification w out :
  verification_outcome w out ->
  Response.success out.1 = true ->
  exists k c sig,
    certificates w !! k = Some c
    /\ Response.isValid out.1
       = Some (bool_decide (status c = MINTED)
               && match sig with None => true | Some v => signal_isValid v end)
    /\ (status c = REVOKED -> Response.isValid out.1 = Some false).
Proof.
  intros [[Hf _]|(k & c & sig & Hc & -> & _)] Hs; [congruence|].
  exists k, c, sig. split; [exact Hc|]. split; [reflexivity|].
  intros Hr. simpl. f_equal. apply overall_validity_not_minted. simpl. congruence.
Qed.

(** ** C2: issuance when the anchor attempt fails *)

Section C2.
Context `{JsRuntime} (env : ProcessEnv) (svc : BlockchainService.t).

(** C2: when local persistence succeeds, that is, the issuer has a
    college, the new document passes the validators of the schema, its id
    is free and it clashes with no unique index, and the QR renderer
    answers, and the ledger's mint call throws, issuance answers 201 with
    [success = true]: the stored record has status PENDING and no token,
    transaction hash or block number, and the response carries the API code,
    the verification link and the QR code together with the warning that
    minting failed. *)
Theorem C2_anchor_failure_still_issues
    sd ai issuerId w u cid coll c1 w1 qr k e :
  users w !! issuerId = Some u ->
  User.college u = Some cid ->
  colleges w !! cid = Some coll ->
  CertificateController.new_Certificate sd ai issuerId coll w = (Ok c1, w1) ->
  schema_valid c1 = true ->
  certificates w !! _id c1 = None ->
  duplicate_key c1 (certificates w) = false ->
  QRCode_toDataURL (qr_target env c1) = Ok qr ->
  BlockchainService.contract svc = Some k ->
  BlockchainService.contract_mintCertificate k (College.walletAddress coll) None
    (Some (AcademicData.degree (academicData c1))) None None
    (render (Blockchain.certificateHash (blockchain c1))) = Throw e ->
  let link := verification_link env c1 in
  let stored := set_status PENDING (set_verificationLink link (set_qrCode qr c1)) in
  exists w',
    CertificateController.issueCertificate env svc sd ai issuerId w
    = (Response.mk 201 true
         (Some "Certificate created with complete academic record, blockchain minting pending")
         None
         (Some (IssuedData stored (mkStudentAccess (apiCode c1) link qr)))
         (Some "Blockchain minting failed, will retry automatically")
         None, w')
    /\ certificates w' !! _id c1 = Some stored
    /\ status stored = PENDING
    /\ tokenId stored = None
    /\ Blockchain.transactionHash (blockchain stored) = None
    /\ Blockchain.blockNumber (blockchain stored) = None
    /\ is_Some (apiCode c1).
Proof.
  intros Hu Hcid Hcoll Hnew Hvalid Hfresh Hdup Hqr Hk Hmint link stored.
  destruct (issueCertificate_anchor_failure env svc sd ai issuerId w u cid coll c1 w1 qr k e)
    as (w' & Hrun & Hstore); auto.
  destruct (new_Certificate_spec _ _ _ _ _ _ _ Hnew)
    as (_ & _ & Htok & Htx & Hblk & _ & Hreq & _).
  exists w'. split; [exact Hrun|]. rewrite Hstore, lookup_insert_eq.
  simpl. rewrite Htok, Htx, Hblk. repeat split.
  unfold required_present in Hreq. destruct (apiCode c1); [eauto|discriminate].
Qed.

End C2.

Lemma C2_anchor_failure_still_issues_witness :
  exists r w',
    CertificateController.issueCertificate (H:=Sample.runtime) Sample.env
      (Sample.live Sample.ledger_down) Sample.student Sample.academics Sample.admin_id
      (Sample.world ∅) = (r, w')
    /\ Response.statusCode r = 201
    /\ Response.success r = true
    /\ Response.warning r = Some "Blockchain minting failed, will retry automatically"
    /\ status_of w' Sample.cert_id = Some PENDING.
Proof.
  edestruct (C2_anchor_failure_still_issues (H:=Sample.runtime) Sample.env
               (Sample.live Sample.ledger_down) Sample.student Sample.academics
               Sample.admin_id (Sample.world ∅)
               (User.mk Sample.admin_id (Some Sample.college_id)) Sample.college_id
               Sample.the_college)
    as (w' & Hrun & Hstored & Hst & _).
  - reflexivity.
  - reflexivity.
  - reflexivity.
  - vm_compute. reflexivity.
  - reflexivity.
  - reflexivity.
  - reflexivity.
  - reflexivity.
  - reflexivity.
  - reflexivity.
  - eexists. exists w'. split; [exact Hrun|]. simpl. repeat split.
    unfold status_of. vm_compute in Hstored. vm_compute. rewrite Hstored. reflexivity.
Defined.

(** ** C3: revocation and the ledger *)

(** C3 as stated fails: a MINTED certificate with token 7 is to be revoked
    while the ledger's revoke call throws; the ledger revoke is invoked, the
    request is answered 500, and the stored record keeps status MINTED and
    no reason. *)
Lemma C3_ledger_failure_blocks_revocation :
  let w := Sample.world (Sample.one Sample.anchored) in
  let out := CertificateController.revokeCertificate (Sample.live Sample.ledger_down)
               Sample.cert_id "withdrawn by the registrar" w in
  status_of w Sample.cert_id = Some MINTED
  /\ ledger_calls out.2 = [RevokeCall 7]
  /\ Response.statusCode out.1 = 500
  /\ status_of out.2 Sample.cert_id = Some MINTED
  /\ reason_of out.2 Sample.cert_id = Some None
  /\ ~ (status_of out.2 Sample.cert_id = Some REVOKED
        /\ reason_of out.2 Sample.cert_id = Some (Some "withdrawn by the registrar")).
Proof. vm_compute. repeat split; auto. intros [? _]. discriminate. Qed.

(** C3, amended: for a revocation request on a stored certificate whose
    token, if any, is not 0: when the certificate has a token the ledger
    revoke is invoked with it, and its outcome decides: if it returns, the
    request succeeds and the stored record has status REVOKED and the
    supplied reason; if it throws, the request is answered 500 and the store
    is unchanged. When the certificate has no token the ledger is not
    invoked and the stored record ends REVOKED with the reason. *)
Theorem C3_revocation_follows_ledger svc id reason c w :
  store_ok (certificates w) ->
  hex_of_length 24 id = true ->
  certificates w !! toLowerCase id = Some c ->
  tokenId c <> Some 0 ->
  let out := CertificateController.revokeCertificate svc id reason w in
  let revoked :=
    Response.statusCode out.1 = 200
    /\ Response.success out.1 = true
    /\ status_of out.2 (toLowerCase id) = Some REVOKED
    /\ reason_of out.2 (toLowerCase id) = Some (Some reason)
    /\ certificates out.2 = <[toLowerCase id := revoked_with reason c]> (certificates w) in
  match tokenId c with
  | Some token =>
      ledger_calls out.2 = RevokeCall token :: ledger_calls w
      /\ if ledger_revoke_succeeds svc token
         then revoked
         else Response.statusCode out.1 = 500
              /\ Response.success out.1 = false
              /\ Response.message out.1 = Some "Certificate revocation failed"
              /\ certificates out.2 = certificates w
  | None => ledger_calls out.2 = ledger_calls w /\ revoked
  end.
Proof.
  intros Hok Hhex Hc Hzero out revoked.
  destruct (revokeCertificate_stored svc id reason c w Hok Hhex Hc) as [Hcalls Hout].
  fold out in Hcalls, Hout.
  assert (forall b : bool,
            (if b then out.1 = Response.mk 200 true (Some "Certificate revoked successfully")
                              None (Some (CertificateData (revoked_with reason c))) None None
                       /\ certificates out.2
                          = <[toLowerCase id := revoked_with reason c]> (certificates w)
             else Response.statusCode out.1 = 500
                  /\ Response.success out.1 = false
                  /\ Response.message out.1 = Some "Certificate revocation failed"
                  /\ certificates out.2 = certificates w) ->
            if b then revoked
            else Response.statusCode out.1 = 500
                 /\ Response.success out.1 = false
                 /\ Response.message out.1 = Some "Certificate revocation failed"
                 /\ certificates out.2 = certificates w) as Hcase.
  { intros [] Hb; [|exact Hb]. destruct Hb as [Hr Hm]. unfold revoked, status_of, reason_of.
    rewrite Hr, Hm, lookup_insert_eq. auto. }
  destruct (tokenId c) as [token|] eqn:Htok; simpl in Hcalls, Hout.
  - assert (Z.eqb token 0 = false) as Hnz by (apply Z.eqb_neq; congruence).
    rewrite Hnz in Hcalls, Hout. simpl in Hcalls, Hout.
    split; [exact Hcalls|]. by apply Hcase.
  - split; [exact Hcalls|]. by apply (Hcase true).
Qed.

Lemma C3_revocation_follows_ledger_witness :
  let w := Sample.world (Sample.one Sample.anchored) in
  let out := CertificateController.revokeCertificate (Sample.live Sample.ledger_up)
               Sample.cert_id "withdrawn by the registrar" w in
  ledger_calls out.2 = [RevokeCall 7]
  /\ status_of out.2 Sample.cert_id = Some REVOKED
  /\ reason_of out.2 Sample.cert_id = Some (Some "withdrawn by the registrar").
Proof.
  intros w out.
  pose proof (C3_revocation_follows_ledger (Sample.live Sample.ledger_up) Sample.cert_id
                "withdrawn by the registrar" Sample.anchored w) as Hthm.
  destruct Hthm as [Hcalls Hout].
  - apply (store_ok_singleton Sample.anchored). reflexivity.
  - reflexivity.
  - reflexivity.
  - discriminate.
  - split; [exact Hcalls|]. destruct Hout as (_ & _ & Hs & Hr & _).
    split; [exact Hs|exact Hr].
Defined.

(** ** C4: REVOKED is terminal *)

(** C4 as stated fails: a certificate revoked for "plagiarism" is revoked
    again with another reason; the request is not rejected and the stored
    reason is replaced. *)
Lemma C4_second_revocation_replaces_reason :
  let w := Sample.world (Sample.one Sample.withdrawn) in
  let out := CertificateController.revokeCertificate Sample.mock Sample.cert_id
               "clerical error" w in
  status_of w Sample.cert_id = Some REVOKED
  /\ reason_of w Sample.cert_id = Some (Some "plagiarism")
  /\ Response.statusCode out.1 = 200
  /\ Response.success out.1 = true
  /\ reason_of out.2 Sample.cert_id = Some (Some "clerical error")
  /\ reason_of out.2 Sample.cert_id <> reason_of w Sample.cert_id.
Proof. vm_compute. repeat split; auto. discriminate. Qed.

Section C4.
Context `{JsRuntime} (env : ProcessEnv) (svc : BlockchainService.t).

(** C4, amended: REVOKED is terminal: whatever requests are served, a
    credential whose status is REVOKED keeps that status. A revocation of an
    already REVOKED credential is treated like any other: when it succeeds
    the status stays REVOKED and the stored reason becomes the newly supplied
    one; when it is answered with a failure the store is unchanged. *)
Theorem C4_revoked_is_terminal w id :
  store_ok (certificates w) ->
  status_of w id = Some REVOKED ->
  (forall reqs, status_of (serve_all env svc reqs w).2 id = Some REVOKED)
  /\ (forall rid reason,
        toLowerCase rid = id ->
        let out := CertificateController.revokeCertificate svc rid reason w in
        (Response.success out.1 = true ->
         status_of out.2 id = Some REVOKED /\ reason_of out.2 id = Some (Some reason))
        /\ (Response.success out.1 = false -> certificates out.2 = certificates w)).
Proof.
  intros Hok Hst. split.
  - intros reqs. by apply serve_all_revoked.
  - intros rid reason <- out.
    destruct (revokeCertificate_store svc rid reason w Hok) as [[Hf Heq]|(c & Hc & Hs & Heq)];
      fold out in Hf, Heq || fold out in Hs, Heq.
    + split; [congruence|auto].
    + split; [|congruence]. intros _. unfold status_of, reason_of.
      rewrite Heq, lookup_insert_eq. auto.
Qed.

End C4.

Lemma C4_revoked_is_terminal_witness :
  let w := Sample.world (Sample.one Sample.withdrawn) in
  status_of
    (serve_all (H:=Sample.runtime) Sample.env Sample.mock
       [VerifyCertificateById Sample.cert_id;
        IssueCertificate Sample.student Sample.academics Sample.admin_id;
        GetCertificateByApiCode "CERT-1";
        RevokeCertificate Sample.cert_id "clerical error";
        VerifyByQRCode Sample.hash_a] w).2 Sample.cert_id
  = Some REVOKED.
Proof.
  intros w.
  destruct (C4_revoked_is_terminal (H:=Sample.runtime) Sample.env Sample.mock w Sample.cert_id)
    as [Hall _].
  - apply (store_ok_singleton Sample.withdrawn). reflexivity.
  - reflexivity.
  - exact (Hall _).
Defined.

(** ** C5: a uniqueness violation at issuance *)

(** C5 as stated fails: the store holds one certificate with the API code
    the generator is about to produce; issuance is answered 500 with the
    store's duplicate-key error, nothing is persisted, and [Math.random()]
    was drawn once: nothing was regenerated and no save was retried. *)
Lemma C5_single_conflict_fails_issuance :
  let taken := Sample.certificate Sample.other_id "CERT-2023-LOYW3V28-I" Sample.hash_a
                 None MINTED 0 None in
  let w := Sample.world (Sample.one taken) in
  let out := CertificateController.issueCertificate (H:=Sample.runtime) Sample.env
               Sample.mock Sample.student Sample.academics Sample.admin_id w in
  Response.statusCode out.1 = 500
  /\ Response.success out.1 = false
  /\ Response.message out.1 = Some "Certificate issuance failed"
  /\ Response.error out.1 = Some "E11000 duplicate key error"
  /\ certificates out.2 !! Sample.cert_id = None
  /\ size (certificates out.2) = 1%nat
  /\ random_next out.2 = 1%nat.
Proof. vm_compute. repeat (split; [reflexivity|]). reflexivity. Qed.

Section C5.
Context `{JsRuntime} (env : ProcessEnv) (svc : BlockchainService.t).

(** C5, amended: during issuance the hash and the API code are generated
    once; when the document so built violates a unique index of the store,
    the save throws, nothing is regenerated or retried, and issuance fails at
    once with 500 "Certificate issuance failed" carrying the store's error
    (the validation error, when the document does not pass the schema's
    validators either: they run first), the store unchanged. *)
Theorem C5_uniqueness_violation_is_fatal sd ai issuerId w u cid coll c1 w1 :
  users w !! issuerId = Some u ->
  User.college u = Some cid ->
  colleges w !! cid = Some coll ->
  CertificateController.new_Certificate sd ai issuerId coll w = (Ok c1, w1) ->
  duplicate_key c1 (certificates w) = true ->
  let out := CertificateController.issueCertificate env svc sd ai issuerId w in
  out.1 = Response.mk 500 false (Some "Certificate issuance failed") None None None
            (Some (if schema_valid c1 then "E11000 duplicate key error"
                   else "Certificate validation failed"))
  /\ certificates out.2 = certificates w
  /\ random_next out.2 = S (random_next w)
  /\ ledger_calls out.2 = ledger_calls w.
Proof.
  intros Hu Hcid Hcoll Hnew Hdup out.
  destruct (issueCertificate_duplicate env svc sd ai issuerId w u cid coll c1 w1)
    as (Hrun & Hcerts & Hrand); auto.
  subst out. rewrite Hrun. simpl. repeat split; auto.
  revert Hnew. unfold CertificateController.new_Certificate, generateApiCode.
  unfold mbind, M_bind, mret, M_ret, new_ObjectId, Date_now, Math_random, gets. simpl.
  by intros [= _ <-].
Qed.

End C5.

Lemma C5_uniqueness_violation_is_fatal_witness :
  let taken := Sample.certificate Sample.other_id "CERT-2023-LOYW3V28-I" Sample.hash_a
                 None MINTED 0 None in
  let w := Sample.world (Sample.one taken) in
  Response.statusCode
    (CertificateController.issueCertificate (H:=Sample.runtime) Sample.env Sample.mock
       Sample.student Sample.academics Sample.admin_id w).1 = 500.
Proof.
  intros taken w.
  edestruct (C5_uniqueness_violation_is_fatal (H:=Sample.runtime) Sample.env Sample.mock
               Sample.student Sample.academics Sample.admin_id w
               (User.mk Sample.admin_id (Some Sample.college_id)) Sample.college_id
               Sample.the_college) as (Hrun & _).
  - reflexivity.
  - reflexivity.
  - reflexivity.
  - vm_compute. reflexivity.
  - vm_compute. reflexivity.
  - rewrite Hrun. reflexivity.
Defined.

(** ** C6: the fingerprint *)

(** C6 as stated fails: the hash is not a function of the payload and the
    issuance timestamp alone. The timestamp enters the hashed text through
    [Date.prototype.toString()], which renders it in the local time zone of
    the host: for one and the same document, issued at 1700000000000, a
    host on UTC hashes a text that ends with Tue Nov 14 2023 22:13:20
    GMT+0000, a host on Indian time one that ends with Wed Nov 15 2023
    03:43:20 GMT+0530, and the two digests differ. *)
Lemma C6_fingerprint_depends_on_time_zone :
  let c := Sample.anchored in
  Date_toString Sample.utc (issuedAt c)
  = "Tue Nov 14 2023 22:13:20 GMT+0000 (Coordinated Universal Time)"
  /\ Date_toString Sample.ist (issuedAt c)
     = "Wed Nov 15 2023 03:43:20 GMT+0530 (India Standard Time)"
  /\ (forall H : JsRuntime, generateHash_data Sample.utc c <> generateHash_data Sample.ist c)
  /\ generateHash (H:=Sample.runtime) Sample.utc c
     <> generateHash (H:=Sample.runtime) Sample.ist c.
Proof.
  intros c.
  assert (Date_toString Sample.utc (issuedAt c)
          = "Tue Nov 14 2023 22:13:20 GMT+0000 (Coordinated Universal Time)") as Hutc
    by (vm_compute; reflexivity).
  assert (Date_toString Sample.ist (issuedAt c)
          = "Wed Nov 15 2023 03:43:20 GMT+0530 (India Standard Time)") as Hist
    by (vm_compute; reflexivity).
  split; [exact Hutc|]. split; [exact Hist|]. split.
  - intros H Heq. unfold generateHash_data in Heq. rewrite Hutc, Hist in Heq.
    do 8 apply append_cancel in Heq. discriminate.
  - vm_compute. discriminate.
Qed.

Section C6.
Context `{JsRuntime}.

(** C6, amended: the hash generator is a function of four fields of the
    payload (the student's name, the degree, the overall CGPA and the
    graduation year), of the issuance timestamp and of the time zone of the
    host: two documents that agree on these, hashed in the same time zone,
    have the same hash, whatever their other fields; the hash is the
    SHA-256 digest, 64 hexadecimal digits, of the five values joined by
    hyphens, the timestamp rendered by [Date.prototype.toString()] in that
    time zone. *)
Theorem C6_fingerprint_deterministic (tz : TimeZone) c1 c2 :
  StudentData.name (studentData c1) = StudentData.name (studentData c2) ->
  AcademicData.degree (academicData c1) = AcademicData.degree (academicData c2) ->
  AcademicData.overallCGPA (academicData c1) = AcademicData.overallCGPA (academicData c2) ->
  AcademicData.graduationYear (academicData c1)
  = AcademicData.graduationYear (academicData c2) ->
  issuedAt c1 = issuedAt c2 ->
  generateHash tz c1 = generateHash tz c2
  /\ hex_of_length 64 (generateHash tz c1) = true
  /\ generateHash tz c1
     = Sha256.hexdigest
         (StudentData.name (studentData c2) ++ "-"
          ++ AcademicData.degree (academicData c2) ++ "-"
          ++ Number_toString (AcademicData.overallCGPA (academicData c2)) 10 ++ "-"
          ++ Number_toString (inject_Z (AcademicData.graduationYear (academicData c2))) 10
          ++ "-" ++ Date_toString tz (issuedAt c2)).
Proof.
  intros Hn Hd Hc Hy Ht. split; [|split].
  - by apply generateHash_fields.
  - apply hexdigest_shape.
  - rewrite (generateHash_fields tz c1 c2) by assumption. reflexivity.
Qed.

End C6.

Lemma C6_fingerprint_deterministic_witness :
  generateHash (H:=Sample.runtime) Sample.ist Sample.anchored
  = generateHash (H:=Sample.runtime) Sample.ist Sample.withdrawn
  /\ hex_of_length 64 (generateHash (H:=Sample.runtime) Sample.ist Sample.anchored) = true.
Proof.
  destruct (C6_fingerprint_deterministic (H:=Sample.runtime) Sample.ist
              Sample.anchored Sample.withdrawn) as (Heq & Hhex & _);
    try reflexivity.
  split; assumption.
Defined.

(** ** C7: the verification counter *)

(** C7 as stated fails: two verifications of one credential, both loading
    the document before either saves, both answer with success and leave the
    counter at 1, not 2: the second save overwrites the first. *)
Lemma C7_interleaved_verifications_lose_an_update :
  let w := Sample.world (Sample.one Sample.unanchored) in
  let out := Interleaving.run Sample.mock [0; 1; 0; 1]%nat
               [Interleaving.Fetch Sample.cert_id; Interleaving.Fetch Sample.cert_id] w in
  count_of w Sample.cert_id = Some 0
  /\ forallb (fun t => match t with
                       | Interleaving.Finished r => Response.success r
                       | _ => false
                       end) out.1 = true
  /\ count_of out.2 Sample.cert_id = Some 1
  /\ count_of out.2 Sample.cert_id <> Some (0 + 2).
Proof. vm_compute. repeat (split; [reflexivity|]). discriminate. Qed.

Section C7.
Context `{JsRuntime} (env : ProcessEnv) (svc : BlockchainService.t).

(** C7, amended: verifications of a credential served one after the other
    each succeed and increase its counter by exactly one, so [n] of them
    increase it by exactly [n] (two by 2) and it never decreases between
    them. The update is a read-modify-write: the counter of the loaded
    document is incremented and the document saved; when [n >= 1]
    verifications of the credential interleave, whatever the schedule, the
    counter has risen by at least 1 and at most [n] once all have answered,
    and updates can be lost. *)
Theorem C7_counter_sequential_and_interleaved id c w n :
  store_ok (certificates w) ->
  hex_of_length 24 id = true ->
  certificates w !! toLowerCase id = Some c ->
  (let out := serve_all env svc (repeat (VerifyCertificateById id) n) w in
   count_of out.2 (toLowerCase id) = Some (verificationCount c + Z.of_nat n)
   /\ Forall (fun r => Response.success r = true) out.1)
  /\ (forall schedule,
        let out := Interleaving.run svc schedule (repeat (Interleaving.Fetch id) n) w in
        (0 < n)%nat ->
        forallb Interleaving.is_finished out.1 = true ->
        exists v, count_of out.2 (toLowerCase id) = Some v
                  /\ verificationCount c + 1 <= v <= verificationCount c + Z.of_nat n).
Proof.
  intros Hok Hhex Hc. split.
  - destruct (verify_n_times env svc id n c w Hok Hhex Hc) as (Hcount & Hall & _). auto.
  - intros schedule. by apply interleaved_bounds.
Qed.

End C7.

Lemma C7_counter_sequential_and_interleaved_witness :
  let w := Sample.world (Sample.one Sample.unanchored) in
  count_of
    (serve_all (H:=Sample.runtime) Sample.env Sample.mock
       [VerifyCertificateById Sample.cert_id; VerifyCertificateById Sample.cert_id] w).2
    Sample.cert_id
  = Some 2.
Proof.
  intros w.
  destruct (C7_counter_sequential_and_interleaved (H:=Sample.runtime) Sample.env Sample.mock
              Sample.cert_id Sample.unanchored w 2) as [[Hseq _] _].
  - apply (store_ok_singleton Sample.unanchored). reflexivity.
  - reflexivity.
  - reflexivity.
  - exact Hseq.
Defined.

(** ** C8: verification by QR payload *)

(** C8, as the code has it: a certificate is issued; its verification link,
    which the QR service's [validateQRData] decodes to the certificate's
    identifier, is answered 404 by [verifyByQRCode], and so is the URL the
    issued QR code encodes; the bare identifier and the bare hash are
    resolved. *)
Theorem C8_verification_url_not_resolved :
  let issued := CertificateController.issueCertificate (H:=Sample.runtime) Sample.env
                  Sample.mock Sample.student Sample.academics Sample.admin_id
                  (Sample.world ∅) in
  let link := "http://localhost:3000/verify/507f1f77bcf86cd799439011" in
  let encoded :=
    "http://localhost:3000/verify/http://localhost:3000/verify/507f1f77bcf86cd799439011" in
  let hash := "21359265512bd4d809b7dffd265f54b43bd781b278d7cec28cd0be27fc328bff" in
  (exists c, certificates issued.2 !! Sample.cert_id = Some c
             /\ Metadata.verificationLink (metadata c) = Some link
             /\ Metadata.qrCode (metadata c) = Some ("data:image/png;base64," ++ encoded)
             /\ Blockchain.certificateHash (blockchain c) = Some hash)
  /\ QRService.validateQRData link
     = QRService.mkQRData QRService.certificateId Sample.cert_id true
  /\ QRService.validateQRData encoded
     = QRService.mkQRData QRService.certificateId Sample.cert_id true
  /\ (VerifyController.verifyByQRCode Sample.mock link issued.2).1
     = VerifyController.not_found "Invalid QR code or certificate not found"
  /\ (VerifyController.verifyByQRCode Sample.mock encoded issued.2).1
     = VerifyController.not_found "Invalid QR code or certificate not found"
  /\ Response.statusCode (VerifyController.verifyByQRCode Sample.mock Sample.cert_id issued.2).1
     = 200
  /\ Response.statusCode (VerifyController.verifyByQRCode Sample.mock hash issued.2).1 = 200.
Proof.
  vm_compute. split; [eexists; repeat (split; [reflexivity|]); reflexivity|].
  repeat (split; [reflexivity|]). reflexivity.
Qed.

(** ** C9: the service without a contract *)

(** C9 as stated fails: with no private key configured, the revoke operation
    and the lookup by hash throw "Contract not initialized" instead of
    returning placeholders. *)
Lemma C9_mock_revoke_and_hash_lookup_throw :
  let w := Sample.world ∅ in
  BlockchainService.contract Sample.mock = None
  /\ (BlockchainService.revokeCertificate Sample.mock 7 w).1
     = Throw "Revocation failed: Contract not initialized"
  /\ (BlockchainService.verifyCertificateByHash Sample.mock Sample.hash_a w).1
     = Throw "Hash verification failed: Contract not initialized"
  /\ ~ (exists r, (BlockchainService.revokeCertificate Sample.mock 7 w).1 = Ok r).
Proof. vm_compute. repeat (split; [reflexivity|]). intros [r Hr]. discriminate. Qed.

Section C9.
Context `{JsRuntime}.

(** C9, amended: when no private key or no contract address is configured
    the service has no contract, and then: the mint operation returns
    synthetic identifiers (a token in [0, 10000), a transaction hash that
    starts with "0x", a block number in [0, 1000000), gas "21000"); the
    verification by token returns a fixed placeholder with [isValid = true];
    the verification by hash and the revoke operation throw "Contract not
    initialized". *)
Theorem C9_mock_mode_operations env connect w wallet data hash token :
  BLOCKCHAIN_PRIVATE_KEY env = None \/ CONTRACT_ADDRESS env = None ->
  (forall n, (0 <= randoms w n)%Q /\ (randoms w n < 1)%Q) ->
  let svc := BlockchainService.initialize env connect in
  (exists t tx b,
     (BlockchainService.mintCertificate svc wallet data hash w).1
     = Ok (BlockchainService.mkMintResult (Some t) ("0x" ++ tx) b "21000")
     /\ 0 <= t < 10000 /\ 0 <= b < 1000000)
  /\ (BlockchainService.verifyCertificate svc token w).1
     = Ok (BlockchainService.mkVerification "Mock Student" "Mock Degree" "Mock Institution"
             2024 "mock_hash" (now w) true "0x0000000000000000000000000000000000000000")
  /\ (BlockchainService.verifyCertificateByHash svc hash w).1
     = Throw "Hash verification failed: Contract not initialized"
  /\ (BlockchainService.revokeCertificate svc token w).1
     = Throw "Revocation failed: Contract not initialized".
Proof.
  intros Hcfg Hrand svc.
  pose proof (initialize_without_credentials env connect Hcfg) as Hk. fold svc in Hk.
  rewrite (mock_mintCertificate svc wallet data hash w Hk).
  rewrite (mock_verifyCertificate svc token w Hk).
  rewrite (mock_verifyCertificateByHash svc hash w Hk).
  rewrite (mock_revokeCertificate svc token w Hk).
  simpl. repeat split.
  do 3 eexists. split; [reflexivity|].
  split; apply floor_scaled_bounds; try apply Hrand; lia.
Qed.

End C9.

Lemma C9_mock_mode_operations_witness :
  (BlockchainService.verifyCertificate Sample.mock 7 (Sample.world ∅)).1
  = Ok (BlockchainService.mkVerification "Mock Student" "Mock Degree" "Mock Institution"
          2024 "mock_hash" 1700000000000 true "0x0000000000000000000000000000000000000000")
  /\ (BlockchainService.revokeCertificate Sample.mock 7 (Sample.world ∅)).1
     = Throw "Revocation failed: Contract not initialized".
Proof.
  destruct (C9_mock_mode_operations (H:=Sample.runtime) Sample.env
              (fun _ _ => Throw "unreachable") (Sample.world ∅) None
              (CertificateController.build_academicData Sample.academics) Sample.hash_a 7)
    as (_ & Hv & _ & Hr).
  - left. reflexivity.
  - intros n. split; [discriminate|reflexivity].
  - split; [exact Hv|exact Hr].
Defined.

(** ** C10: retrieval by access code *)

(** C10: in a store that satisfies its indices, a lookup by API code
    succeeds exactly when a stored certificate has that code; every lookup
    that succeeds files that certificate with its verification counter
    increased by one and its last-verified date set to the current time, and
    answers with the document and without an [isValid] verdict. *)
Theorem C10_access_code_lookup_counts code w :
  store_ok (certificates w) ->
  let out := CertificateController.getCertificateByApiCode code w in
  (Response.success out.1 = true
   <-> exists k c, certificates w !! k = Some c /\ apiCode c = Some code)
  /\ (Response.success out.1 = true ->
      exists k c,
        certificates w !! k = Some c
        /\ apiCode c = Some code
        /\ count_of out.2 k = Some (verificationCount c + 1)
        /\ lastVerified <$> certificates out.2 !! k = Some (Some (now w))
        /\ Response.isValid out.1 = None
        /\ Response.data out.1 = Some (CertificateData (verified_once (now w) c))).
Proof.
  intros Hok out.
  assert (Response.success out.1 = true ->
      exists k c,
        certificates w !! k = Some c
        /\ apiCode c = Some code
        /\ count_of out.2 k = Some (verificationCount c + 1)
        /\ lastVerified <$> certificates out.2 !! k = Some (Some (now w))
        /\ Response.isValid out.1 = None
        /\ Response.data out.1 = Some (CertificateData (verified_once (now w) c))) as Hinc.
  { intros Hs.
    destruct (getCertificateByApiCode_outcome code w Hok) as [[Hf _]|(k & c & Hc & Hcode & Heq)];
      fold out in Hf || fold out in Heq; [congruence|].
    exists k, c. rewrite Heq. unfold count_of. simpl. rewrite lookup_insert_eq. auto 10. }
  split; [|exact Hinc]. split.
  - intros Hs. destruct (Hinc Hs) as (k & c & Hc & Hcode & _). eauto.
  - intros (k & c & Hc & Hcode). subst out.
    by rewrite (getCertificateByApiCode_stored code k c w Hok Hc Hcode).
Qed.

Lemma C10_access_code_lookup_counts_witness :
  let w := Sample.world (Sample.one Sample.unanchored) in
  let out := CertificateController.getCertificateByApiCode "CERT-1" w in
  Response.success out.1 = true
  /\ exists k c, certificates w !! k = Some c
                 /\ count_of out.2 k = Some (verificationCount c + 1).
Proof.
  intros w out.
  destruct (C10_access_code_lookup_counts "CERT-1" w) as [_ Hinc].
  - apply (store_ok_singleton Sample.unanchored). reflexivity.
  - fold out in Hinc. assert (Response.success out.1 = true) as Hs by reflexivity.
    split; [exact Hs|].
    destruct (Hinc Hs) as (k & c & Hc & _ & Hcount & _). eauto.
Defined.

(** * Further properties *)

(** ** Strings as lists of characters *)

Lemma chars_app a b :
  list_ascii_of_string (a ++ b) = (list_ascii_of_string a ++ list_ascii_of_string b)%list.
Proof. induction a as [|c a IH]; simpl; [reflexivity|]. by rewrite IH. Qed.

Lemma chars_length s : String.length s = length (list_ascii_of_string s).
Proof. induction s as [|c s IH]; simpl; auto. Qed.

Lemma chars_inj a b : list_ascii_of_string a = list_ascii_of_string b -> a = b.
Proof.
  intros Heq. rewrite <- (string_of_list_ascii_of_string a), Heq.
  apply string_of_list_ascii_of_string.
Qed.

Lemma str_app_length a b :
  String.length (a ++ b) = (String.length a + String.length b)%nat.
Proof. by rewrite !chars_length, chars_app, length_app. Qed.

Lemma str_app_assoc (a b c : string) : (a ++ b) ++ c = a ++ (b ++ c).
Proof.
  apply chars_inj. by rewrite !chars_app, app_assoc.
Qed.

Lemma substring_all s : String.substring 0 (String.length s) s = s.
Proof. induction s as [|c s IH]; simpl; [reflexivity|]. by rewrite IH. Qed.

Lemma strip_prefix_spec p : forall s r,
  QRService.strip_prefix p s = Some r <-> s = p ++ r.
Proof.
  unfold QRService.strip_prefix.
  induction p as [|a p IH]; intros s r.
  - simpl. replace (String.prefix "" s) with true by (by destruct s).
    rewrite Nat.sub_0_r, substring_all. split; [intros [= ->]|intros ->]; reflexivity.
  - destruct s as [|b s]; simpl; [split; discriminate|].
    destruct (ascii_dec a b) as [->|Hne].
    + rewrite IH. split; [intros ->; reflexivity | intros [= ->]; reflexivity].
    + split; [discriminate|]. intros [= -> _]. congruence.
Qed.

Lemma strip_prefix_app p r : QRService.strip_prefix p (p ++ r) = Some r.
Proof. by apply strip_prefix_spec. Qed.

(** A string with a slash in it is no run of hexadecimal digits. *)
Lemma hex_of_length_slash n a b : hex_of_length n (a ++ "/verify/" ++ b) = false.
Proof.
  unfold hex_of_length. apply andb_false_iff. right.
  rewrite !chars_app, !forallb_app. simpl. apply andb_false_r.
Qed.

Lemma hex_of_length_length n s : hex_of_length n s = true -> String.length s = n.
Proof. unfold hex_of_length. intros [H _]%andb_prop. by apply Nat.eqb_eq. Qed.

(** Two ways of cutting one string: the longer tail ends with the shorter. *)
Lemma app_eq_tail a b c d :
  a ++ b = c ++ d -> (String.length d <= String.length b)%nat ->
  exists x, b = x ++ d /\ c = a ++ x.
Proof.
  intros Heq Hlen.
  apply (f_equal list_ascii_of_string) in Heq. rewrite !chars_app in Heq.
  rewrite !chars_length in Hlen.
  apply app_eq_app in Heq as [l [[Ha Hd]|[Hc Hb]]].
  - (* a = c ++ l, d = l ++ b *)
    rewrite Hd, length_app in Hlen. assert (l = []) as -> by (destruct l; simpl in *; [done|lia]).
    exists "". simpl in *. rewrite app_nil_r in Ha. split.
    + by apply chars_inj.
    + apply chars_inj. rewrite chars_app. simpl. by rewrite app_nil_r.
  - exists (string_of_list_ascii l). split; apply chars_inj;
      rewrite chars_app, list_ascii_of_string_of_list_ascii; auto.
Qed.

Lemma urlPattern_here_sound s g :
  QRService.urlPattern_here s = Some g ->
  s = "/verify/" ++ g
  /\ (hex_of_length 24 g = true
      \/ exists h, g = "hash/" ++ h /\ hex_of_length 64 h = true).
Proof.
  unfold QRService.urlPattern_here.
  destruct (QRService.strip_prefix "/verify/" s) as [rest|] eqn:Hp; [|discriminate].
  apply strip_prefix_spec in Hp.
  destruct (hex_of_length 24 rest) eqn:H24.
  - intros [= <-]. auto.
  - destruct (QRService.strip_prefix "hash/" rest) as [h|] eqn:Hh; [|discriminate].
    apply strip_prefix_spec in Hh.
    destruct (hex_of_length 64 h) eqn:H64; [|discriminate].
    intros [= <-]. split; [exact Hp|]. right. eauto.
Qed.

Lemma urlPattern_here_complete g :
  hex_of_length 24 g = true
  \/ (exists h, g = "hash/" ++ h /\ hex_of_length 64 h = true) ->
  QRService.urlPattern_here ("/verify/" ++ g) = Some g.
Proof.
  intros Hg. unfold QRService.urlPattern_here. rewrite strip_prefix_app.
  destruct (hex_of_length 24 g) eqn:H24; [reflexivity|].
  destruct Hg as [|(h & -> & H64)]; [discriminate|].
  by rewrite strip_prefix_app, H64.
Qed.

Lemma urlPattern_match_eq s :
  QRService.urlPattern_match s =
  match QRService.urlPattern_here s with
  | Some g => Some g
  | None => match s with
            | EmptyString => None
            | String _ s' => QRService.urlPattern_match s'
            end
  end.
Proof. by destruct s. Qed.

Lemma urlPattern_match_sound s : forall g,
  QRService.urlPattern_match s = Some g ->
  exists pre, s = pre ++ "/verify/" ++ g
  /\ (hex_of_length 24 g = true
      \/ exists h, g = "hash/" ++ h /\ hex_of_length 64 h = true).
Proof.
  induction s as [|c s IH]; intros g; rewrite urlPattern_match_eq.
  - discriminate.
  - destruct (QRService.urlPattern_here (String c s)) as [g'|] eqn:Hh.
    + intros [= <-]. apply urlPattern_here_sound in Hh as [Hs Hg].
      exists "". auto.
    + intros Hm. destruct (IH g Hm) as (pre & -> & Hg). exists (String c pre). auto.
Qed.

Lemma urlPattern_match_complete pre g :
  hex_of_length 24 g = true
  \/ (exists h, g = "hash/" ++ h /\ hex_of_length 64 h = true) ->
  exists g', QRService.urlPattern_match (pre ++ "/verify/" ++ g) = Some g'.
Proof.
  intros Hg. induction pre as [|c pre IH].
  - exists g. change ("" ++ "/verify/" ++ g) with ("/verify/" ++ g).
    by rewrite urlPattern_match_eq, (urlPattern_here_complete _ Hg).
  - destruct IH as [g' IH]. rewrite urlPattern_match_eq.
    destruct (QRService.urlPattern_here _); eauto.
Qed.

Lemma prefix_hash_app h : String.prefix "hash/" ("hash/" ++ h) = true.
Proof. simpl. repeat (destruct (ascii_dec _ _); [|congruence]). by destruct h. Qed.

Lemma prefix_hash_hex g : hex_of_length 24 g = true -> String.prefix "hash/" g = false.
Proof.
  unfold hex_of_length. intros [_ Hhex]%andb_prop.
  destruct g as [|c g]; [reflexivity|].
  change (String.prefix "hash/" (String c g))
    with (if ascii_dec "h" c then String.prefix "ash/" g else false).
  destruct (ascii_dec "h" c) as [<-|]; [discriminate|reflexivity].
Qed.

(** The capture group of a URL that ends with [/verify/<24 hex digits>]. *)
Lemma urlPattern_match_id base id :
  hex_of_length 24 id = true ->
  QRService.urlPattern_match (base ++ "/verify/" ++ id) = Some id.
Proof.
  intros Hid.
  destruct (urlPattern_match_complete base id (or_introl Hid)) as [g Hm].
  rewrite Hm. f_equal.
  apply urlPattern_match_sound in Hm as (pre & Heq & [Hg|(h & -> & Hh)]).
  - apply hex_of_length_length in Hid, Hg.
    rewrite <- !(str_app_assoc _ "/verify/") in Heq.
    symmetry in Heq.
    apply app_eq_tail in Heq as (x & Hx & _); [|lia].
    assert (x = "") as ->; [|done].
    apply (f_equal String.length) in Hx. rewrite str_app_length in Hx.
    destruct x; [done|simpl in *; lia].
  - apply hex_of_length_length in Hid. pose proof (hex_of_length_length _ _ Hh) as Hlen.
    destruct (app_eq_tail (pre ++ "/verify/hash/") h base ("/verify/" ++ id)) as (x & Hx & _).
    + rewrite Heq. by rewrite !str_app_assoc.
    + rewrite str_app_length. simpl. lia.
    + rewrite Hx, hex_of_length_slash in Hh. discriminate.
Qed.

(** The capture group of a URL that ends with [/verify/hash/<64 hex digits>]. *)
Lemma urlPattern_match_hash base h :
  hex_of_length 64 h = true ->
  QRService.urlPattern_match (base ++ "/verify/hash/" ++ h) = Some ("hash/" ++ h).
Proof.
  intros Hh.
  destruct (urlPattern_match_complete base ("hash/" ++ h)) as [g Hm]; [by eauto|].
  change (base ++ "/verify/" ++ "hash/" ++ h) with (base ++ "/verify/hash/" ++ h) in Hm.
  rewrite Hm. f_equal.
  apply urlPattern_match_sound in Hm as (pre & Heq & [Hg|(h' & -> & Hh')]).
  - exfalso. pose proof (hex_of_length_length _ _ Hh) as Hlen.
    apply hex_of_length_length in Hg.
    destruct (app_eq_tail (base ++ "/verify/hash/") h pre ("/verify/" ++ g)) as (x & Hx & _).
    + by rewrite !str_app_assoc.
    + rewrite str_app_length. simpl. lia.
    + rewrite Hx, hex_of_length_slash in Hh. discriminate.
  - f_equal. apply hex_of_length_length in Hh, Hh'.
    destruct (app_eq_tail (base ++ "/verify/hash/") h (pre ++ "/verify/hash/") h')
      as (x & Hx & _).
    + rewrite !str_app_assoc. exact Heq.
    + lia.
    + assert (x = "") as ->; [|done].
      apply (f_equal String.length) in Hx. rewrite str_app_length in Hx.
      destruct x; [done|simpl in *; lia].
Qed.

Lemma substring_hash h :
  String.substring 5 (String.length ("hash/" ++ h) - 5) ("hash/" ++ h) = h.
Proof.
  pose proof (strip_prefix_app "hash/" h) as Hs.
  unfold QRService.strip_prefix in Hs. rewrite prefix_hash_app in Hs.
  by injection Hs.
Qed.

(** What [validateQRData] makes of a URL that ends with [/verify/<id>]. *)
Lemma validateQRData_id_url base id :
  hex_of_length 24 id = true ->
  QRService.validateQRData (base ++ "/verify/" ++ id)
  = QRService.mkQRData QRService.certificateId id true.
Proof.
  intros Hid. unfold QRService.validateQRData.
  rewrite !hex_of_length_slash, (urlPattern_match_id _ _ Hid).
  by rewrite (prefix_hash_hex _ Hid).
Qed.

Lemma validateQRData_hash_url base h :
  hex_of_length 64 h = true ->
  QRService.validateQRData (base ++ "/verify/hash/" ++ h)
  = QRService.mkQRData QRService.certificateHash h true.
Proof.
  intros Hh. unfold QRService.validateQRData.
  change (base ++ "/verify/hash/" ++ h) with (base ++ "/verify/" ++ "hash/" ++ h).
  rewrite !hex_of_length_slash.
  change (base ++ "/verify/" ++ "hash/" ++ h) with (base ++ "/verify/hash/" ++ h).
  rewrite (urlPattern_match_hash _ _ Hh), prefix_hash_app.
  by rewrite substring_hash.
Qed.

(** X1. The text of every verification link the system hands out, and the
    text its QR image encodes (the link wrapped once more by
    [generateQRCode]), are decoded by [validateQRData] to the identifier of
    the certificate, whatever [CLIENT_URL] is set to. *)
Theorem validateQRData_decodes_issued_urls (env : ProcessEnv) (c : Certificate) :
  hex_of_length 24 (_id c) = true ->
  QRService.validateQRData (verification_link env c)
  = QRService.mkQRData QRService.certificateId (_id c) true
  /\ QRService.validateQRData (qr_target env c)
     = QRService.mkQRData QRService.certificateId (_id c) true.
Proof.
  intros Hid. unfold qr_target, verification_link. split.
  - by apply validateQRData_id_url.
  - set (base := or_else (CLIENT_URL env) "http://localhost:3000").
    replace (base ++ "/verify/" ++ base ++ "/verify/" ++ _id c)
      with ((base ++ "/verify/" ++ base) ++ "/verify/" ++ _id c)
      by (by rewrite !str_app_assoc).
    by apply validateQRData_id_url.
Qed.

Lemma validateQRData_decodes_issued_urls_witness :
  hex_of_length 24 (_id Sample.anchored) = true
  /\ QRService.validateQRData (qr_target Sample.env Sample.anchored)
     = QRService.mkQRData QRService.certificateId Sample.cert_id true.
Proof.
  split; [reflexivity|].
  apply (validateQRData_decodes_issued_urls Sample.env Sample.anchored). reflexivity.
Defined.

(** X2. The verification URL that [generateHashQRCode] returns for a
    64-digit hexadecimal hash is decoded by [validateQRData] to that hash;
    the call leaves the world as it was. *)
Theorem generateHashQRCode_round_trip `{JsRuntime} (env : ProcessEnv) (h : string)
    (w w' : World) (r : HashQRCode.t) :
  hex_of_length 64 h = true ->
  generateHashQRCode env h w = (Ok r, w') ->
  QRService.validateQRData (HashQRCode.verificationUrl r)
  = QRService.mkQRData QRService.certificateHash h true
  /\ HashQRCode.hash r = h /\ w' = w.
Proof.
  intros Hh. unfold generateHashQRCode, try_catch, lift, throw, mbind, M_bind, mret, M_ret.
  destruct (QRCode_toDataURL _) as [d|e]; [|discriminate].
  intros [= <- <-]. simpl. split; [|done].
  by apply validateQRData_hash_url.
Qed.

Lemma generateHashQRCode_round_trip_witness :
  exists r,
    generateHashQRCode (H:=Sample.runtime) Sample.env Sample.hash_a (Sample.world ∅)
    = (Ok r, Sample.world ∅)
    /\ QRService.validateQRData (HashQRCode.verificationUrl r)
       = QRService.mkQRData QRService.certificateHash Sample.hash_a true.
Proof.
  eexists. split; [reflexivity|].
  eapply (generateHashQRCode_round_trip (H:=Sample.runtime) Sample.env Sample.hash_a
            (Sample.world ∅) (Sample.world ∅)); reflexivity.
Defined.

(** X3. Whatever [validateQRData] accepts is well formed: a payload
    classified as a certificate identifier yields 24 hexadecimal digits, one
    classified as a hash yields 64, in both cases a final part of the
    payload; every other payload is returned unchanged as unknown and not
    valid. The classification invalid is never produced. *)
Theorem validateQRData_sound (qrData : string) :
  let r := QRService.validateQRData qrData in
  match QRService.type r with
  | QRService.certificateId =>
      QRService.isValid r = true /\ hex_of_length 24 (QRService.value r) = true
      /\ exists pre, qrData = pre ++ QRService.value r
  | QRService.certificateHash =>
      QRService.isValid r = true /\ hex_of_length 64 (QRService.value r) = true
      /\ exists pre, qrData = pre ++ QRService.value r
  | QRService.unknown => QRService.isValid r = false /\ QRService.value r = qrData
  | QRService.invalid => False
  end.
Proof.
  simpl. unfold QRService.validateQRData.
  destruct (hex_of_length 24 qrData) eqn:H24; simpl.
  { split; [done|]. split; [done|]. by exists "". }
  destruct (hex_of_length 64 qrData) eqn:H64; simpl.
  { split; [done|]. split; [done|]. by exists "". }
  destruct (QRService.urlPattern_match qrData) as [path|] eqn:Hm; simpl; [|done].
  apply urlPattern_match_sound in Hm as (pre & -> & [Hp|(h & -> & Hh)]).
  - rewrite (prefix_hash_hex _ Hp). simpl. split; [done|]. split; [done|].
    exists (pre ++ "/verify/"). by rewrite str_app_assoc.
  - rewrite prefix_hash_app, substring_hash. simpl.
    split; [done|]. split; [done|].
    exists (pre ++ "/verify/hash/"). by rewrite str_app_assoc.
Qed.

(** ** The statistics *)

Lemma group_stats_comm c1 c2 acc :
  group_stats c1 (group_stats c2 acc) = group_stats c2 (group_stats c1 acc).
Proof. unfold group_stats. simpl. f_equal; lia. Qed.

Lemma stats_of_empty : stats_of ∅ = Stats.zero.
Proof. apply map_fold_empty. Qed.

Lemma stats_of_insert_fresh k c (m : gmap string Certificate) :
  m !! k = None -> stats_of (<[k := c]> m) = group_stats c (stats_of m).
Proof.
  intros Hk. unfold stats_of. apply map_fold_insert_L; [|exact Hk].
  intros. apply group_stats_comm.
Qed.

(** Replacing a stored document: its old contribution leaves, the new one
    enters. *)
Lemma stats_of_update k c c' (m : gmap string Certificate) :
  m !! k = Some c ->
  let s := stats_of m in
  stats_of (<[k := c']> m)
  = Stats.mk (Stats.totalCertificates s)
      (Stats.totalVerifications s - verificationCount c + verificationCount c')
      (Stats.validCertificates s - indicator (bool_decide (status c = MINTED))
       + indicator (bool_decide (status c' = MINTED)))
      (Stats.revokedCertificates s - indicator (bool_decide (status c = REVOKED))
       + indicator (bool_decide (status c' = REVOKED))).
Proof.
  intros Hc s. subst s.
  rewrite <- (insert_delete_eq m k c').
  rewrite <- (insert_delete_id m k c Hc) at 2 3 4 5.
  rewrite !stats_of_insert_fresh by apply lookup_delete_eq.
  unfold group_stats, indicator. simpl. f_equal; lia.
Qed.

Lemma statistics_eq w : statistics w = stats_of (certificates w).
Proof.
  unfold statistics, getVerificationStats, aggregate_stats. simpl.
  case_decide as He; simpl; [|reflexivity]. by rewrite He, stats_of_empty.
Qed.

Lemma stats_of_bounds (m : gmap string Certificate) :
  let s := stats_of m in
  Stats.totalCertificates s = Z.of_nat (size m)
  /\ 0 <= Stats.validCertificates s
  /\ 0 <= Stats.revokedCertificates s
  /\ Stats.validCertificates s + Stats.revokedCertificates s <= Stats.totalCertificates s.
Proof.
  simpl. induction m as [|k c m Hk IH] using map_ind.
  - rewrite stats_of_empty, map_size_empty. simpl. lia.
  - rewrite (stats_of_insert_fresh _ _ _ Hk), (map_size_insert_None _ _ _ Hk).
    unfold group_stats. simpl.
    repeat case_bool_decide; try congruence; lia.
Qed.

(** X4. The statistics handler always answers, leaves the world as it
    was, and its figures are consistent: totalCertificates is the number of
    stored certificates, validCertificates (status MINTED) and
    revokedCertificates (status REVOKED) are not negative and together do
    not exceed it; an empty collection gives four zeros. *)
Theorem getVerificationStats_consistent (w : World) :
  let out := getVerificationStats w in
  let s := StatsResponse.stats out.1 in
  out.2 = w
  /\ StatsResponse.success out.1 = true
  /\ Stats.totalCertificates s = Z.of_nat (size (certificates w))
  /\ 0 <= Stats.validCertificates s
  /\ 0 <= Stats.revokedCertificates s
  /\ Stats.validCertificates s + Stats.revokedCertificates s <= Stats.totalCertificates s
  /\ (certificates w = ∅ -> s = Stats.zero).
Proof.
  intros out s. split; [reflexivity|]. split; [reflexivity|].
  assert (s = stats_of (certificates w)) as -> by apply statistics_eq.
  pose proof (stats_of_bounds (certificates w)) as (H1 & H2 & H3 & H4). simpl in *.
  repeat (split; [assumption|]).
  intros ->. apply stats_of_empty.
Qed.

Section Statistics.
Context `{JsRuntime} (env : ProcessEnv) (svc : BlockchainService.t).

(** X5. Every request that records a verification (by identifier, by hash,
    by QR payload, or the lookup by access code) adds exactly one to
    totalVerifications when it succeeds and changes no other figure; when
    it fails the statistics are as before. *)
Theorem verification_raises_totalVerifications (req : Request) (w : World) :
  store_ok (certificates w) ->
  records_verification req = true ->
  let out := serve env svc req w in
  let s := statistics w in
  statistics out.2
  = Stats.mk (Stats.totalCertificates s)
      (Stats.totalVerifications s + indicator (Response.success out.1))
      (Stats.validCertificates s) (Stats.revokedCertificates s).
Proof.
  intros Hok Hreq out s. subst out s. rewrite !statistics_eq.
  assert (forall out : Response.t * World,
    (Response.success out.1 = false /\ certificates out.2 = certificates w)
    \/ (exists k c, certificates w !! k = Some c /\ Response.success out.1 = true
        /\ certificates out.2 = <[k := verified_once (now w) c]> (certificates w)) ->
    stats_of (certificates out.2)
    = Stats.mk (Stats.totalCertificates (stats_of (certificates w)))
        (Stats.totalVerifications (stats_of (certificates w))
         + indicator (Response.success out.1))
        (Stats.validCertificates (stats_of (certificates w)))
        (Stats.revokedCertificates (stats_of (certificates w)))) as Hgen.
  { intros out [[-> ->]|(k & c & Hc & -> & ->)].
    - destruct (stats_of _). simpl. f_equal; lia.
    - rewrite (stats_of_update _ _ _ _ Hc). simpl. f_equal; lia. }
  apply Hgen.
  assert (forall out, verification_outcome w out ->
    (Response.success out.1 = false /\ certificates out.2 = certificates w)
    \/ (exists k c, certificates w !! k = Some c /\ Response.success out.1 = true
        /\ certificates out.2 = <[k := verified_once (now w) c]> (certificates w))) as Hv.
  { intros out [?|(k & c & sig & Hc & -> & ->)]; [by left|]. right. exists k, c. auto. }
  destruct req as [sd ai issuer|code|id reason|id|hash|qrData]; try discriminate; simpl.
  - destruct (getCertificateByApiCode_outcome code w Hok) as [?|(k & c & Hc & _ & ->)];
      [by left|]. right. exists k, c. auto.
  - by apply Hv, verifyCertificateById_outcome.
  - by apply Hv, verifyCertificateByHash_outcome.
  - by apply Hv, verifyByQRCode_outcome.
Qed.

End Statistics.

Lemma verification_raises_totalVerifications_witness :
  let w := Sample.world (Sample.one Sample.anchored) in
  let out := serve (H:=Sample.runtime) Sample.env Sample.mock
               (VerifyCertificateById Sample.cert_id) w in
  Stats.totalVerifications (statistics w) = 0
  /\ Stats.totalVerifications (statistics out.2) = 1.
Proof.
  intros w out. split; [reflexivity|]. subst out.
  rewrite (verification_raises_totalVerifications (H:=Sample.runtime) Sample.env Sample.mock
             (VerifyCertificateById Sample.cert_id) w).
  - reflexivity.
  - apply (store_ok_singleton Sample.anchored). reflexivity.
  - reflexivity.
Defined.

(** X6. A successful revocation changes neither totalCertificates nor
    totalVerifications; it takes the certificate out of validCertificates
    if it was MINTED and adds it to revokedCertificates unless it was
    REVOKED already. A revocation that fails leaves the statistics as they
    were. *)
Theorem revocation_moves_statistics (svc : BlockchainService.t) (id reason : string)
    (w : World) :
  store_ok (certificates w) ->
  let out := CertificateController.revokeCertificate svc id reason w in
  let s := statistics w in
  if Response.success out.1
  then exists c,
         certificates w !! toLowerCase id = Some c
         /\ statistics out.2
            = Stats.mk (Stats.totalCertificates s) (Stats.totalVerifications s)
                (Stats.validCertificates s - indicator (bool_decide (status c = MINTED)))
                (Stats.revokedCertificates s
                 + indicator (negb (bool_decide (status c = REVOKED))))
  else statistics out.2 = s.
Proof.
  intros Hok out s. subst out s. rewrite !statistics_eq.
  destruct (revokeCertificate_store svc id reason w Hok) as [[-> ->]|(c & Hc & -> & ->)].
  - reflexivity.
  - exists c. split; [exact Hc|].
    rewrite (stats_of_update _ _ _ _ Hc). unfold revoked_with, indicator. simpl.
    f_equal; repeat case_bool_decide; simpl; try congruence; lia.
Qed.

Lemma revocation_moves_statistics_witness :
  let w := Sample.world (Sample.one Sample.unanchored) in
  let out := CertificateController.revokeCertificate Sample.mock Sample.cert_id "fraud" w in
  Response.success out.1 = true
  /\ Stats.validCertificates (statistics w) = 1
  /\ Stats.validCertificates (statistics out.2) = 0
  /\ Stats.revokedCertificates (statistics out.2) = 1.
Proof.
  intros w out.
  pose proof (revocation_moves_statistics Sample.mock Sample.cert_id "fraud" w
                (store_ok_singleton Sample.unanchored eq_refl)) as Hr.
  cbv zeta in Hr. fold out in Hr.
  assert (Response.success out.1 = true) as Hs by reflexivity.
  rewrite Hs in Hr. destruct Hr as (c & Hc & Hst).
  split; [exact Hs|]. split; [reflexivity|].
  assert (certificates w !! toLowerCase Sample.cert_id = Some Sample.unanchored) as Hl
    by reflexivity.
  rewrite Hl in Hc. injection Hc as <-.
  rewrite Hst. split; reflexivity.
Defined.

(** ** Batch verification *)

Lemma verifyCertificateById_answer svc id w :
  store_ok (certificates w) ->
  verification_answer w (VerifyController.verifyCertificateById svc id w).
Proof.
  intros Hok. unfold VerifyController.verifyCertificateById, handler.
  destruct (findById_cases id w) as [[e He]|Hf].
  - run_throw He. left. eauto.
  - run_ok Hf. destruct (certificates w !! toLowerCase id) as [c|] eqn:Hc.
    + destruct (verify_tail svc _ c w Hok Hc) as (sig & l & ->).
      right. exists (toLowerCase id), c, sig. auto.
    + left. auto.
Qed.

Lemma verifyCertificateByHash_answer svc h w :
  store_ok (certificates w) ->
  verification_answer w (VerifyController.verifyCertificateByHash svc h w).
Proof.
  intros Hok. unfold VerifyController.verifyCertificateByHash, handler.
  destruct (findOne_cases (by_certificateHash h) w) as [[Hf _]|(k & c & Hf & Hc & _)];
    run_ok Hf.
  - left. auto.
  - destruct (attempt_verifyCertificateByHash svc h w) as [r Hr]. run_ok Hr.
    rewrite (bind_ok _ _ _ _ _ (recordVerification_stored k c (with_ledger_calls _ w) Hok Hc)).
    right. exists k, c. eexists. eauto.
Qed.

(** One item of a batch. *)
Lemma verifyBatchItem_cases svc certId w :
  store_ok (certificates w) ->
  let out := verifyBatchItem svc certId w in
  BatchItem.identifier out.1 = certId
  /\ ((BatchItem.success out.1 = false
       /\ BatchItem.isValid out.1 = Some false
       /\ BatchItem.data out.1 = None
       /\ (BatchItem.error out.1 = Some "Certificate not found"
           \/ BatchItem.error out.1 = Some "Verification failed")
       /\ certificates out.2 = certificates w)
      \/ (exists k c,
            certificates w !! k = Some c
            /\ BatchItem.success out.1 = true
            /\ BatchItem.error out.1 = None
            /\ item_certificate out.1 = Some k
            /\ certificates out.2 = <[k := verified_once (now w) c]> (certificates w))).
Proof.
  intros Hok. simpl. unfold verifyBatchItem.
  assert (verification_answer w
            (if hex_of_length 64 certId
             then VerifyController.verifyCertificateByHash svc certId w
             else VerifyController.verifyCertificateById svc certId w)) as Ha.
  { destruct (hex_of_length 64 certId);
      [by apply verifyCertificateByHash_answer|by apply verifyCertificateById_answer]. }
  destruct (if hex_of_length 64 certId then _ else _) as [r w'].
  destruct Ha as [[[Hr|[e Hr]] Hst]|(k & c & sig & Hc & Hr & Hst)]; simpl in *; subst r;
    simpl; (split; [reflexivity|]).
  - left. auto 10.
  - left. auto 10.
  - right. exists k, c. destruct (proj1 Hok _ _ Hc) as [Hid _].
    unfold item_certificate. simpl. rewrite Hid. auto 10.
Qed.

(** Recording a verification does not change what resolves. *)
Lemma resolves_verified k0 c0 t (m : gmap string Certificate) certId k :
  m !! k0 = Some c0 ->
  resolves (<[k0 := verified_once t c0]> m) certId k <-> resolves m certId k.
Proof.
  intros Hc0. unfold resolves. destruct (hex_of_length 64 certId).
  - split; intros (c & Hc & Hh).
    + rewrite lookup_insert in Hc. case_decide as Hk.
      * subst k0. injection Hc as <-. exists c0. auto.
      * eauto.
    + destruct (decide (k0 = k)) as [->|Hne].
      * exists (verified_once t c0). rewrite lookup_insert_eq.
        assert (c = c0) as -> by congruence. auto.
      * exists c. rewrite lookup_insert_ne by done. auto.
  - split; intros (H24 & -> & Hs); (split; [exact H24|]); (split; [reflexivity|]).
    + rewrite lookup_insert in Hs. case_decide; [subst; eauto|exact Hs].
    + rewrite lookup_insert. case_decide; [eauto|exact Hs].
Qed.

(** One item of a batch, with what decides it. *)
Lemma verifyBatchItem_resolves svc certId w :
  store_ok (certificates w) ->
  let out := verifyBatchItem svc certId w in
  batch_answer (certificates w) certId out.1
  /\ (certificates out.2 = certificates w
      \/ exists k c, certificates w !! k = Some c
                     /\ certificates out.2 = <[k := verified_once (now w) c]> (certificates w)).
Proof.
  intros Hok. simpl. unfold verifyBatchItem, batch_answer, resolves.
  destruct (hex_of_length 64 certId) eqn:H64.
  - unfold VerifyController.verifyCertificateByHash, handler.
    destruct (findOne_cases (by_certificateHash certId) w)
      as [[Hf Hnone]|(k & c & Hf & Hc & Hp)]; run_ok Hf.
    + simpl. split; [|by left]. split; [reflexivity|]. right.
      split; [|auto]. intros k (c & Hc & Hp). rewrite (Hnone k c Hc) in Hp. discriminate.
    + destruct (attempt_verifyCertificateByHash svc certId w) as [r Hr]. run_ok Hr.
      rewrite (bind_ok _ _ _ _ _
                 (recordVerification_stored k c (with_ledger_calls _ w) Hok Hc)).
      destruct (proj1 Hok _ _ Hc) as [Hid _].
      simpl. split; [|right; eauto]. split; [reflexivity|]. left. exists k.
      unfold item_certificate. simpl. rewrite Hid. eauto 10.
  - unfold VerifyController.verifyCertificateById, handler, findById.
    destruct (hex_of_length 24 certId) eqn:H24.
    + rewrite (bind_ok (gets _) _ w _ w eq_refl).
      destruct (certificates w !! toLowerCase certId) as [c|] eqn:Hc.
      * destruct (verify_tail svc _ c w Hok Hc) as (sig & l & ->).
        destruct (proj1 Hok _ _ Hc) as [Hid _].
        simpl. split; [|right; eauto]. split; [reflexivity|]. left.
        exists (toLowerCase certId). unfold item_certificate. simpl. rewrite Hid, Hc.
        eauto 10.
      * simpl. split; [|by left]. split; [reflexivity|]. right.
        split; [|auto]. intros k (_ & -> & [x Hx]). congruence.
    + simpl. split; [|by left]. split; [reflexivity|]. right.
      split; [|auto]. intros k (Hf & _). discriminate.
Qed.

Section Batch.
Context (svc : BlockchainService.t).

Lemma verifyBatch_answers (m0 : gmap string Certificate) (ids : list string) :
  forall w : World,
  store_ok (certificates w) ->
  (forall certId k, resolves (certificates w) certId k <-> resolves m0 certId k) ->
  Forall2 (batch_answer m0) ids (verifyBatch svc ids w).1
  /\ store_ok (certificates (verifyBatch svc ids w).2).
Proof.
  induction ids as [|certId ids IH]; intros w Hok Hres; simpl; [auto|].
  pose proof (verifyBatchItem_resolves svc certId w Hok) as [Hitem Hst]. simpl in *.
  destruct (verifyBatchItem svc certId w) as [item w1]. simpl in *.
  assert (store_ok (certificates w1)
          /\ forall certId k, resolves (certificates w1) certId k <-> resolves m0 certId k)
    as [Hok1 Hres1].
  { destruct Hst as [->|(k & c & Hc & ->)]; [auto|]. split.
    - by apply (verified_store_ok k c (now w) (certificates w)).
    - intros certId' k'. rewrite (resolves_verified k c (now w) _ certId' k' Hc).
      apply Hres. }
  specialize (IH w1 Hok1 Hres1).
  destruct (verifyBatch svc ids w1) as [items w2]. simpl in *.
  destruct IH as [Hall Hok2]. split; [|exact Hok2].
  constructor; [|exact Hall].
  destruct Hitem as [Hid [(k & Hk & H')|(Hno & H')]]; (split; [exact Hid|]).
  - left. exists k. split; [by apply Hres|exact H'].
  - right. split; [|exact H']. intros k Hk. apply (Hno k). by apply Hres.
Qed.

(** X7. Batch verification answers for every identifier, in the order
    given, and each answer is decided by the store the batch started on.
    An identifier that resolves there (64 hexadecimal digits that are the
    hash of a stored certificate, or otherwise 24 hexadecimal digits that
    are the id of one) yields a successful item with a verdict that reports
    that certificate. An identifier that does not resolve yields an item
    with success and isValid false, no data and the handler's message as
    its error ('Verification failed' for an identifier that is no id and no
    hash, 'Certificate not found' otherwise), and the identifiers after it
    are still processed. The store keeps satisfying its unique indices. *)
Theorem verifyBatch_answers_each (ids : list string) : forall w : World,
  store_ok (certificates w) ->
  let out := verifyBatch svc ids w in
  map BatchItem.identifier out.1 = ids
  /\ Forall2 (batch_answer (certificates w)) ids out.1
  /\ store_ok (certificates out.2).
Proof.
  intros w Hok out.
  destruct (verifyBatch_answers (certificates w) ids w Hok) as [Hall Hok'];
    [tauto|]. fold out in Hall, Hok'.
  split; [|auto].
  clear -Hall. induction Hall as [|certId item ids items [Hid _] _ IH]; simpl;
    [reflexivity|]. by rewrite Hid, IH.
Qed.

(** X8. After a batch, the verification counter of every stored
    certificate has risen by exactly the number of successful items that
    report that certificate (a certificate named twice is counted twice);
    failed items count nothing, and no certificate is added or removed. *)
Theorem verifyBatch_counts (ids : list string) (k : string) : forall w : World,
  store_ok (certificates w) ->
  let out := verifyBatch svc ids w in
  count_of out.2 k = (fun n => n + hits k out.1) <$> count_of w k.
Proof.
  induction ids as [|certId ids IH]; intros w Hok; simpl.
  { unfold count_of. destruct (certificates w !! k); simpl; f_equal; lia. }
  pose proof (verifyBatchItem_cases svc certId w Hok) as [_ Hcases]. simpl in *.
  destruct (verifyBatchItem svc certId w) as [item w1]. simpl in *.
  assert (store_ok (certificates w1)
          /\ count_of w1 k = (fun n => n + indicator (reports k item)) <$> count_of w k)
    as [Hok1 Hcount].
  { unfold count_of, reports.
    destruct Hcases as [(-> & _ & _ & _ & ->)|(k0 & c & Hc & -> & _ & -> & ->)].
    - split; [exact Hok|]. simpl. destruct (certificates w !! k); simpl; f_equal; lia.
    - split; [by apply (verified_store_ok k0 c (now w) (certificates w))|].
      simpl. rewrite lookup_insert. case_decide as Hk.
      + subst k0. rewrite Hc, bool_decide_true by reflexivity. reflexivity.
      + rewrite bool_decide_false by congruence.
        destruct (certificates w !! k); simpl; f_equal; lia. }
  specialize (IH w1 Hok1). simpl in IH.
  destruct (verifyBatch svc ids w1) as [items w2]. simpl in *.
  rewrite IH, Hcount. destruct (count_of w k); simpl; f_equal; lia.
Qed.

End Batch.

Lemma verifyBatch_answers_each_witness :
  let w := Sample.world (Sample.one Sample.anchored) in
  let ids := [Sample.cert_id; Sample.other_id; Sample.hash_a] in
  let out := verifyBatch Sample.mock ids w in
  Forall2 (batch_answer (certificates w)) ids out.1
  /\ map BatchItem.success out.1 = [true; false; true].
Proof.
  intros w ids out. split; [|reflexivity].
  destruct (verifyBatch_answers_each Sample.mock ids w
              (store_ok_singleton Sample.anchored eq_refl)) as (_ & Hall & _).
  exact Hall.
Defined.

Lemma verifyBatch_counts_witness :
  let w := Sample.world (Sample.one Sample.anchored) in
  let out := verifyBatch Sample.mock [Sample.cert_id; Sample.other_id; Sample.cert_id] w in
  hits Sample.cert_id out.1 = 2 /\ count_of out.2 Sample.cert_id = Some 2.
Proof.
  intros w out. split; [reflexivity|].
  pose proof (verifyBatch_counts Sample.mock
                [Sample.cert_id; Sample.other_id; Sample.cert_id] Sample.cert_id w
                (store_ok_singleton Sample.anchored eq_refl)) as Hc.
  cbv zeta in Hc. fold out in Hc. rewrite Hc. reflexivity.
Defined.

(** ** What a successful issuance leaves behind *)

(** A save that throws also throws for the same document with another
    status: the status is in no index and no validation. *)
Lemma save_set_status (isNew : bool) s c w e w' :
  save isNew c w = (Throw e, w') -> save isNew (set_status s c) w = (Throw e, w').
Proof.
  unfold save. rewrite (duplicate_key_keys (set_status s c) c) by reflexivity.
  change (required_present (set_status s c)) with (required_present c).
  change (schema_valid (set_status s c)) with (schema_valid c).
  change (_id (set_status s c)) with (_id c).
  destruct (negb (required_present c && (negb isNew || schema_valid c))); [done|].
  destruct (certificates w !! _id c), isNew; try done;
    destruct (duplicate_key c (certificates w)); done.
Qed.

Lemma issued_resave d0 d m w w' :
  issued_as d0 m (certificates w) -> _id d = _id d0 ->
  save false d w = (Ok tt, w') ->
  issued_as d m (certificates w').
Proof.
  intros (Hfresh & _ & _ & Hm) Hid Hs.
  destruct (save_cases false d w) as [[e He]|(He & Hreq & Hdup & _)];
    rewrite He in Hs; [discriminate|]. injection Hs as <-. simpl.
  unfold issued_as. rewrite Hm, Hid in *.
  rewrite duplicate_key_insert in Hdup by auto.
  by rewrite insert_insert_eq.
Qed.

Lemma issued_as_store_ok d m m' :
  store_ok m -> issued_as d m m' -> store_ok m' /\ m' !! _id d = Some d.
Proof.
  intros Hok (Hfresh & Hreq & Hdup & ->). split.
  - by apply store_ok_insert.
  - apply lookup_insert_eq.
Qed.

Section Issued.
Context `{JsRuntime} (env : ProcessEnv) (svc : BlockchainService.t).

Lemma new_Certificate_count sd ai issuerId coll w c1 w1 :
  CertificateController.new_Certificate sd ai issuerId coll w = (Ok c1, w1) ->
  verificationCount c1 = 0.
Proof.
  unfold CertificateController.new_Certificate, generateApiCode.
  unfold mbind, M_bind, mret, M_ret, new_ObjectId, Date_now, Math_random, gets. simpl.
  intros [= <- <-]. reflexivity.
Qed.

(** Every issuance answered 201: what the response carries is what the
    store holds under a fresh id, MINTED without a warning or PENDING,
    with no token, with the warning. *)
Lemma issueCertificate_issued sd ai issuerId w :
  let out := CertificateController.issueCertificate env svc sd ai issuerId w in
  Response.statusCode out.1 = 201 ->
  exists d qr,
    Response.data out.1
    = Some (IssuedData d (mkStudentAccess (apiCode d) (verification_link env d) qr))
    /\ issued_as d (certificates w) (certificates out.2)
    /\ Response.success out.1 = true
    /\ verificationCount d = 0
    /\ ((status d = MINTED /\ Response.warning out.1 = None)
        \/ (status d = PENDING /\ tokenId d = None
            /\ is_Some (BlockchainService.contract svc)
            /\ Response.warning out.1
               = Some "Blockchain minting failed, will retry automatically")).
Proof.
  simpl. unfold CertificateController.issueCertificate, handler.
  rewrite (bind_ok (User_findById_populate issuerId) _ w _ w eq_refl).
  destruct (users w !! issuerId) as [u|]; [|simpl; discriminate].
  destruct (User.college u ≫= _) as [coll|]; [|simpl; discriminate].
  destruct (new_Certificate_total sd ai issuerId coll w) as (c1 & w1 & Hnew).
  run_ok Hnew.
  destruct (new_Certificate_spec _ _ _ _ _ _ _ Hnew)
    as (Hcerts & _ & Htok & _ & _ & Hst1 & Hreq1 & _).
  pose proof (new_Certificate_count _ _ _ _ _ _ _ Hnew) as Hcount.
  destruct (save_cases true c1 w1) as [[e Hs1]|(Hs1 & _ & Hdup1 & Hfresh1 & _)];
    [run_throw Hs1; simpl; discriminate|run_ok Hs1].
  rewrite Hcerts in *. set (m := certificates w) in *.
  set (w2 := with_certificates (<[_id c1 := c1]> m) w1) in *.
  assert (issued_as c1 m (certificates w2)) as Hi2 by (unfold issued_as; auto).
  destruct (generateQRCode_cases env (or_else (CLIENT_URL env) "http://localhost:3000"
                                       ++ "/verify/" ++ _id c1) w2) as [[e He]|[qr Hq]];
    [run_throw He; simpl; discriminate|run_ok Hq].
  set (c2 := set_verificationLink _ (set_qrCode qr c1)).
  destruct (save false c2 w2) as [[[]|e] w3] eqn:Hs2;
    [run_ok Hs2|run_throw Hs2; simpl; discriminate].
  pose proof (issued_resave c1 c2 m w2 w3 Hi2 eq_refl Hs2) as Hi3.
  destruct (attempt_mintCertificate svc (College.walletAddress coll) (academicData c2)
              (render (Blockchain.certificateHash (blockchain c2))) w3)
    as (r & w4 & Hm & Hc4).
  run_ok Hm. rewrite <- Hc4 in Hi3.
  assert (is_Some (BlockchainService.contract svc) -> forall w5,
    save false (set_status PENDING c2) w4 = (Ok tt, w5) ->
    exists d qr0,
      Some (IssuedData (set_status PENDING c2)
              (CertificateController.studentAccess_of (set_status PENDING c2)
                 (or_else (CLIENT_URL env) "http://localhost:3000" ++ "/verify/" ++ _id c1) qr))
      = Some (IssuedData d (mkStudentAccess (apiCode d) (verification_link env d) qr0))
      /\ issued_as d m (certificates w5)
      /\ true = true
      /\ verificationCount d = 0
      /\ ((status d = MINTED /\ Some "Blockchain minting failed, will retry automatically"
                                = None)
          \/ (status d = PENDING /\ tokenId d = None
              /\ is_Some (BlockchainService.contract svc)
              /\ Some "Blockchain minting failed, will retry automatically"
                 = Some "Blockchain minting failed, will retry automatically"))) as Hpending.
  { intros Hk w5 Hs5. exists (set_status PENDING c2), qr.
    split; [reflexivity|]. split; [by apply (issued_resave c2 _ m w4)|].
    split; [reflexivity|]. split; [exact Hcount|]. right. auto. }
  destruct r as [mintResult|e].
  - set (c3 := set_status MINTED _).
    destruct (save false c3 w4) as [[[]|e] w5] eqn:Hs3.
    + rewrite (bind_ok (attempt (save false c3)) _ w4 (Ok tt) w5)
        by (unfold attempt; by rewrite Hs3).
      simpl. intros _. exists c3, qr.
      split; [reflexivity|]. split; [by apply (issued_resave c2 _ m w4)|].
      split; [reflexivity|]. split; [exact Hcount|]. left. auto.
    + rewrite (bind_ok (attempt (save false c3)) _ w4 (Throw e) w5)
        by (unfold attempt; by rewrite Hs3).
      destruct (save_cases false c3 w4) as [[e' He']|[He' _]];
        rewrite He' in Hs3; [|discriminate]. injection Hs3 as -> <-.
      unfold CertificateController.minting_pending.
      pose proof (save_set_status false PENDING c3 w4 e w4 He') as Hs4.
      run_throw Hs4. simpl. discriminate.
  - unfold CertificateController.minting_pending.
    destruct (save false (set_status PENDING c2) w4) as [[[]|e'] w5] eqn:Hs5;
      [run_ok Hs5|run_throw Hs5; simpl; discriminate].
    simpl. intros _. apply Hpending; [|done].
    destruct (BlockchainService.contract svc) eqn:Hk; [eauto|].
    unfold attempt in Hm. rewrite (mock_mintCertificate _ _ _ _ _ Hk) in Hm. discriminate.
Qed.

(** X9. The access code handed out by an issuance answered 201 retrieves
    the issued certificate: the certificate was stored under an id that was
    free, and the lookup by that code right after answers 200 with the
    document the issuance response carried, counted as its first
    verification. *)
Theorem issued_code_retrieves_certificate sd ai issuerId (w : World) :
  store_ok (certificates w) ->
  let out := CertificateController.issueCertificate env svc sd ai issuerId w in
  Response.statusCode out.1 = 201 ->
  exists d access code,
    Response.data out.1 = Some (IssuedData d access)
    /\ sa_apiCode access = Some code
    /\ certificates w !! _id d = None
    /\ let found := CertificateController.getCertificateByApiCode code out.2 in
       found.1 = Response.mk 200 true None None
                   (Some (CertificateData (verified_once (now out.2) d))) None None
       /\ count_of found.2 (_id d) = Some 1.
Proof.
  intros Hok out H201.
  destruct (issueCertificate_issued sd ai issuerId w H201)
    as (d & qr & Hdata & Hissued & _ & Hcount & _).
  fold out in Hdata, Hissued.
  destruct (issued_as_store_ok _ _ _ Hok Hissued) as [Hok' Hd].
  pose proof Hissued as (Hfresh & Hreq & _ & _).
  destruct (apiCode d) as [code|] eqn:Hcode; [|unfold required_present in Hreq;
                                                 by rewrite Hcode in Hreq].
  exists d, (mkStudentAccess (Some code) (verification_link env d) qr), code.
  split; [exact Hdata|]. split; [reflexivity|]. split; [exact Hfresh|].
  cbv zeta.
  rewrite (getCertificateByApiCode_stored code (_id d) d out.2 Hok' Hd Hcode).
  split; [reflexivity|].
  unfold count_of. simpl. rewrite lookup_insert_eq. simpl. by rewrite Hcount.
Qed.

(** X10. Issuance never changes or removes a certificate that is already
    stored, whatever its outcome. *)
Theorem issuance_keeps_stored_certificates sd ai issuerId (w : World) k c :
  certificates w !! k = Some c ->
  certificates (CertificateController.issueCertificate env svc sd ai issuerId w).2 !! k
  = Some c.
Proof.
  intros Hc.
  destruct (issueCertificate_store env svc sd ai issuerId w)
    as [->|(k' & d & _ & Hfresh & _ & _ & ->)]; [exact Hc|].
  rewrite lookup_insert_ne; [exact Hc|]. congruence.
Qed.

End Issued.

Lemma issued_code_retrieves_certificate_witness :
  let out := CertificateController.issueCertificate (H:=Sample.runtime) Sample.env
               Sample.mock Sample.student Sample.academics Sample.admin_id (Sample.world ∅) in
  Response.statusCode out.1 = 201
  /\ exists d access code,
       Response.data out.1 = Some (IssuedData d access)
       /\ sa_apiCode access = Some code
       /\ count_of (CertificateController.getCertificateByApiCode code out.2).2 (_id d)
          = Some 1.
Proof.
  intros out.
  assert (Response.statusCode out.1 = 201) as H201 by (vm_compute; reflexivity).
  split; [exact H201|].
  destruct (issued_code_retrieves_certificate (H:=Sample.runtime) Sample.env Sample.mock
              Sample.student Sample.academics Sample.admin_id (Sample.world ∅)
              store_ok_empty H201) as (d & access & code & Hdata & Hcode & _ & _ & Hcount).
  exists d, access, code. auto.
Defined.

Lemma issuance_keeps_stored_certificates_witness :
  certificates
    (CertificateController.issueCertificate (H:=Sample.runtime) Sample.env Sample.mock
       Sample.student Sample.academics Sample.admin_id
       (Sample.world {[ Sample.other_id :=
          Sample.certificate Sample.other_id "CERT-1" Sample.hash_a (Some 7) MINTED 0 None ]})).2
    !! Sample.other_id
  = Some (Sample.certificate Sample.other_id "CERT-1" Sample.hash_a (Some 7) MINTED 0 None).
Proof.
  apply (issuance_keeps_stored_certificates (H:=Sample.runtime)). reflexivity.
Defined.

(** ** Issuance when the mint call returns *)

(** A document without a token clashes with no more documents than the
    same document with one. *)
Lemma duplicate_key_without_token d d' (m : gmap string Certificate) :
  _id d = _id d' -> apiCode d = apiCode d' ->
  Blockchain.certificateHash (blockchain d) = Blockchain.certificateHash (blockchain d') ->
  tokenId d = None ->
  duplicate_key d' m = false -> duplicate_key d m = false.
Proof.
  intros Hid Hcode Hhash Htok. rewrite !duplicate_key_false. rewrite Hid.
  intros Hall k e Hk He. specialize (Hall k e Hk He).
  unfold unique_clash in *. rewrite Hcode, Hhash, Htok.
  apply orb_false_iff in Hall as [Hall _]. rewrite Hall. reflexivity.
Qed.

Section Anchored.
Context `{JsRuntime} (env : ProcessEnv) (svc : BlockchainService.t).

(** The mint call of a service with a contract, when the contract answers
    with a receipt whose token converts and whose gas can be read. *)
Lemma live_mintCertificate k wallet data hash receipt gas w :
  BlockchainService.contract svc = Some k ->
  BlockchainService.contract_mintCertificate k wallet None
    (Some (AcademicData.degree data)) None None hash = Ok receipt ->
  safe_token (receipt_token receipt) = true ->
  BlockchainService.r_gasUsed receipt = Some gas ->
  BlockchainService.mintCertificate svc wallet data hash w
  = (Ok (receipt_result receipt gas),
     with_ledger_calls (MintCall wallet hash :: ledger_calls w) w).
Proof.
  intros Hk Hcall Hsafe Hgas.
  unfold BlockchainService.mintCertificate, BlockchainService.rethrow, try_catch,
    invoked, lift, throw.
  unfold receipt_result, receipt_token, safe_token in *.
  rewrite Hk. unfold mbind, M_bind, mret, M_ret in *. simpl. rewrite Hcall. simpl.
  destruct (option_bind _ _ BlockchainService.args_tokenId _) as [n|]; simpl.
  - replace (Z.ltb 9007199254740991 (Z.abs n)) with false
      by (symmetry; apply Z.ltb_ge; by apply Z.leb_le).
    simpl. rewrite Hgas. reflexivity.
  - rewrite Hgas. reflexivity.
Qed.

Lemma issueCertificate_mint_returns sd ai issuerId w u cid coll c1 w1 qr mr w4 :
  users w !! issuerId = Some u ->
  User.college u = Some cid ->
  colleges w !! cid = Some coll ->
  CertificateController.new_Certificate sd ai issuerId coll w = (Ok c1, w1) ->
  schema_valid c1 = true ->
  certificates w !! _id c1 = None ->
  duplicate_key c1 (certificates w) = false ->
  QRCode_toDataURL (qr_target env c1) = Ok qr ->
  let link := verification_link env c1 in
  let c2 := set_verificationLink link (set_qrCode qr c1) in
  BlockchainService.mintCertificate svc (College.walletAddress coll) (academicData c1)
    (render (Blockchain.certificateHash (blockchain c1)))
    (with_certificates (<[_id c1 := c2]> (certificates w)) w1) = (Ok mr, w4) ->
  certificates w4 = <[_id c1 := c2]> (certificates w)
  /\ CertificateController.issueCertificate env svc sd ai issuerId w
     = if duplicate_key (minted_with mr c2) (certificates w)
       then (Response.mk 500 false (Some "Certificate issuance failed") None None None
               (Some "E11000 duplicate key error"), w4)
       else (Response.mk 201 true
               (Some "Certificate issued successfully with complete academic record")
               None
               (Some (IssuedData (minted_with mr c2) (mkStudentAccess (apiCode c1) link qr)))
               None None,
             with_certificates (<[_id c1 := minted_with mr c2]> (certificates w)) w4).
Proof.
  intros Hu Hcid Hcoll Hnew Hvalid Hfresh Hdup Hqr link c2 Hmint.
  destruct (new_Certificate_spec _ _ _ _ _ _ _ Hnew)
    as (Hcerts & Hid & Htok & Htx & Hblk & Hst & Hreq & _).
  set (m := certificates w) in *.
  set (w2 := with_certificates (<[_id c1 := c1]> m) w1).
  set (w3 := with_certificates (<[_id c1 := c2]> m) w1) in *.
  set (c3 := minted_with mr c2).
  assert (save true c1 w1 = (Ok tt, w2)) as Hs1.
  { rewrite save_ok; rewrite ?Hcerts; auto. }
  assert (QRService.generateQRCode env link w2 = (Ok qr, w2)) as Hq.
  { unfold QRService.generateQRCode, try_catch, lift.
    change (or_else (CLIENT_URL env) "http://localhost:3000" ++ "/verify/" ++ link)
      with (qr_target env c1).
    by rewrite Hqr. }
  assert (save false c2 w2 = (Ok tt, w3)) as Hs2.
  { rewrite save_ok; subst w2 w3; simpl.
    - by rewrite insert_insert_eq.
    - exact Hreq.
    - rewrite lookup_insert_eq. eauto.
    - rewrite (duplicate_key_insert c2 c1 _ m) by reflexivity.
      rewrite (duplicate_key_keys c2 c1) by reflexivity. exact Hdup. }
  assert (attempt (BlockchainService.mintCertificate svc (College.walletAddress coll)
                     (academicData c2) (render (Blockchain.certificateHash (blockchain c2)))) w3
          = (Ok (Ok mr), w4)) as Hm.
  { unfold attempt. change (academicData c2) with (academicData c1).
    change (blockchain c2) with (blockchain c1). by rewrite Hmint. }
  assert (certificates w4 = <[_id c1 := c2]> m) as Hc4.
  { destruct (attempt_mintCertificate svc (College.walletAddress coll) (academicData c2)
                (render (Blockchain.certificateHash (blockchain c2))) w3)
      as (r & w' & Hr & Hc). rewrite Hm in Hr. injection Hr as <- <-. exact Hc. }
  split; [exact Hc4|].
  assert (duplicate_key c3 (certificates w4) = duplicate_key c3 m) as Hd4.
  { rewrite Hc4. by rewrite (duplicate_key_insert c3 c2 _ m). }
  unfold CertificateController.issueCertificate, handler.
  rewrite (bind_ok (User_findById_populate issuerId) _ w (Some (u, Some coll)) w); cycle 1.
  { unfold User_findById_populate, gets. rewrite Hu, Hcid. simpl. by rewrite Hcoll. }
  run_ok Hnew. run_ok Hs1. fold link. run_ok Hq. fold c2. run_ok Hs2. run_ok Hm.
  fold (minted_with mr c2). fold c3.
  destruct (duplicate_key c3 m) eqn:Hd3.
  - assert (save false c3 w4 = (Throw "E11000 duplicate key error", w4)) as Hs3.
    { unfold save. change (required_present c3) with (required_present c1).
      rewrite Hreq, Hd4, Hc4. simpl. by rewrite lookup_insert_eq. }
    rewrite (bind_ok (attempt (save false c3)) _ w4 (Throw "E11000 duplicate key error") w4)
      by (unfold attempt; by rewrite Hs3).
    unfold CertificateController.minting_pending.
    pose proof (save_set_status false PENDING c3 w4 _ w4 Hs3) as Hs4.
    run_throw Hs4. reflexivity.
  - assert (save false c3 w4
            = (Ok tt, with_certificates (<[_id c1 := c3]> m) w4)) as Hs3.
    { rewrite save_ok; rewrite ?Hc4; simpl.
      - by rewrite insert_insert_eq.
      - exact Hreq.
      - rewrite lookup_insert_eq. eauto.
      - rewrite (duplicate_key_insert c3 c2 _ m) by reflexivity. reflexivity || exact Hd3. }
    rewrite (bind_ok (attempt (save false c3)) _ w4 (Ok tt) _)
      by (unfold attempt; by rewrite Hs3).
    reflexivity.
Qed.

(** X11. Issuance when everything answers, with a contract attached: the
    issuer's college is found, the new document passes the validators of
    the schema, its id is free, the QR renderer answers, the contract's
    mint call returns a receipt whose token (if it reports one) is a safe
    integer and whose gas can be read, and the minted document clashes with
    no unique index. Then the response is 201 without a warning and the
    stored record is MINTED and carries the token, transaction hash and
    block number of the receipt together with the verification link and
    the QR code. *)
Theorem issueCertificate_anchors sd ai issuerId w u cid coll c1 w1 qr k receipt gas :
  users w !! issuerId = Some u ->
  User.college u = Some cid ->
  colleges w !! cid = Some coll ->
  CertificateController.new_Certificate sd ai issuerId coll w = (Ok c1, w1) ->
  schema_valid c1 = true ->
  certificates w !! _id c1 = None ->
  QRCode_toDataURL (qr_target env c1) = Ok qr ->
  BlockchainService.contract svc = Some k ->
  BlockchainService.contract_mintCertificate k (College.walletAddress coll) None
    (Some (AcademicData.degree (academicData c1))) None None
    (render (Blockchain.certificateHash (blockchain c1))) = Ok receipt ->
  safe_token (receipt_token receipt) = true ->
  BlockchainService.r_gasUsed receipt = Some gas ->
  let link := verification_link env c1 in
  let c2 := set_verificationLink link (set_qrCode qr c1) in
  let stored := minted_with (receipt_result receipt gas) c2 in
  duplicate_key stored (certificates w) = false ->
  exists w',
    CertificateController.issueCertificate env svc sd ai issuerId w
    = (Response.mk 201 true
         (Some "Certificate issued successfully with complete academic record")
         None
         (Some (IssuedData stored (mkStudentAccess (apiCode c1) link qr)))
         None None, w')
    /\ certificates w' = <[_id c1 := stored]> (certificates w)
    /\ status stored = MINTED
    /\ tokenId stored = receipt_token receipt
    /\ Blockchain.transactionHash (blockchain stored)
       = Some (BlockchainService.r_transactionHash receipt)
    /\ Blockchain.blockNumber (blockchain stored)
       = Some (BlockchainService.r_blockNumber receipt)
    /\ Metadata.verificationLink (metadata stored) = Some link
    /\ Metadata.qrCode (metadata stored) = Some qr.
Proof.
  intros Hu Hcid Hcoll Hnew Hvalid Hfresh Hqr Hk Hcall Hsafe Hgas link c2 stored Hdup.
  destruct (new_Certificate_spec _ _ _ _ _ _ _ Hnew) as (_ & _ & Htok & _).
  assert (duplicate_key c1 (certificates w) = false) as Hdup1.
  { by apply (duplicate_key_without_token c1 stored). }
  pose proof (live_mintCertificate k (College.walletAddress coll) (academicData c1)
                (render (Blockchain.certificateHash (blockchain c1))) receipt gas
                (with_certificates (<[_id c1 := c2]> (certificates w)) w1)
                Hk Hcall Hsafe Hgas) as Hmint.
  destruct (issueCertificate_mint_returns sd ai issuerId w u cid coll c1 w1 qr _ _
              Hu Hcid Hcoll Hnew Hvalid Hfresh Hdup1 Hqr Hmint) as [_ Hrun].
  fold link c2 stored in Hrun. rewrite Hdup in Hrun.
  eexists. split; [exact Hrun|]. repeat split.
Qed.

(** X12. Issuance when the minted document cannot be saved, with a
    contract attached: the new document passes the validators of the
    schema and is saved, the contract's mint call returns a receipt (its
    token a safe integer, its gas readable), but the document with the
    token set clashes with a unique index (another certificate already has
    that token). Then the save in the [try] block throws, the save of the
    [catch] block throws again (it writes the same token), and issuance
    answers 500 'Certificate issuance failed' although the certificate
    stays stored, with status PENDING, no token, its verification link and
    its QR code. *)
Theorem issueCertificate_token_clash sd ai issuerId w u cid coll c1 w1 qr k receipt gas :
  users w !! issuerId = Some u ->
  User.college u = Some cid ->
  colleges w !! cid = Some coll ->
  CertificateController.new_Certificate sd ai issuerId coll w = (Ok c1, w1) ->
  schema_valid c1 = true ->
  certificates w !! _id c1 = None ->
  duplicate_key c1 (certificates w) = false ->
  QRCode_toDataURL (qr_target env c1) = Ok qr ->
  BlockchainService.contract svc = Some k ->
  BlockchainService.contract_mintCertificate k (College.walletAddress coll) None
    (Some (AcademicData.degree (academicData c1))) None None
    (render (Blockchain.certificateHash (blockchain c1))) = Ok receipt ->
  safe_token (receipt_token receipt) = true ->
  BlockchainService.r_gasUsed receipt = Some gas ->
  let link := verification_link env c1 in
  let c2 := set_verificationLink link (set_qrCode qr c1) in
  duplicate_key (minted_with (receipt_result receipt gas) c2) (certificates w) = true ->
  let out := CertificateController.issueCertificate env svc sd ai issuerId w in
  out.1 = Response.mk 500 false (Some "Certificate issuance failed") None None None
            (Some "E11000 duplicate key error")
  /\ certificates out.2 !! _id c1 = Some c2
  /\ status c2 = PENDING
  /\ tokenId c2 = None
  /\ Metadata.verificationLink (metadata c2) = Some link
  /\ Metadata.qrCode (metadata c2) = Some qr
  /\ ledger_calls out.2
     = MintCall (College.walletAddress coll)
         (render (Blockchain.certificateHash (blockchain c1))) :: ledger_calls w1.
Proof.
  intros Hu Hcid Hcoll Hnew Hvalid Hfresh Hdup1 Hqr Hk Hcall Hsafe Hgas link c2 Hdup out.
  subst out.
  destruct (new_Certificate_spec _ _ _ _ _ _ _ Hnew) as (_ & _ & Htok & _ & _ & Hst & _).
  pose proof (live_mintCertificate k (College.walletAddress coll) (academicData c1)
                (render (Blockchain.certificateHash (blockchain c1))) receipt gas
                (with_certificates (<[_id c1 := c2]> (certificates w)) w1)
                Hk Hcall Hsafe Hgas) as Hmint.
  destruct (issueCertificate_mint_returns sd ai issuerId w u cid coll c1 w1 qr _ _
              Hu Hcid Hcoll Hnew Hvalid Hfresh Hdup1 Hqr Hmint) as [Hc4 Hrun].
  fold link c2 in Hrun, Hc4. rewrite Hdup in Hrun. rewrite Hrun. simpl.
  rewrite lookup_insert_eq. repeat split; assumption.
Qed.

End Anchored.

Lemma issueCertificate_anchors_witness :
  exists r w',
    CertificateController.issueCertificate (H:=Sample.runtime) Sample.env
      (Sample.live Sample.ledger_up) Sample.student Sample.academics Sample.admin_id
      (Sample.world ∅) = (r, w')
    /\ Response.statusCode r = 201
    /\ Response.warning r = None
    /\ status_of w' Sample.cert_id = Some MINTED.
Proof.
  edestruct (issueCertificate_anchors (H:=Sample.runtime) Sample.env
               (Sample.live Sample.ledger_up) Sample.student Sample.academics
               Sample.admin_id (Sample.world ∅)
               (User.mk Sample.admin_id (Some Sample.college_id)) Sample.college_id
               Sample.the_college)
    as (w' & Hrun & Hstored & _).
  - reflexivity.
  - reflexivity.
  - reflexivity.
  - vm_compute. reflexivity.
  - reflexivity.
  - reflexivity.
  - reflexivity.
  - reflexivity.
  - reflexivity.
  - reflexivity.
  - reflexivity.
  - reflexivity.
  - eexists. exists w'. split; [exact Hrun|]. simpl. repeat split.
    unfold status_of. rewrite Hstored. vm_compute. reflexivity.
Defined.

Lemma issueCertificate_token_clash_witness :
  let taken := Sample.certificate Sample.other_id "CERT-1" Sample.hash_a (Some 7) MINTED 0 None in
  let out := CertificateController.issueCertificate (H:=Sample.runtime) Sample.env
               (Sample.live Sample.ledger_up) Sample.student Sample.academics
               Sample.admin_id (Sample.world {[ Sample.other_id := taken ]}) in
  Response.statusCode out.1 = 500
  /\ status_of out.2 Sample.cert_id = Some PENDING.
Proof.
  intros taken out.
  edestruct (issueCertificate_token_clash (H:=Sample.runtime) Sample.env
               (Sample.live Sample.ledger_up) Sample.student Sample.academics
               Sample.admin_id (Sample.world {[ Sample.other_id := taken ]})
               (User.mk Sample.admin_id (Some Sample.college_id)) Sample.college_id
               Sample.the_college)
    as (Hr & _).
  - reflexivity.
  - reflexivity.
  - reflexivity.
  - vm_compute. reflexivity.
  - reflexivity.
  - reflexivity.
  - vm_compute. reflexivity.
  - reflexivity.
  - reflexivity.
  - reflexivity.
  - reflexivity.
  - reflexivity.
  - vm_compute. reflexivity.
  - fold out in Hr. split; [by rewrite Hr|]. vm_compute. reflexivity.
Defined.

(** ** Verification without a contract *)

Section MockVerdict.
Context (svc : BlockchainService.t) (Hmock : BlockchainService.contract svc = None).

Lemma mock_ledger_check c w :
  exists sig l,
    VerifyController.ledger_check svc c w = (Ok sig, with_ledger_calls l w)
    /\ signal_agrees sig = true.
Proof.
  unfold VerifyController.ledger_check.
  destruct (truthy_number (tokenId c)).
  - unfold mbind, M_bind, attempt. rewrite (mock_verifyCertificate _ _ _ Hmock).
    eexists _, _. split; reflexivity.
  - exists None, (ledger_calls w). by rewrite with_ledger_calls_id.
Qed.

Lemma mock_verify_tail k c w :
  store_ok (certificates w) ->
  certificates w !! k = Some c ->
  exists sig l,
    signal_agrees sig = true
    /\ (VerifyController.ledger_check svc c ≫= fun blockchainVerification =>
        recordVerification c ≫= fun certificate =>
        mret (VerifyController.verified certificate blockchainVerification)) w
       = (Ok (VerifyController.verified (verified_once (now w) c) sig),
          with_certificates (<[k := verified_once (now w) c]> (certificates w))
            (with_ledger_calls l w)).
Proof.
  intros Hok Hc.
  destruct (mock_ledger_check c w) as (sig & l & Hl & Hsig).
  exists sig, l. split; [exact Hsig|]. run_ok Hl.
  rewrite (bind_ok _ _ _ _ _ (recordVerification_stored k c (with_ledger_calls l w) Hok Hc)).
  reflexivity.
Qed.

Lemma mock_verifyCertificateById_outcome id w :
  store_ok (certificates w) ->
  agreed_outcome w (VerifyController.verifyCertificateById svc id w).
Proof.
  intros Hok. unfold VerifyController.verifyCertificateById, handler.
  destruct (findById_cases id w) as [[e He]|Hf].
  - run_throw He. left. auto.
  - run_ok Hf. destruct (certificates w !! toLowerCase id) as [c|] eqn:Hc.
    + destruct (mock_verify_tail _ c w Hok Hc) as (sig & l & Hsig & ->).
      right. exists (toLowerCase id), c, sig. auto.
    + left. auto.
Qed.

Lemma mock_verifyCertificateById_stored id c w :
  store_ok (certificates w) ->
  hex_of_length 24 id = true ->
  certificates w !! toLowerCase id = Some c ->
  exists sig l,
    signal_agrees sig = true
    /\ VerifyController.verifyCertificateById svc id w
       = (VerifyController.verified (verified_once (now w) c) sig,
          with_certificates (<[toLowerCase id := verified_once (now w) c]> (certificates w))
            (with_ledger_calls l w)).
Proof.
  intros Hok Hhex Hc.
  destruct (mock_verify_tail _ c w Hok Hc) as (sig & l & Hsig & Ht).
  exists sig, l. split; [exact Hsig|].
  unfold VerifyController.verifyCertificateById, handler, findById.
  rewrite Hhex. rewrite (bind_ok _ _ w (Some c) w) by (unfold gets; by rewrite Hc).
  by rewrite Ht.
Qed.

Lemma mock_verifyCertificateByHash_outcome h w :
  store_ok (certificates w) ->
  agreed_outcome w (VerifyController.verifyCertificateByHash svc h w).
Proof.
  intros Hok. unfold VerifyController.verifyCertificateByHash, handler.
  destruct (findOne_cases (by_certificateHash h) w) as [[Hf _]|(k & c & Hf & Hc & _)];
    run_ok Hf.
  - left. auto.
  - assert (attempt (BlockchainService.verifyCertificateByHash svc h) w
            = (Ok (Throw "Hash verification failed: Contract not initialized"),
               with_ledger_calls (VerifyByHashCall h :: ledger_calls w) w)) as Hr.
    { unfold attempt. by rewrite (mock_verifyCertificateByHash _ _ _ Hmock). }
    run_ok Hr.
    rewrite (bind_ok _ _ _ _ _ (recordVerification_stored k c (with_ledger_calls _ w) Hok Hc)).
    right. exists k, c, None. auto.
Qed.

Lemma mock_verifyByQRCode_outcome qrData w :
  store_ok (certificates w) ->
  agreed_outcome w (VerifyController.verifyByQRCode svc qrData w).
Proof.
  intros Hok. unfold VerifyController.verifyByQRCode, handler.
  assert (forall byId : option Certificate,
    (forall c, byId = Some c -> exists k, certificates w !! k = Some c) ->
    agreed_outcome w
      (let (r0, w') :=
         (match byId with
          | Some certificate => mret (Some certificate)
          | None => findOne (by_certificateHash qrData)
          end ≫= fun found =>
          match found with
          | Some certificate =>
              VerifyController.ledger_check svc certificate ≫= fun blockchainVerification =>
              recordVerification certificate ≫= fun certificate0 =>
              mret (VerifyController.verified certificate0 blockchainVerification)
          | None => mret (VerifyController.not_found "Invalid QR code or certificate not found")
          end) w in
       match r0 with
       | Ok r => (r, w')
       | Throw e => (VerifyController.failed "QR verification failed" e, w')
       end)) as Hfound.
  { assert (forall k c, certificates w !! k = Some c ->
      agreed_outcome w
        (let (r0, w') :=
           (VerifyController.ledger_check svc c ≫= fun blockchainVerification =>
            recordVerification c ≫= fun certificate =>
            mret (VerifyController.verified certificate blockchainVerification)) w in
         match r0 with
         | Ok r => (r, w')
         | Throw e => (VerifyController.failed "QR verification failed" e, w')
         end)) as Htail.
    { intros k c Hc. destruct (mock_verify_tail k c w Hok Hc) as (sig & l & Hsig & ->).
      right. exists k, c, sig. auto. }
    intros [c|] HbyId.
    - destruct (HbyId c eq_refl) as [k Hk]. rewrite bind_ret. eauto.
    - destruct (findOne_cases (by_certificateHash qrData) w)
        as [[Hf _]|(k & c & Hf & Hc & _)]; run_ok Hf; [left; auto|eauto]. }
  destruct (hex_of_length 24 qrData).
  - destruct (findById_cases qrData w) as [[e He]|Hf].
    + run_throw He. left. auto.
    + run_ok Hf. apply (Hfound (certificates w !! toLowerCase qrData)). intros c Hc. eauto.
  - rewrite bind_ret. apply (Hfound None). discriminate.
Qed.

Lemma agreed_verdict w out :
  agreed_outcome w out -> Response.success out.1 = true ->
  exists k c,
    certificates w !! k = Some c
    /\ Response.isValid out.1 = Some (bool_decide (status c = MINTED))
    /\ certificates out.2 = <[k := verified_once (now w) c]> (certificates w).
Proof.
  intros [[Hf _]|(k & c & sig & Hc & Hsig & -> & Hst)] Hs; [congruence|].
  exists k, c. split; [exact Hc|]. split; [|exact Hst].
  simpl. unfold VerifyController.overall_validity. simpl.
  unfold signal_agrees in Hsig. by rewrite Hsig, andb_true_r.
Qed.

End MockVerdict.

(** X13. Without a contract (mock mode) the ledger never speaks against a
    certificate: every verification by identifier, by hash or by QR payload
    that succeeds answers isValid exactly when the stored status is MINTED,
    whether or not the certificate has a token. *)
Theorem mock_verdict_is_local_status `{JsRuntime} (env : ProcessEnv)
    (svc : BlockchainService.t) (req : Request) (w : World) :
  BlockchainService.contract svc = None ->
  store_ok (certificates w) ->
  match req with
  | VerifyCertificateById _ | VerifyCertificateByHash _ | VerifyByQRCode _ => True
  | _ => False
  end ->
  let out := serve env svc req w in
  Response.success out.1 = true ->
  exists k c,
    certificates w !! k = Some c
    /\ Response.isValid out.1 = Some (bool_decide (status c = MINTED))
    /\ certificates out.2 !! k = Some (verified_once (now w) c).
Proof.
  intros Hmock Hok Hreq out Hs.
  assert (agreed_outcome w out) as Ha.
  { subst out. destruct req as [sd ai issuer|code|id reason|id|hash|qrData];
      try contradiction; simpl.
    - by apply mock_verifyCertificateById_outcome.
    - by apply mock_verifyCertificateByHash_outcome.
    - by apply mock_verifyByQRCode_outcome. }
  destruct (agreed_verdict w out Ha Hs) as (k & c & Hc & Hv & Hst).
  exists k, c. split; [exact Hc|]. split; [exact Hv|].
  rewrite Hst. apply lookup_insert_eq.
Qed.

Lemma mock_verdict_is_local_status_witness :
  let w := Sample.world (Sample.one Sample.anchored) in
  let out := serve (H:=Sample.runtime) Sample.env Sample.mock
               (VerifyCertificateByHash Sample.hash_a) w in
  Response.success out.1 = true /\ Response.isValid out.1 = Some true.
Proof.
  intros w out.
  assert (Response.success out.1 = true) as Hs by reflexivity.
  split; [exact Hs|].
  destruct (mock_verdict_is_local_status (H:=Sample.runtime) Sample.env Sample.mock
              (VerifyCertificateByHash Sample.hash_a) w eq_refl
              (store_ok_singleton Sample.anchored eq_refl) I Hs) as (k & c & Hc & Hv & _).
  reflexivity.
Defined.

(** X14. In mock mode an issuance answered 201 has always stored the
    certificate as MINTED, without a warning; verifying the new identifier
    right after (a 24-digit lower-case hexadecimal ObjectId) answers
    isValid = true and leaves the verification counter at 1. *)
Theorem mock_issue_then_verify `{JsRuntime} (env : ProcessEnv) (svc : BlockchainService.t)
    sd ai issuerId (w : World) :
  BlockchainService.contract svc = None ->
  store_ok (certificates w) ->
  let out := CertificateController.issueCertificate env svc sd ai issuerId w in
  Response.statusCode out.1 = 201 ->
  exists d access,
    Response.data out.1 = Some (IssuedData d access)
    /\ Response.warning out.1 = None
    /\ status_of out.2 (_id d) = Some MINTED
    /\ (hex_of_length 24 (_id d) = true -> toLowerCase (_id d) = _id d ->
        let seen := VerifyController.verifyCertificateById svc (_id d) out.2 in
        Response.success seen.1 = true
        /\ Response.isValid seen.1 = Some true
        /\ count_of seen.2 (_id d) = Some 1).
Proof.
  intros Hmock Hok out H201.
  destruct (issueCertificate_issued env svc sd ai issuerId w H201)
    as (d & qr & Hdata & Hissued & _ & Hcount & Hstatus).
  fold out in Hdata, Hissued, Hstatus.
  destruct Hstatus as [[Hst Hwarn]|(_ & _ & [k Hk] & _)]; [|congruence].
  destruct (issued_as_store_ok _ _ _ Hok Hissued) as [Hok' Hd].
  eexists d, _. split; [exact Hdata|]. split; [exact Hwarn|].
  split; [unfold status_of; by rewrite Hd, <- Hst|].
  intros Hhex Hlow seen.
  assert (certificates out.2 !! toLowerCase (_id d) = Some d) as Hd' by (by rewrite Hlow).
  destruct (mock_verifyCertificateById_stored svc Hmock (_id d) d out.2 Hok' Hhex Hd')
    as (sig & l & Hsig & Hv).
  fold seen in Hv. rewrite Hv. simpl.
  split; [reflexivity|]. split.
  - unfold VerifyController.overall_validity. simpl.
    unfold signal_agrees in Hsig. rewrite Hsig, Hst. reflexivity.
  - unfold count_of. simpl. rewrite Hlow, lookup_insert_eq. simpl. by rewrite Hcount.
Qed.

Lemma mock_issue_then_verify_witness :
  let out := CertificateController.issueCertificate (H:=Sample.runtime) Sample.env
               Sample.mock Sample.student Sample.academics Sample.admin_id (Sample.world ∅) in
  let seen := VerifyController.verifyCertificateById Sample.mock Sample.cert_id out.2 in
  Response.statusCode out.1 = 201
  /\ Response.isValid seen.1 = Some true
  /\ count_of seen.2 Sample.cert_id = Some 1.
Proof.
  intros out seen.
  assert (Response.statusCode out.1 = 201) as H201 by (vm_compute; reflexivity).
  split; [exact H201|].
  destruct (mock_issue_then_verify (H:=Sample.runtime) Sample.env Sample.mock
              Sample.student Sample.academics Sample.admin_id (Sample.world ∅)
              eq_refl store_ok_empty H201) as (d & access & Hdata & _ & _ & Hseen).
  assert (_id d = Sample.cert_id) as Hid.
  { vm_compute in Hdata. injection Hdata as <- _. reflexivity. }
  rewrite Hid in Hseen. destruct (Hseen eq_refl eq_refl) as (_ & Hv & Hc).
  split; assumption.
Defined.

(** ** The QR endpoint and the identifier endpoint *)



(** ** Reading a certificate by identifier *)

(** X16. [getCertificateById] only reads: whatever the caller and the
    identifier, the world afterwards is the world before, so no
    verification is recorded. A success carries the stored certificate,
    with its counter as stored. On the route [GET /:id], where no
    authentication runs, every stored certificate is served to everyone
    and the answer Access denied is never given. *)
Theorem getCertificateById_only_reads (user : option ReqUser.t) (id : string) (w : World) :
  let out := getCertificateById user id w in
  out.2 = w
  /\ (Response.success out.1 = true ->
      exists c, certificates w !! toLowerCase id = Some c
                /\ Response.data out.1 = Some (CertificateData c))
  /\ Response.statusCode (route_getCertificateById id w).1 <> 403
  /\ (hex_of_length 24 id = true ->
      forall c, certificates w !! toLowerCase id = Some c ->
      (route_getCertificateById id w).1
      = Response.mk 200 true None None (Some (CertificateData c)) None None).
Proof.
  unfold route_getCertificateById.
  assert (forall user,
    let out := getCertificateById user id w in
    out.2 = w
    /\ (Response.success out.1 = true ->
        exists c, certificates w !! toLowerCase id = Some c
                  /\ Response.data out.1 = Some (CertificateData c))
    /\ (user = None -> Response.statusCode out.1 <> 403)
    /\ (user = None -> hex_of_length 24 id = true ->
        forall c, certificates w !! toLowerCase id = Some c ->
        out.1 = Response.mk 200 true None None (Some (CertificateData c)) None None)) as Hgen.
  { clear user. intros user. simpl. unfold getCertificateById, handler, findById.
    destruct (hex_of_length 24 id); [|simpl; repeat split; intros; discriminate].
    rewrite (bind_ok (gets _) _ w _ w eq_refl).
    destruct (certificates w !! toLowerCase id) as [c|];
      [|simpl; repeat split; intros; discriminate].
    rewrite (bind_ok (gets _) _ w _ w eq_refl).
    destruct user as [u|].
    - destruct (users w !! issuedBy c) as [i|];
        [|simpl; repeat split; intros; discriminate].
      rewrite bind_ret.
      destruct (_ || _ || _)%bool; simpl; repeat split; intros; try discriminate; eauto.
    - rewrite bind_ret. simpl. repeat split; intros; try discriminate; eauto.
      congruence. }
  cbv zeta in *.
  destruct (Hgen user) as (H1 & H2 & _ & _).
  destruct (Hgen None) as (_ & _ & H3 & H4).
  auto.
Qed.

(** ** The guards of the issuing routes *)

(** X17. The role guards in front of [POST /issue] (and of
    [GET /college/all] and [POST /batch/issue]), [requireAdmin] followed by
    [requireCollegeAssociation], let a request pass exactly when its user
    has the role ADMIN and a college; without a user the answer is 401,
    otherwise 403, and the message 'Admin role required' of the second
    guard is never the answer. *)
Theorem issue_route_guards (user : option ReqUser.t) :
  let guards := [RoleMiddleware.requireAdmin; RoleMiddleware.requireCollegeAssociation] in
  match RoleMiddleware.chain guards user with
  | RoleMiddleware.Next =>
      exists u, user = Some u /\ ReqUser.role u = "ADMIN" /\ is_Some (ReqUser.college u)
  | RoleMiddleware.Answer r =>
      Response.success r = false
      /\ Response.message r <> Some "Admin role required"
      /\ match user with
         | None => Response.statusCode r = 401
         | Some u =>
             Response.statusCode r = 403
             /\ (ReqUser.role u <> "ADMIN" \/ ReqUser.college u = None)
         end
  end.
Proof.
  simpl. unfold RoleMiddleware.requireAdmin, RoleMiddleware.requireRole,
    RoleMiddleware.requireCollegeAssociation, RoleMiddleware.denied.
  destruct user as [u|]; simpl; [|repeat split; discriminate].
  rewrite orb_false_r.
  destruct (String.eqb_spec (ReqUser.role u) "ADMIN") as [Hrole|Hrole]; simpl.
  - destruct (ReqUser.college u) as [cid|] eqn:Hcol; simpl.
    + exists u. rewrite Hcol. eauto.
    + repeat split; auto; discriminate.
  - repeat split; auto; discriminate.
Qed.

(** ** Account locking *)

(** X18. Whenever [incLoginAttempts] leaves an account with five or more
    recorded attempts, the account is locked at that moment: the lock was
    running already and is kept as it is, or it is set to two hours from
    now. *)
Theorem incLoginAttempts_locks (now : Z) (u : Account.t) :
  let u' := Account.incLoginAttempts now u u in
  5 <= Account.loginAttempts u' ->
  Account.isLocked now u' = true
  /\ (Account.isLocked now u = true -> Account.lockUntil u' = Account.lockUntil u)
  /\ (Account.isLocked now u = false ->
      Account.lockUntil u' = Some (now + 7200000)).
Proof.
  simpl. unfold Account.incLoginAttempts, Account.isLocked.
  change (2 * 60 * 60 * 1000) with 7200000.
  destruct u as [n [l|]]; simpl;
    repeat (match goal with
            | |- context [Z.ltb ?a ?b] => destruct (Z.ltb_spec a b)
            | |- context [Z.leb ?a ?b] => destruct (Z.leb_spec a b)
            end; simpl);
    intros; repeat split; intros; try lia; try congruence.
Qed.

Lemma incLoginAttempts_locks_witness :
  Account.isLocked 1000 (Account.incLoginAttempts 1000 (Account.mk 4 None) (Account.mk 4 None))
  = true.
Proof.
  apply (incLoginAttempts_locks 1000 (Account.mk 4 None)). simpl. lia.
Defined.

Lemma incLoginAttempts_at_unlocked (times : list Z) : forall n,
  (n + Z.of_nat (length times) < 5) ->
  Account.incLoginAttempts_at times (Account.mk n None)
  = Account.mk (n + Z.of_nat (length times)) None.
Proof.
  induction times as [|t times IH]; intros n Hn; simpl in *.
  - f_equal. lia.
  - unfold Account.incLoginAttempts, Account.isLocked. simpl.
    destruct (Z.leb_spec 5 (n + 1)); simpl; [lia|].
    rewrite IH by lia. f_equal. lia.
Qed.

(** X19. The method [incLoginAttempts] of the user model, called again and
    again on an account document that starts with no attempts and no lock,
    every call on the document as the call before left it: fewer than five
    calls, whenever they happen, leave the document unlocked with the
    calls counted; the fifth call sets [lockUntil] to exactly two hours
    after the time of that call. This is a property of the method alone:
    the login handler keeps its own count of failures and does not call
    it. *)
Theorem fifth_incLoginAttempts_locks_for_two_hours (times : list Z) (last : Z) :
  (length times < 5)%nat ->
  let before := Account.incLoginAttempts_at times (Account.mk 0 None) in
  before = Account.mk (Z.of_nat (length times)) None
  /\ (length times = 4%nat ->
      Account.incLoginAttempts_at (times ++ [last]) (Account.mk 0 None)
      = Account.mk 5 (Some (last + 7200000))).
Proof.
  intros Hlen. simpl.
  assert (Account.incLoginAttempts_at times (Account.mk 0 None)
          = Account.mk (Z.of_nat (length times)) None) as Hbefore.
  { rewrite incLoginAttempts_at_unlocked; [f_equal|]; lia. }
  split; [exact Hbefore|].
  intros H4. unfold Account.incLoginAttempts_at in *. rewrite fold_left_app, Hbefore. simpl.
  rewrite H4. reflexivity.
Qed.

Lemma fifth_incLoginAttempts_locks_for_two_hours_witness :
  Account.incLoginAttempts_at [10; 20; 30; 40; 50] (Account.mk 0 None)
  = Account.mk 5 (Some (50 + 7200000)).
Proof.
  apply (fifth_incLoginAttempts_locks_for_two_hours [10; 20; 30; 40] 50);
    [simpl; lia|reflexivity].
Defined.

(** ** Sequences of requests *)

Section Sequences.
Context `{JsRuntime} (env : ProcessEnv) (svc : BlockchainService.t).

(** X20. A revoked credential never verifies as valid again: after a
    successful revocation, and whatever requests are served afterwards
    (issuances, lookups, verifications, further revocations), a
    verification of that credential by its identifier still finds it and
    answers isValid = false. *)
Theorem revoked_never_verifies_again (id reason : string) (reqs : list Request) (w : World) :
  store_ok (certificates w) ->
  hex_of_length 24 id = true ->
  let revoked := CertificateController.revokeCertificate svc id reason w in
  Response.success revoked.1 = true ->
  let later := serve_all env svc reqs revoked.2 in
  let seen := VerifyController.verifyCertificateById svc id later.2 in
  Response.success seen.1 = true /\ Response.isValid seen.1 = Some false.
Proof.
  intros Hok Hhex revoked Hs later seen.
  destruct (revokeCertificate_step svc id reason w Hok) as [Hok1 _].
  fold revoked in Hok1.
  assert (status_of revoked.2 (toLowerCase id) = Some REVOKED) as Hst1.
  { destruct (revokeCertificate_store svc id reason w Hok) as [[Hf _]|(c & _ & _ & Hm)];
      fold revoked in Hf || fold revoked in Hm; [congruence|].
    unfold status_of. by rewrite Hm, lookup_insert_eq. }
  destruct (serve_all_revoked env svc (toLowerCase id) reqs revoked.2 Hok1 Hst1)
    as [Hok2 Hst2].
  fold later in Hok2, Hst2. unfold status_of in Hst2.
  destruct (certificates later.2 !! toLowerCase id) as [c2|] eqn:Hc2; [|discriminate].
  injection Hst2 as Hst2.
  destruct (verifyCertificateById_stored svc id c2 later.2 Hok2 Hhex Hc2) as (sig & l & Hv).
  fold seen in Hv. rewrite Hv. simpl. split; [reflexivity|]. f_equal.
  apply overall_validity_not_minted. simpl. congruence.
Qed.

(** What one request does to the counter of a stored certificate. *)
Lemma serve_count (req : Request) (w : World) (id : string) (n : Z) :
  store_ok (certificates w) ->
  count_of w id = Some n ->
  exists n', count_of (serve env svc req w).2 id = Some n' /\ n <= n' <= n + 1.
Proof.
  intros Hok Hn. unfold count_of in *.
  destruct (certificates w !! id) as [c0|] eqn:Hc0; [|discriminate].
  injection Hn as <-.
  assert (forall out : Response.t * World,
    certificates out.2 = certificates w
    \/ (exists k c, certificates w !! k = Some c
        /\ (certificates out.2 = <[k := verified_once (now w) c]> (certificates w)
            \/ exists reason,
                 certificates out.2 = <[k := revoked_with reason c]> (certificates w)))
    \/ (exists k d, certificates w !! k = None
        /\ certificates out.2 = <[k := d]> (certificates w)) ->
    exists n', verificationCount <$> certificates out.2 !! id = Some n'
               /\ verificationCount c0 <= n' <= verificationCount c0 + 1) as Hgen.
  { intros out [->|[(k & c & Hc & Hm)|(k & d & Hk & ->)]].
    - rewrite Hc0. simpl. eexists. split; [reflexivity|lia].
    - destruct (decide (k = id)) as [->|Hne].
      + assert (c = c0) as -> by congruence.
        destruct Hm as [->|[reason ->]]; rewrite lookup_insert_eq; simpl;
          eexists; (split; [reflexivity|lia]).
      + destruct Hm as [->|[reason ->]]; rewrite lookup_insert_ne by done;
          rewrite Hc0; simpl; eexists; (split; [reflexivity|lia]).
    - rewrite lookup_insert_ne by congruence. rewrite Hc0. simpl.
      eexists. split; [reflexivity|lia]. }
  apply Hgen.
  assert (forall out, verification_outcome w out ->
    certificates out.2 = certificates w
    \/ (exists k c, certificates w !! k = Some c
        /\ (certificates out.2 = <[k := verified_once (now w) c]> (certificates w)
            \/ exists reason,
                 certificates out.2 = <[k := revoked_with reason c]> (certificates w)))
    \/ (exists k d, certificates w !! k = None
        /\ certificates out.2 = <[k := d]> (certificates w))) as Hv.
  { intros out [[_ ?]|(k & c & sig & Hc & _ & ?)]; [by left|]. right. left. eauto. }
  destruct req as [sd ai issuer|code|rid reason|vid|hash|qrData]; simpl.
  - destruct (issueCertificate_store env svc sd ai issuer w)
      as [?|(k & d & _ & Hfresh & _ & _ & ?)]; [by left|]. right. right. eauto.
  - destruct (getCertificateByApiCode_outcome code w Hok) as [[_ ?]|(k & c & Hc & _ & ->)];
      [by left|]. right. left. eauto.
  - destruct (revokeCertificate_store svc rid reason w Hok) as [[_ ?]|(c & Hc & _ & ?)];
      [by left|]. right. left. eauto 10.
  - by apply Hv, verifyCertificateById_outcome.
  - by apply Hv, verifyCertificateByHash_outcome.
  - by apply Hv, verifyByQRCode_outcome.
Qed.

(** X21. Under any sequence of requests a stored certificate stays
    stored and its verification counter never decreases; it rises by at
    most one per request served. *)
Theorem counter_never_decreases (reqs : list Request) (id : string) : forall (w : World) n,
  store_ok (certificates w) ->
  count_of w id = Some n ->
  exists n', count_of (serve_all env svc reqs w).2 id = Some n'
             /\ n <= n' <= n + Z.of_nat (length reqs).
Proof.
  induction reqs as [|req reqs IH]; intros w n Hok Hn.
  - exists n. simpl. split; [exact Hn|lia].
  - destruct (serve_count req w id n Hok Hn) as (n1 & Hn1 & Hle1).
    destruct (serve_step env svc req w Hok) as [Hok1 _].
    simpl. destruct (serve env svc req w) as [r w1]. simpl in *.
    destruct (IH w1 n1 Hok1 Hn1) as (n' & Hn' & Hle).
    destruct (serve_all env svc reqs w1) as [rs w2]. simpl in *.
    exists n'. split; [exact Hn'|lia].
Qed.

End Sequences.

Lemma revoked_never_verifies_again_witness :
  let w := Sample.world (Sample.one Sample.unanchored) in
  let revoked := CertificateController.revokeCertificate Sample.mock Sample.cert_id "fraud" w in
  let later := serve_all (H:=Sample.runtime) Sample.env Sample.mock
                 [VerifyCertificateById Sample.cert_id;
                  RevokeCertificate Sample.cert_id "again"] revoked.2 in
  Response.isValid (VerifyController.verifyCertificateById Sample.mock Sample.cert_id later.2).1
  = Some false.
Proof.
  intros w revoked later.
  apply (revoked_never_verifies_again (H:=Sample.runtime) Sample.env Sample.mock
           Sample.cert_id "fraud"
           [VerifyCertificateById Sample.cert_id; RevokeCertificate Sample.cert_id "again"] w).
  - apply (store_ok_singleton Sample.unanchored). reflexivity.
  - reflexivity.
  - reflexivity.
Defined.

Lemma counter_never_decreases_witness :
  let w := Sample.world (Sample.one Sample.withdrawn) in
  exists n',
    count_of (serve_all (H:=Sample.runtime) Sample.env Sample.mock
                [VerifyCertificateById Sample.cert_id;
                 GetCertificateByApiCode "CERT-1"] w).2 Sample.cert_id = Some n'
    /\ 3 <= n' <= 3 + 2.
Proof.
  intros w.
  apply (counter_never_decreases (H:=Sample.runtime) Sample.env Sample.mock
           [VerifyCertificateById Sample.cert_id; GetCertificateByApiCode "CERT-1"]
           Sample.cert_id w 3).
  - apply (store_ok_singleton Sample.withdrawn). reflexivity.
  - reflexivity.
Defined.
